(** * WUnderground plugin: ingestion, quota and staleness engine

    A shallow embedding of [plugin.py]: [nestedLookup],
    [fixCorruptedData], [floatEverything], the display formatters,
    [callCount], [callDay], [getWeatherData], [parseWeatherData],
    [getSatelliteImage], [getWUradar], [refreshWeatherData],
    [triggerFireOfflineDevice], the trigger registration and the two
    validation dialogs.

    Python values are a tagged type, Python floats are IEEE binary64
    (Rocq's primitive floats), Python ints are [Z], exceptions are an
    explicit result type, and [self.pluginPrefs], the host's device
    registry ([indigo.devices]), [self.masterWeatherDict] and
    [self.masterTriggerDict] are explicit state.  What the plugin gets
    from outside (the provider's replies, the host's clock and calendar,
    the date format of the support library) is a parameter of the code
    that uses it.  Writes to the log are not modelled. *)

From Stdlib Require Import ZArith Bool List Ascii String Lia Floats.
From stdpp Require Import base option gmap strings.
Import ListNotations.

Set Warnings "-register-all,-inexact-float".

Open Scope string_scope.
Open Scope Z_scope.

(** ** The Python runtime the plugin relies on *)

Module Py.

(** Exceptions the modelled code can raise. *)
Inductive exn : Type :=
| ValueError
| TypeError
| KeyError
| IndexError
| OverflowError
| UnboundLocalError.

(** Outcome of a Python expression: a value or a raised exception. *)
Inductive result (A : Type) : Type :=
| Return (a : A)
| Raise (e : exn).
Arguments Return {A} a.
Arguments Raise {A} e.

#[global] Instance result_ret : MRet result := fun A a => Return a.
#[global] Instance result_bind : MBind result := fun A B k m =>
  match m with
  | Return a => k a
  | Raise e => Raise e
  end.

(** [try: m except E: h] for a single exception class [E]. *)
Definition try_except {A : Type} (m : result A) (E : exn -> bool)
    (h : result A) : result A :=
  match m with
  | Return a => Return a
  | Raise e => if E e then h else Raise e
  end.

Definition exn_eqb (a b : exn) : bool :=
  match a, b with
  | ValueError, ValueError | TypeError, TypeError | KeyError, KeyError
  | IndexError, IndexError | OverflowError, OverflowError
  | UnboundLocalError, UnboundLocalError => true
  | _, _ => false
  end.

(** A decoded JSON document or any other Python value the plugin handles.
    Objects are association lists in document order; the decoder hands
    out objects with distinct keys. *)
Inductive pyval : Type :=
| PyNone
| PyBool (b : bool)
| PyInt (z : Z)
| PyFloat (f : float)
| PyStr (s : string)
| PyList (l : list pyval)
| PyDict (d : list (string * pyval)).

(** *** Strings *)

Definition is_space (c : ascii) : bool :=
  let n := Z.of_nat (nat_of_ascii c) in
  (n =? 32) || ((9 <=? n) && (n <=? 13)).

Fixpoint lstrip (s : string) : string :=
  match s with
  | String c r => if is_space c then lstrip r else s
  | EmptyString => s
  end.

Definition digit_of (c : ascii) : option Z :=
  let n := Z.of_nat (nat_of_ascii c) in
  if (48 <=? n) && (n <=? 57) then Some (n - 48) else None.

(** Reads a maximal run of decimal digits: accumulated value, number of
    digits read, rest of the input. *)
Fixpoint read_digits (s : string) (acc cnt : Z) : Z * Z * string :=
  match s with
  | String c r =>
      match digit_of c with
      | Some d => read_digits r (10 * acc + d) (cnt + 1)
      | None => (acc, cnt, s)
      end
  | EmptyString => (acc, cnt, s)
  end.

Definition read_sign (s : string) : bool * string :=
  match s with
  | String "-" r => (true, r)
  | String "+" r => (false, r)
  | _ => (false, s)
  end.

Definition lower (c : ascii) : ascii :=
  let n := nat_of_ascii c in
  if ((65 <=? n) && (n <=? 90))%nat then ascii_of_nat (n + 32) else c.

Fixpoint lowercase (s : string) : string :=
  match s with
  | String c r => String (lower c) (lowercase r)
  | EmptyString => EmptyString
  end.

(** [needle in hay] on strings: substring test. *)
Fixpoint is_substring (needle hay : string) : bool :=
  if String.prefix needle hay then true
  else match hay with
       | String _ r => is_substring needle r
       | EmptyString => false
       end.

(** Decimal digits of a non-negative integer, most significant first. *)
Fixpoint digits_fuel (fuel : nat) (z : Z) (acc : string) : string :=
  match fuel with
  | O => acc
  | S fuel' =>
      let acc' := String (ascii_of_nat (Z.to_nat (48 + z mod 10))) acc in
      if z <? 10 then acc' else digits_fuel fuel' (z / 10) acc'
  end.

Definition digits_of_Z (z : Z) : string :=
  digits_fuel (S (Z.to_nat (Z.log2 z))) z "".

Definition str_of_Z (z : Z) : string :=
  if z <? 0 then "-" +:+ digits_of_Z (- z) else digits_of_Z z.

(** *** Floats: [float(x)] *)

Definition signed (neg : bool) (f : float) : float :=
  if neg then (- f)%float else f.

(** The binary64 nearest (ties to even) to [m * 10 ^ e], [m >= 0].
    Inputs far outside the binary64 range are settled without building
    the power of ten. *)
Definition float_of_decimal (neg : bool) (m e : Z) : float :=
  match m with
  | Zpos p =>
      let b := Z.log2 m in
      if 310 <? e + b / 4 then signed neg infinity
      else if e + (b + 1) / 3 + 1 <? -330 then signed neg zero
      else if 0 <=? e then
        SF2Prim (binary_round prec emax neg (Z.to_pos (m * 10 ^ e)) 0)
      else
        let '(q, eq, l) := SFdiv_core_binary prec emax m 0 (10 ^ (- e)) 0 in
        SF2Prim (binary_round_aux prec emax neg q eq l)
  | _ => signed neg zero
  end.

(** Mantissa digits with an optional point and an optional exponent:
    decimal mantissa, decimal exponent, rest of the input. *)
Definition read_decimal (s : string) : option (Z * Z * string) :=
  let '(ip, ni, r1) := read_digits s 0 0 in
  let '(m, nf, r2) :=
    match r1 with
    | String "." r => read_digits r ip 0
    | _ => (ip, 0, r1)
    end in
  if ni + nf =? 0 then None
  else
    let '(e, r3) :=
      match r2 with
      | String c r =>
          if Ascii.eqb (lower c) "e" then
            let '(eneg, r') := read_sign r in
            let '(ev, ne, r'') := read_digits r' 0 0 in
            if ne =? 0 then (0, r2) else ((if eneg then - ev else ev), r'')
          else (0, r2)
      | EmptyString => (0, r2)
      end in
    Some (m, e - nf, r3).

(** [float(s)] for a string: surrounding whitespace, a sign, then
    [inf], [infinity], [nan] or a decimal literal; anything else is a
    [ValueError]. *)
Definition float_of_string (s : string) : result float :=
  let '(neg, body) := read_sign (lstrip s) in
  match read_decimal body with
  | Some (m, e, rest) =>
      match lstrip rest with
      | EmptyString => Return (float_of_decimal neg m e)
      | _ => Raise ValueError
      end
  | None =>
      let w := lowercase body in
      if String.prefix "infinity" w then
        match lstrip (substring 8 (String.length w) w) with
        | EmptyString => Return (signed neg infinity)
        | _ => Raise ValueError
        end
      else if String.prefix "inf" w then
        match lstrip (substring 3 (String.length w) w) with
        | EmptyString => Return (signed neg infinity)
        | _ => Raise ValueError
        end
      else if String.prefix "nan" w then
        match lstrip (substring 3 (String.length w) w) with
        | EmptyString => Return nan
        | _ => Raise ValueError
        end
      else Raise ValueError
  end.

(** The binary64 nearest to an integer. *)
Definition float_of_Z (z : Z) : float :=
  SF2Prim (binary_normalize prec emax z 0 false).

(** An integer no binary64 is near: from [2^1024 - 2^970] on, the
    first magnitude that rounds up to [2^1024]. *)
Definition int_too_large (z : Z) : bool :=
  2 ^ 1024 - 2 ^ 970 <=? Z.abs z.

(** [float(x)]: numbers convert, except that an integer out of the
    range of a float is an [OverflowError] ("long int too large to
    convert to float"); strings are parsed; everything else is a
    [TypeError] ("float() argument must be a string or a number"). *)
Definition py_float (v : pyval) : result float :=
  match v with
  | PyFloat f => Return f
  | PyInt z =>
      if int_too_large z then Raise OverflowError else Return (float_of_Z z)
  | PyBool b => Return (float_of_Z (if b then 1 else 0))
  | PyStr s => float_of_string s
  | PyNone | PyList _ | PyDict _ => Raise TypeError
  end.

(** *** Floats: [str(x)], the ['%.12g'] rendering of Python 2 *)

(** Nearest integer to [num / den], ties to even ([den > 0]). *)
Definition round_half_even (num den : Z) : Z :=
  let q := num / den in
  match (2 * (num mod den)) ?= den with
  | Lt => q
  | Eq => if Z.even q then q else q + 1
  | Gt => q + 1
  end.

(** [10 ^ x <= n / d], for [n, d > 0] and any integer [x]. *)
Definition ge_pow10 (n d x : Z) : bool :=
  if 0 <=? x then d * 10 ^ x <=? n else d <=? n * 10 ^ (- x).

(** Largest [x] at most [hi] with [10 ^ x <= n / d], looking [fuel]
    steps down from [hi]. *)
Fixpoint dec_exponent_from (fuel : nat) (n d hi : Z) : Z :=
  match fuel with
  | O => hi
  | S fuel' => if ge_pow10 n d hi then hi else dec_exponent_from fuel' n d (hi - 1)
  end.

(** The decimal exponent [x] of [n / d]: [10 ^ x <= n / d < 10 ^ (x + 1)].
    The binary logarithms place it within two of the first guess. *)
Definition dec_exponent (n d : Z) : Z :=
  let g := ((Z.log2 n - Z.log2 d) * 30103) / 100000 in
  dec_exponent_from 5 n d (g + 2).

Fixpoint strip_zeros_rev (s : list ascii) : list ascii :=
  match s with
  | "0"%char :: r => strip_zeros_rev r
  | _ => s
  end.

(** Drops trailing ["0"] characters. *)
Definition rstrip_zeros (s : string) : string :=
  string_of_list_ascii (rev (strip_zeros_rev (rev (list_ascii_of_string s)))).

Fixpoint zeros (n : nat) : string :=
  match n with
  | O => ""
  | S n' => String "0" (zeros n')
  end.

(** The ['g'] layout of twelve significant digits [r] (as an integer in
    [10^11, 10^12)) with decimal exponent [x], followed by the [".0"]
    that [str] appends to a rendering made of digits only. *)
Definition format_g12 (neg : bool) (r x : Z) : string :=
  let ds := digits_of_Z r in
  let sign := if neg then "-" else "" in
  if (x <? -4) || (12 <=? x) then
    let frac := rstrip_zeros (substring 1 11 ds) in
    let ex := Z.abs x in
    sign +:+ substring 0 1 ds
         +:+ (if String.eqb frac "" then "" else "." +:+ frac)
         +:+ "e" +:+ (if x <? 0 then "-" else "+")
         +:+ (if ex <? 10 then "0" else "") +:+ digits_of_Z ex
  else if 0 <=? x then
    let k := Z.to_nat (x + 1) in
    let frac := rstrip_zeros (substring k (12 - k) ds) in
    sign +:+ substring 0 k ds
         +:+ "." +:+ (if String.eqb frac "" then "0" else frac)
  else
    sign +:+ "0." +:+ zeros (Z.to_nat (- x - 1)) +:+ rstrip_zeros ds.

(** [str(f)] for a float. *)
Definition str_of_float (f : float) : string :=
  match Prim2SF f with
  | S754_nan => "nan"
  | S754_infinity s => if s then "-inf" else "inf"
  | S754_zero s => if s then "-0.0" else "0.0"
  | S754_finite s m e =>
      let n := if 0 <=? e then Zpos m * 2 ^ e else Zpos m in
      let d := if 0 <=? e then 1 else 2 ^ (- e) in
      let x := dec_exponent n d in
      let r := if x <=? 11 then round_half_even (n * 10 ^ (11 - x)) d
               else round_half_even n (d * 10 ^ (x - 11)) in
      if r =? 10 ^ 12 then format_g12 s (10 ^ 11) (x + 1)
      else format_g12 s r x
  end.

(** *** Integers: [int(x)] *)

(** [int(s)] for a string: surrounding whitespace, a sign, decimal
    digits. *)
Definition int_of_string (s : string) : result Z :=
  let '(neg, body) := read_sign (lstrip s) in
  let '(v, n, rest) := read_digits body 0 0 in
  if n =? 0 then Raise ValueError
  else match lstrip rest with
       | EmptyString => Return (if neg then - v else v)
       | _ => Raise ValueError
       end.

(** [int(f)] for a float: truncation toward zero. *)
Definition int_of_float (f : float) : result Z :=
  match Prim2SF f with
  | S754_nan => Raise ValueError
  | S754_infinity _ => Raise OverflowError
  | S754_zero _ => Return 0
  | S754_finite s m e =>
      let a := if 0 <=? e then Zpos m * 2 ^ e else Zpos m / 2 ^ (- e) in
      Return (if s then - a else a)
  end.

Definition py_int (v : pyval) : result Z :=
  match v with
  | PyInt z => Return z
  | PyBool b => Return (if b then 1 else 0)
  | PyFloat f => int_of_float f
  | PyStr s => int_of_string s
  | PyNone | PyList _ | PyDict _ => Raise TypeError
  end.

(** *** Containers *)

Fixpoint dict_get (d : list (string * pyval)) (k : string) : option pyval :=
  match d with
  | [] => None
  | (k', v) :: r => if String.eqb k' k then Some v else dict_get r k
  end.

Definition is_str (k : string) (v : pyval) : bool :=
  match v with
  | PyStr s => String.eqb s k
  | _ => false
  end.

(** [k in sub] for a string [k]: key membership on an object, substring
    test on a string, element membership on a list; numbers, booleans
    and [None] are not iterable. *)
Definition py_contains (k : string) (sub : pyval) : result bool :=
  match sub with
  | PyDict d => Return (bool_decide (is_Some (dict_get d k)))
  | PyStr s => Return (is_substring k s)
  | PyList l => Return (existsb (is_str k) l)
  | PyNone | PyBool _ | PyInt _ | PyFloat _ => Raise TypeError
  end.

(** [sub[k]] for a string [k]: only objects take string subscripts. *)
Definition py_getitem (sub : pyval) (k : string) : result pyval :=
  match sub with
  | PyDict d =>
      match dict_get d k with
      | Some v => Return v
      | None => Raise KeyError
      end
  | _ => Raise TypeError
  end.

(** [sub[i]] for an integer [i >= 0]: position in a list or a string. *)
Definition py_index (sub : pyval) (i : nat) : result pyval :=
  match sub with
  | PyList l =>
      match nth_error l i with
      | Some v => Return v
      | None => Raise IndexError
      end
  | PyStr s =>
      match String.get i s with
      | Some c => Return (PyStr (String c ""))
      | None => Raise IndexError
      end
  | PyDict _ => Raise KeyError
  | PyNone | PyBool _ | PyInt _ | PyFloat _ => Raise TypeError
  end.

(** *** Floats: [round(x, n)] and ["{0:0.{1}f}".format(x, n)] *)

(** Nearest integer to [num / den], ties away from zero ([num >= 0],
    [den > 0]). *)
Definition round_half_up (num den : Z) : Z :=
  (2 * num + den) / (2 * den).

(** [round(f, ndigits)] of Python 2 for [ndigits >= 0]: the exact value
    rounded to [ndigits] decimals, ties away from zero, and of that the
    nearest float; zeros, infinities and nans round to themselves. *)
Definition py_round (f : float) (ndigits : Z) : float :=
  match Prim2SF f with
  | S754_finite s m e =>
      let n := if 0 <=? e then Zpos m * 2 ^ e else Zpos m in
      let d := if 0 <=? e then 1 else 2 ^ (- e) in
      float_of_decimal s (round_half_up (n * 10 ^ ndigits) d) (- ndigits)
  | _ => f
  end.

(** The digits [r] of a number scaled by [10 ^ p], laid out with [p]
    decimals. *)
Definition fixed_digits (neg : bool) (r : Z) (p : nat) : string :=
  let ds := digits_of_Z r in
  let ds := zeros (S p - String.length ds) +:+ ds in
  let k := (String.length ds - p)%nat in
  (if neg then "-" else "")
    +:+ substring 0 k ds
    +:+ (if (p =? 0)%nat then "" else "." +:+ substring k p ds).

(** [u"{0:0.{1}f}".format(f, p)] for [p >= 0]: the value rounded to
    [p] decimals, ties to even on the exact binary value. *)
Definition format_fixed (f : float) (p : nat) : string :=
  match Prim2SF f with
  | S754_nan => "nan"
  | S754_infinity s => if s then "-inf" else "inf"
  | S754_zero s => fixed_digits s 0 p
  | S754_finite s m e =>
      let n := if 0 <=? e then Zpos m * 2 ^ e else Zpos m in
      let d := if 0 <=? e then 1 else 2 ^ (- e) in
      fixed_digits s (round_half_even (n * 10 ^ Z.of_nat p) d) p
  end.

(** A float that is a number and not an infinity. *)
Definition finite (f : float) : bool :=
  match Prim2SF f with
  | S754_zero _ | S754_finite _ _ _ => true
  | S754_nan | S754_infinity _ => false
  end.

(** *** Text *)

(** [s.replace('.', '')] *)
Fixpoint without_dots (s : string) : string :=
  match s with
  | String c r =>
      if Ascii.eqb c "." then without_dots r else String c (without_dots r)
  | EmptyString => EmptyString
  end.

(** [s.endswith(suffix)] *)
Definition endswith (s suffix : string) : bool :=
  let n := String.length s in
  let k := String.length suffix in
  (k <=? n)%nat && String.eqb (substring (n - k) k s) suffix.

(** [u"{0}".format(v)]: the text of a value.  A string is taken as it
    is, [None] and the booleans by name, an integer in decimal, a float
    as [str] writes it.  The text of a list or an object is their
    [repr], which follows the hash order of the keys; it is taken from
    [repr]. *)
Definition py_format (repr : pyval -> string) (v : pyval) : string :=
  match v with
  | PyNone => "None"
  | PyBool b => if b then "True" else "False"
  | PyInt z => str_of_Z z
  | PyFloat f => str_of_float f
  | PyStr s => s
  | PyList _ | PyDict _ => repr v
  end.

(** [v == 0] *)
Definition py_eq_zero (v : pyval) : bool :=
  match v with
  | PyInt z => z =? 0
  | PyFloat f => (f =? 0)%float
  | PyBool b => negb b
  | PyNone | PyStr _ | PyList _ | PyDict _ => false
  end.

(** *** Time *)

(** [dt.timedelta(minutes=m)], in seconds.  The days of a [timedelta]
    are kept within [999999999] either way; beyond is an
    [OverflowError]. *)
Definition timedelta_minutes (m : Z) : result Z :=
  let days := (60 * m) / 86400 in
  if (-999999999 <=? days) && (days <=? 999999999) then Return (60 * m)
  else Raise OverflowError.

(** The [time_t] that [time.localtime(f)] makes of a float: the whole
    seconds toward zero.  A nan, an infinity or a value that does not
    fit 64 bits is a [ValueError] ("timestamp out of range for platform
    time_t"). *)
Definition time_t_of_float (f : float) : result Z :=
  match int_of_float f with
  | Return t =>
      if (- 2 ^ 63 <=? t) && (t <? 2 ^ 63) then Return t else Raise ValueError
  | Raise _ => Raise ValueError
  end.

(** A reading of the local calendar is counted in seconds from
    [1970-01-01 00:00:00] on that calendar, without leap seconds, as
    [datetime] counts.  The first second of the years 0, 69, 100, 1900
    and 10000: *)
Definition year_0 : Z := -62167219200.
Definition year_69 : Z := -59989680000.
Definition year_100 : Z := -59011459200.
Definition year_1900 : Z := -2208988800.
Definition year_10000 : Z := 253402300800.

(** The reading [time.strftime] of Python 2 formats when handed the
    reading [lt]: with [time.accept2dyear] at its default, a year from
    0 to 68 is taken for 2000 to 2068 and a year from 69 to 99 for 1969
    to 1999; every other year before 1900 is a [ValueError].  (The
    calendar repeats after 400 years, so 2000 years are 730485 days;
    1900 years from a year 69 to 99 are 693960 days.) *)
Definition strftime_reading (lt : Z) : result Z :=
  if year_1900 <=? lt then Return lt
  else if (year_69 <=? lt) && (lt <? year_100) then Return (lt + 693960 * 86400)
  else if (year_0 <=? lt) && (lt <? year_69) then Return (lt + 730485 * 86400)
  else Raise ValueError.

(** [dt.datetime.strptime(s, '%Y-%m-%d %H:%M:%S')] of the text
    [time.strftime] wrote for the reading [lt]: the year field takes
    four digits, so a later year than 9999 is a [ValueError]. *)
Definition strptime_reading (lt : Z) : result Z :=
  if lt <? year_10000 then Return lt else Raise ValueError.

End Py.

Import Py.

(** ** Sanitizer: [fixCorruptedData], [floatEverything] *)

(** The replacement for corrupted readings. *)
Definition sentinel : float * string := ((-99.0)%float, "--").

(** [-99 F = -55.728 C]: no reading below it is taken as real. *)
Definition implausible_below : float := (-55.728)%float.

(** [fixCorruptedData(state_name, val)].  The handler catches
    [ValueError] only; [state_name] feeds the debug log. *)
Definition fixCorruptedData (state_name : string) (val : pyval)
    : result (float * string) :=
  try_except
    (val ← py_float val;
     if (val <? implausible_below)%float then Return sentinel
     else Return (val, str_of_float val))
    (exn_eqb ValueError)
    (Return sentinel).

(** The values [float()] accepts or rejects with a [ValueError]:
    strings and numbers ([bool] is a number in Python). *)
Definition is_str_or_number (raw : pyval) : bool :=
  match raw with
  | PyStr _ | PyInt _ | PyFloat _ | PyBool _ => true
  | PyNone | PyList _ | PyDict _ => false
  end.

(** An integer that [float()] rejects with an [OverflowError]. *)
Definition out_of_float_range (raw : pyval) : bool :=
  match raw with
  | PyInt z => int_too_large z
  | _ => false
  end.

(** [floatEverything(state_name, val)]: catches [ValueError] and
    [TypeError]. *)
Definition floatEverything (state_name : string) (val : pyval) : result float :=
  try_except (py_float val)
    (fun e => exn_eqb ValueError e || exn_eqb TypeError e)
    (Return (-99.0)%float).

(** ** PathResolver: [nestedLookup] *)

(** [current if isinstance(current, list) else [current]] *)
Definition candidates (current : pyval) : list pyval :=
  match current with
  | PyList l => l
  | _ => [current]
  end.

(** [next(sub[key] for sub in current if key in sub)]; [None] stands for
    [StopIteration]. *)
Fixpoint next_match (key : string) (current : list pyval)
    : result (option pyval) :=
  match current with
  | [] => Return None
  | sub :: rest =>
      b ← py_contains key sub;
      if b : bool then v ← py_getitem sub key; Return (Some v)
      else next_match key rest
  end.

(** [nestedLookup(obj, keys, default)] *)
Fixpoint nestedLookup (obj : pyval) (keys : list string) (default : pyval)
    : result pyval :=
  match keys with
  | [] => Return obj
  | key :: keys' =>
      r ← next_match key (candidates obj);
      match r with
      | Some v => nestedLookup v keys' default
      | None => Return default
      end
  end.

(** *** The resolver as the design document words it *)

Module Resolver.

(** Every candidate that is a list is replaced by its elements. *)
Definition expand (focus : list pyval) : list pyval :=
  flat_map candidates focus.

(** The first candidate, in order, that is an object containing the
    key; the result is that key's value. *)
Fixpoint first_object_with (key : string) (cands : list pyval) : option pyval :=
  match cands with
  | [] => None
  | PyDict d :: rest =>
      match dict_get d key with
      | Some v => Some v
      | None => first_object_with key rest
      end
  | _ :: rest => first_object_with key rest
  end.

(** Focus starts as [[root]]; each key expands the focus, narrows it to
    the value found, or gives up with [default]. *)
Fixpoint resolve (root : pyval) (pathKeys : list string) (default : pyval)
    : pyval :=
  match pathKeys with
  | [] => root
  | key :: rest =>
      match first_object_with key (expand [root]) with
      | Some v => resolve v rest default
      | None => default
      end
  end.

(** A candidate the scan can test and pass over (or take) without a
    type error: an object, a string that does not contain the key, a
    list that does not hold the key. *)
Definition probe_ok (key : string) (sub : pyval) : bool :=
  match sub with
  | PyDict _ => true
  | PyStr s => negb (is_substring key s)
  | PyList l => negb (existsb (is_str key) l)
  | PyNone | PyBool _ | PyInt _ | PyFloat _ => false
  end.

(** Every candidate up to the first object containing the key can be
    probed. *)
Fixpoint scan_ok (key : string) (cands : list pyval) : bool :=
  match cands with
  | [] => true
  | PyDict d :: rest =>
      match dict_get d key with
      | Some _ => true
      | None => scan_ok key rest
      end
  | sub :: rest => probe_ok key sub && scan_ok key rest
  end.

(** The scans along the whole path can be carried out. *)
Fixpoint path_ok (root : pyval) (pathKeys : list string) : bool :=
  match pathKeys with
  | [] => true
  | key :: rest =>
      scan_ok key (expand [root]) &&
      match first_object_with key (expand [root]) with
      | Some v => path_ok v rest
      | None => true
      end
  end.

End Resolver.

(** ** QuotaTracker: [callCount], [callDay] *)

(** The fields of [self.pluginPrefs] the quota code reads and writes.
    [callCounter] is read with [.get('callCounter', 500)], so it may be
    missing. *)
Record pluginPrefs : Type := {
  callCounter : option Z;
  dailyCallCounter : Z;
  dailyCallDay : string;
  dailyCallLimitReached : bool;
  downloadInterval : option Z
}.

(** [kDefaultPluginPrefs] *)
Definition kDefaultPluginPrefs : pluginPrefs := {|
  callCounter := Some 500;
  dailyCallCounter := 0;
  dailyCallDay := "1970-01-01";
  dailyCallLimitReached := false;
  downloadInterval := Some 900
|}.

Definition set_dailyCallCounter (n : Z) (p : pluginPrefs) : pluginPrefs :=
  {| callCounter := callCounter p; dailyCallCounter := n;
     dailyCallDay := dailyCallDay p;
     dailyCallLimitReached := dailyCallLimitReached p;
     downloadInterval := downloadInterval p |}.

Definition set_dailyCallDay (d : string) (p : pluginPrefs) : pluginPrefs :=
  {| callCounter := callCounter p; dailyCallCounter := dailyCallCounter p;
     dailyCallDay := d;
     dailyCallLimitReached := dailyCallLimitReached p;
     downloadInterval := downloadInterval p |}.

Definition set_dailyCallLimitReached (b : bool) (p : pluginPrefs) : pluginPrefs :=
  {| callCounter := callCounter p; dailyCallCounter := dailyCallCounter p;
     dailyCallDay := dailyCallDay p;
     dailyCallLimitReached := b;
     downloadInterval := downloadInterval p |}.

(** What a quota operation does besides updating the preferences. *)
Inductive quota_effect : Type :=
| LogLimitReached (calls_max : Z)  (* "Daily call limit (..) reached." *)
| Sleep (seconds : Z).

(** [callCount()] *)
Definition callCount (p : pluginPrefs) : pluginPrefs * list quota_effect :=
  let calls_made := dailyCallCounter p in
  let calls_max := default 500 (callCounter p) in
  let download_interval := default 15 (downloadInterval p) in
  if calls_max <=? calls_made then
    (set_dailyCallLimitReached true p,
     [LogLimitReached calls_max; Sleep download_interval])
  else
    (set_dailyCallCounter (dailyCallCounter p + 1)
       (set_dailyCallLimitReached false p),
     []).

(** [n] invocations of [callCount()] in a row. *)
Definition calls (n : nat) (p : pluginPrefs) : pluginPrefs :=
  Nat.iter n (fun q => fst (callCount q)) p.

(** *** Calendar dates *)

Record date : Type := { year : Z; month : Z; day : Z }.

(** [a > b] on dates. *)
Definition date_gtb (a b : date) : bool :=
  (year b <? year a)
  || ((year a =? year b)
      && ((month b <? month a)
          || ((month a =? month b) && (day b <? day a)))).

Definition is_leap (y : Z) : bool :=
  ((y mod 4 =? 0) && negb (y mod 100 =? 0)) || (y mod 400 =? 0).

Definition days_in_month (y m : Z) : Z :=
  if m =? 2 then (if is_leap y then 29 else 28)
  else if (m =? 4) || (m =? 6) || (m =? 9) || (m =? 11) then 30
  else 31.

Definition pad (width : nat) (z : Z) : string :=
  let s := digits_of_Z z in
  zeros (width - String.length s) +:+ s.

(** [u"{0}".format(d)]: the ISO rendering [YYYY-MM-DD]. *)
Definition isoformat (d : date) : string :=
  pad 4 (year d) +:+ "-" +:+ pad 2 (month d) +:+ "-" +:+ pad 2 (day d).

(** The [%m] field: [1[0-2]|0[1-9]|[1-9]]. *)
Definition read_month (s : string) : option (Z * string) :=
  match s with
  | String a (String b r) =>
      match digit_of a, digit_of b with
      | Some 1, Some y => if y <=? 2 then Some (10 + y, r)
                          else Some (1, String b r)
      | Some 0, Some y => if 1 <=? y then Some (y, r) else None
      | Some x, _ => if 1 <=? x then Some (x, String b r) else None
      | None, _ => None
      end
  | String a r =>
      match digit_of a with
      | Some x => if 1 <=? x then Some (x, r) else None
      | None => None
      end
  | EmptyString => None
  end.

(** The [%d] field up to the end of the input:
    [3[01]|[12]\d|0[1-9]|[1-9]| [1-9]]. *)
Definition read_day (s : string) : option Z :=
  match s with
  | String a (String b "") =>
      match digit_of a, digit_of b with
      | Some x, Some y =>
          if (x =? 3) && (y <=? 1) then Some (30 + y)
          else if (1 <=? x) && (x <=? 2) then Some (10 * x + y)
          else if (x =? 0) && (1 <=? y) then Some y
          else None
      | None, Some y => if Ascii.eqb a " " && (1 <=? y) then Some y else None
      | _, None => None
      end
  | String a "" =>
      match digit_of a with
      | Some x => if 1 <=? x then Some x else None
      | None => None
      end
  | _ => None
  end.

(** [dt.datetime.strptime(s, "%Y-%m-%d").date()]: four year digits, a
    month, a day, then the calendar check of the [datetime] constructor.
    Anything else is a [ValueError]. *)
Definition strptime_date (s : string) : result date :=
  let '(y, n, r) := read_digits (substring 0 4 s) 0 0 in
  if negb ((n =? 4) && String.eqb r "") then Raise ValueError
  else
    match substring 4 (String.length s) s with
    | String "-" r1 =>
        match read_month r1 with
        | Some (m, String "-" r2) =>
            match read_day r2 with
            | Some d =>
                if (1 <=? y) && (d <=? days_in_month y m)
                then Return {| year := y; month := m; day := d |}
                else Raise ValueError
            | None => Raise ValueError
            end
        | _ => Raise ValueError
        end
    | _ => Raise ValueError
    end.

(** The clock as the plugin can read it: the calendar date in the zone
    the provider counts days in ([pytz.timezone('US/Pacific-New')]) and
    the calendar date of the host machine
    ([dt.datetime.today().date()], the reading [callDay] used to
    take). *)
Record clock : Type := {
  date_wu_zone : date;
  date_host_local : date
}.

(** [callDay()], as far as it acts on [self.pluginPrefs].  On a new day
    the method also resets the summary-email flag of the devices,
    which is [callDay_devices] below, and calls the update checker of
    the support library, which is not part of the plugin and is taken
    to return. *)
Definition callDay (clk : clock) (p : pluginPrefs) : result pluginPrefs :=
  let call_day := dailyCallDay p in
  let todays_date := date_wu_zone clk in
  let today_str := isoformat todays_date in
  today_unstr_conv ← strptime_date call_day;
  let p :=
    if String.eqb call_day "" || String.eqb call_day "2000-01-01"
    then set_dailyCallDay today_str p else p in
  if date_gtb todays_date today_unstr_conv then
    Return (set_dailyCallDay today_str
              (set_dailyCallLimitReached false
                 (set_dailyCallCounter 0 p)))
  else Return p.

(** *** Runs of quota operations *)

Inductive quota_op : Type :=
| RecordCall
| CheckDay (clk : clock).

(** One operation on the persisted preferences; an exception leaves
    them as they were. *)
Definition quota_step (o : quota_op) (p : pluginPrefs) : pluginPrefs :=
  match o with
  | RecordCall => fst (callCount p)
  | CheckDay clk =>
      match callDay clk p with
      | Return p' => p'
      | Raise _ => p
      end
  end.

(** The transitions of a run: state before, operation, state after. *)
Fixpoint quota_run (ops : list quota_op) (p : pluginPrefs)
    : list (pluginPrefs * quota_op * pluginPrefs) :=
  match ops with
  | [] => []
  | o :: rest => (p, o, quota_step o p) :: quota_run rest (quota_step o p)
  end.

(** A date rollover: a day check made on a date, read in the provider's
    zone, later than the stored reference date. *)
Definition is_rollover (o : quota_op) (p : pluginPrefs) : bool :=
  match o with
  | RecordCall => false
  | CheckDay clk =>
      match strptime_date (dailyCallDay p) with
      | Return d => date_gtb (date_wu_zone clk) d
      | Raise _ => false
      end
  end.


(** ** Devices *)

(** [indigo.kStateImageSel]: the images the plugin selects. *)
Inductive stateImageSel : Type :=
| SensorOff
| SensorOn
| TemperatureSensorOn.

(** A plugin device as the host keeps it: [dev.id], [dev.name],
    [dev.enabled], [dev.model], [dev.pluginProps], [dev.states] with
    the display text ([uiValue]) of each state that was given one, the
    state image selected last, and the [address] entry that
    [parseWeatherData] adds to the properties. *)
Record device : Type := {
  dev_id : Z;
  dev_name : string;
  dev_enabled : bool;
  dev_model : string;
  pluginProps : gmap string string;
  states : gmap string pyval;
  uiValues : gmap string pyval;
  stateImage : option stateImageSel;
  address : option pyval
}.

(** [dev.updateStateOnServer(key, value=value, uiValue=uiValue)] on the
    host's record of the device.  Without a [uiValue] the host shows
    the value itself.  The host is taken to accept every value. *)
Definition set_state (key : string) (value : pyval) (uiValue : option pyval)
    (dev : device) : device :=
  {| dev_id := dev_id dev; dev_name := dev_name dev;
     dev_enabled := dev_enabled dev; dev_model := dev_model dev;
     pluginProps := pluginProps dev;
     states := <[key := value]> (states dev);
     uiValues := match uiValue with
                 | Some ui => <[key := ui]> (uiValues dev)
                 | None => delete key (uiValues dev)
                 end;
     stateImage := stateImage dev;
     address := address dev |}.

(** [dev.updateStateImageOnServer(image)] *)
Definition set_image (image : stateImageSel) (dev : device) : device :=
  {| dev_id := dev_id dev; dev_name := dev_name dev;
     dev_enabled := dev_enabled dev; dev_model := dev_model dev;
     pluginProps := pluginProps dev;
     states := states dev; uiValues := uiValues dev;
     stateImage := Some image;
     address := address dev |}.

(** [new_props = dev.pluginProps; new_props['address'] = v;
    dev.replacePluginPropsOnServer(new_props)] *)
Definition set_address (v : pyval) (dev : device) : device :=
  {| dev_id := dev_id dev; dev_name := dev_name dev;
     dev_enabled := dev_enabled dev; dev_model := dev_model dev;
     pluginProps := pluginProps dev;
     states := states dev; uiValues := uiValues dev;
     stateImage := stateImage dev;
     address := Some v |}.

(** [dev.states['currentObservationEpoch']], the epoch of the data the
    device holds, if the state exists. *)
Definition currentObservationEpoch (dev : device) : option pyval :=
  states dev !! "currentObservationEpoch".

(** The state is missing, a string or an integer: the values for
    which [int()] returns or raises [ValueError]. *)
Definition epoch_state_ok (dev : device) : bool :=
  match currentObservationEpoch dev with
  | None | Some (PyStr _) | Some (PyInt _) => true
  | Some _ => false
  end.

(** [m[k]] on a Python dict held as a finite map. *)
Definition map_getitem {V : Type} (m : gmap string V) (k : string) : result V :=
  match m !! k with
  | Some v => Return v
  | None => Raise KeyError
  end.

(** Code that writes to the host and may raise: what was written before
    an exception stays written. *)
Definition stx (S A : Type) : Type := S -> S * result A.

#[global] Instance stx_ret (S : Type) : MRet (stx S) :=
  fun A a s => (s, Return a).
#[global] Instance stx_bind (S : Type) : MBind (stx S) :=
  fun A B k m s =>
    match m s with
    | (s', Return a) => k a s'
    | (s', Raise e) => (s', Raise e)
    end.

Definition lift {S A : Type} (r : result A) : stx S A := fun s => (s, r).

Definition updateStateOnServer (key : string) (value : pyval)
    (uiValue : option pyval) : stx device unit :=
  fun dev => (set_state key value uiValue dev, Return tt).

Definition updateStateImageOnServer (image : stateImageSel) : stx device unit :=
  fun dev => (set_image image dev, Return tt).

Definition replacePluginPropsOnServer (address : pyval) : stx device unit :=
  fun dev => (set_address address dev, Return tt).

(** ** What the plugin is given *)

(** The settings of [self.pluginPrefs] that the poll cycle reads and
    never writes.  All but the key are read with [.get(name, default)],
    so they may be missing. *)
Record settings : Type := {
  apiKey : string;
  itemListTempDecimal : option pyval;
  uiHumidityDecimal : option pyval;
  uiTempDecimal : option pyval;
  uiWindDecimal : option pyval
}.

(** The host machine: [indigo.server.getTime()] in whole seconds of the
    local calendar (the comparison it goes into is with whole seconds);
    [time.localtime], from seconds since the epoch to the reading of
    the local calendar, [None] where the C library gives up;
    [time.strftime] of a reading in the date and time format that the
    support library derives from the preferences; and the [repr] of
    lists and objects. *)
Record host : Type := {
  getTime : Z;
  localtime : Z -> option Z;
  strftime : Z -> string;
  repr : pyval -> string
}.

(** What one request for observations comes to: the request (or the
    timing of it) raised, or a body arrived and [simplejson.loads]
    either decoded it or raised. *)
Inductive reply : Type :=
| NoReply
| Body (decoded : option pyval).

(** The network in one poll cycle, with the [requests] library at hand:
    the reply to the request for a location in the given units (['e']
    or ['m']), whether the file a satellite device asks for is fetched
    from its source and written to its destination, and whether the
    radar image of a device arrives with status 200 and is written. *)
Record network : Type := {
  observations : string -> string -> reply;
  image_saved : string -> string -> bool;
  radar_saved : device -> bool
}.

(** ** UnitFormatter: [uiFormatTemperature], [uiFormatPercentage],
    [uiFormatWind], [uiFormatRain], [itemListTemperatureFormat] *)

(** [u"{0:0.{1}f}{2}".format(float(val), int(decimal), units)] inside a
    [try]: [Return None] stands for the [ValueError] the handler
    catches ([val] is no number, [decimal] does not convert, or the
    precision is negative); other exceptions pass.  [val] is the
    display string the callers hand over. *)
Definition format_reading (val : string) (decimal : pyval) (units : string)
    : result (option string) :=
  match float_of_string val with
  | Raise _ => Return None
  | Return f =>
      match py_int decimal with
      | Raise ValueError => Return None
      | Raise e => Raise e
      | Return d =>
          if d <? 0 then Return None
          else Return (Some (format_fixed f (Z.to_nat d) +:+ units))
      end
  end.

(** [uiFormatTemperature(dev, state_name, val)]; [uiTempDecimal] is
    [self.pluginPrefs.get('uiTempDecimal', 1)], converted with [int()]
    before the [try]. *)
Definition uiFormatTemperature (uiTempDecimal : option pyval) (dev : device)
    (state_name val : string) : result string :=
  temp_decimal ← py_int (default (PyInt 1) uiTempDecimal);
  let temperature_units := default "" (pluginProps dev !! "temperatureUnits") in
  r ← format_reading val (PyInt temp_decimal) temperature_units;
  match r with
  | Some s => Return s
  | None => Return "--"
  end.

(** [uiFormatPercentage(dev, state_name, val)] *)
Definition uiFormatPercentage (uiHumidityDecimal : option pyval) (dev : device)
    (state_name val : string) : result string :=
  humidity_decimal ← py_int (default (PyInt 1) uiHumidityDecimal);
  let percentage_units := default "" (pluginProps dev !! "percentageUnits") in
  r ← format_reading val (PyInt humidity_decimal) percentage_units;
  match r with
  | Some s => Return s
  | None => Return (val +:+ percentage_units)
  end.

(** [uiFormatWind(dev, state_name, val)]: the setting is converted
    inside the [try]. *)
Definition uiFormatWind (uiWindDecimal : option pyval) (dev : device)
    (state_name val : string) : result string :=
  let wind_decimal := default (PyInt 1) uiWindDecimal in
  let wind_units := default "" (pluginProps dev !! "windUnits") in
  r ← format_reading val wind_decimal wind_units;
  match r with
  | Some s => Return s
  | None => Return val
  end.

(** [uiFormatRain(dev, state_name, val)] *)
Definition uiFormatRain (dev : device) (state_name val : string) : string :=
  let rain_units := default "" (pluginProps dev !! "rainUnits") in
  if existsb (String.eqb val) ["NA"; "N/A"; "--"; ""] then val
  else val +:+ rain_units.

(** [itemListTemperatureFormat(val)]: with the setting at 0 the value
    is floated and written without decimals; a [ValueError] of
    [float()] is caught and the value written as it is. *)
Definition itemListTemperatureFormat (repr : pyval -> string)
    (itemListTempDecimal : option pyval) (val : pyval) : result string :=
  if py_eq_zero (default (PyInt 0) itemListTempDecimal) then
    match py_float val with
    | Return f => Return (format_fixed f 0)
    | Raise ValueError => Return (py_format repr val)
    | Raise e => Raise e
    end
  else Return (py_format repr val).

(** ** ObservationProjector: [parseWeatherData] *)

(** [weather_data['observations'][0]] *)
Definition observation (weather_data : pyval) : result pyval :=
  o ← py_getitem weather_data "observations";
  py_index o 0.

(** [weather_data['observations'][0][name]] *)
Definition obs_field (weather_data : pyval) (name : string) : result pyval :=
  o ← observation weather_data;
  py_getitem o name.

(** The default of [nestedLookup]. *)
Definition not_available : pyval := PyStr "Not available".

(** [self.nestedLookup(weather_data['observations'][0], keys=(unit, name,))] *)
Definition unit_field (weather_data : pyval) (units name : string)
    : result pyval :=
  o ← observation weather_data;
  nestedLookup o [units; name] not_available.

(** [time.localtime(float(x))]: the reading of the local calendar for
    an epoch. *)
Definition localtime_of (h : host) (x : pyval) : result Z :=
  f ← py_float x;
  t ← time_t_of_float f;
  match localtime h t with
  | Some lt => Return lt
  | None => Raise ValueError
  end.

(** The degree sign of the item-list text, in UTF-8. *)
Definition degree_sign : string :=
  String (ascii_of_nat 194) (String (ascii_of_nat 176) "").

(** [v, v_ui = self.fixCorruptedData(state_name, val)],
    [v_ui = self.uiFormatTemperature(dev, state_name_ui, v_ui)],
    [dev.updateStateOnServer(key, value=v, uiValue=v_ui)]: the four
    temperatures are published this way. *)
Definition publish_temperature (cfg : settings) (dev : device)
    (key state_name state_name_ui : string) (val : pyval) : stx device float :=
  '(v, v_ui) ← lift (fixCorruptedData state_name val);
  v_ui ← lift (uiFormatTemperature (uiTempDecimal cfg) dev state_name_ui v_ui);
  _ ← updateStateOnServer key (PyFloat v) (Some (PyStr v_ui));
  mret v.

(** [u"{0} \N{DEGREE SIGN}F".format(self.itemListTemperatureFormat(val=val))] *)
Definition item_list_text (h : host) (cfg : settings) (val : pyval)
    (letter : string) : stx device string :=
  s ← lift (itemListTemperatureFormat (repr h) (itemListTempDecimal cfg) val);
  mret (s +:+ " " +:+ degree_sign +:+ letter).

(** The [try] block of [parseWeatherData(dev)].  [dev] is the device
    as the caller holds it; the state that is threaded is the host's
    record of it.  Both unit branches read their nine fields first and
    then publish. *)
Definition parseWeatherData_try (h : host) (cfg : settings)
    (masterWeatherDict : gmap string pyval) (dev : device)
    : stx device unit :=
  let config_menu_units := default "" (pluginProps dev !! "configMenuUnits") in
  let pressure_units := default "" (pluginProps dev !! "pressureUnits") in
  let fmt := py_format (repr h) in
  location ← lift (map_getitem (pluginProps dev) "location");
  weather_data ← lift (map_getitem masterWeatherDict location);
  current_observation_epoch ← lift (obs_field weather_data "epoch");
  current_observation_time ← lift (obs_field weather_data "obsTimeLocal");
  uv_index ← lift (obs_field weather_data "uv");
  station_id ← lift (obs_field weather_data "stationID");
  relative_humidity ← lift (obs_field weather_data "humidity");
  wind_degrees ← lift (obs_field weather_data "winddir");
  display_value ←
    (if String.eqb config_menu_units "S" then
       current_temp_f ← lift (unit_field weather_data "imperial" "temp");
       dew_point_f ← lift (v ← unit_field weather_data "imperial" "dewpt"; py_int v);
       heat_index_f ← lift (unit_field weather_data "imperial" "heatIndex");
       precip_rate_in ← lift (unit_field weather_data "imperial" "precipRate");
       precip_today_in ← lift (unit_field weather_data "imperial" "precipTotal");
       pressure_in ← lift (unit_field weather_data "imperial" "pressure");
       wind_chill_f ← lift (unit_field weather_data "imperial" "windChill");
       wind_gust_mph ← lift (unit_field weather_data "imperial" "windGust");
       wind_speed_mph ← lift (unit_field weather_data "imperial" "windSpeed");
       temp_f ← publish_temperature cfg dev "temp" "temp_f" "tempF (S)" current_temp_f;
       _ ← updateStateOnServer "tempIcon"
             (PyStr (without_dots (str_of_float (py_round temp_f 0)))) None;
       display_value ← item_list_text h cfg (PyFloat temp_f) "F";
       _ ← publish_temperature cfg dev "dewpoint" "dewpointF (S)" "dewpointF (S)"
             (PyInt dew_point_f);
       display_value ← item_list_text h cfg (PyInt dew_point_f) "F";
       _ ← publish_temperature cfg dev "heatIndex" "heatIndexF (S)" "heatIndexF (S)"
             heat_index_f;
       display_value ← item_list_text h cfg heat_index_f "F";
       _ ← publish_temperature cfg dev "windchill" "windChillF (S)" "windChillF (S)"
             wind_chill_f;
       display_value ← item_list_text h cfg wind_chill_f "F";
       '(pressure, pressure_ui) ← lift (fixCorruptedData "pressure (S)" pressure_in);
       _ ← updateStateOnServer "pressure" (PyFloat pressure)
             (Some (PyStr (pressure_ui +:+ pressure_units)));
       _ ← updateStateOnServer "pressureIcon" (PyStr (without_dots pressure_ui)) None;
       '(precip_today, precip_today_ui) ←
         lift (fixCorruptedData "precipToday (I)" precip_today_in);
       _ ← updateStateOnServer "precip_today" (PyFloat precip_today)
             (Some (PyStr (uiFormatRain dev "precipToday (I)" precip_today_ui)));
       '(wind_gust_mph, wind_gust_mph_ui) ←
         lift (fixCorruptedData "windGust (MPH)" wind_gust_mph);
       '(wind_speed_mph, wind_speed_mph_ui) ←
         lift (fixCorruptedData "windGust (MPH)" wind_speed_mph);
       ui ← lift (uiFormatWind (uiWindDecimal cfg) dev "windGust" wind_gust_mph_ui);
       _ ← updateStateOnServer "windGust" (PyFloat wind_gust_mph) (Some (PyStr ui));
       ui ← lift (uiFormatWind (uiWindDecimal cfg) dev "windSpeed" wind_speed_mph_ui);
       _ ← updateStateOnServer "windSpeed" (PyFloat wind_speed_mph) (Some (PyStr ui));
       _ ← updateStateOnServer "windGustIcon"
             (PyStr (without_dots (str_of_float (py_round wind_gust_mph 1)))) None;
       _ ← updateStateOnServer "windSpeedIcon"
             (PyStr (without_dots (str_of_float (py_round wind_speed_mph 1)))) None;
       _ ← updateStateOnServer "windString"
             (PyStr ("From " +:+ fmt wind_degrees +:+ " degrees at "
                     +:+ str_of_float wind_speed_mph +:+ " MPH Gusting to "
                     +:+ str_of_float wind_gust_mph +:+ " MPH")) None;
       _ ← updateStateOnServer "windShortString"
             (PyStr (fmt wind_degrees +:+ " degrees at "
                     +:+ str_of_float wind_speed_mph)) None;
       _ ← updateStateOnServer "windStringMetric" (PyStr " ") None;
       mret display_value
     else
       current_temp_c ← lift (unit_field weather_data "metric" "temp");
       dew_point_c ← lift (v ← unit_field weather_data "metric" "dewpt"; py_int v);
       heat_index_c ← lift (unit_field weather_data "metric" "heatIndex");
       precip_rate_m ← lift (unit_field weather_data "metric" "precipRate");
       precip_today_m ← lift (unit_field weather_data "metric" "precipTotal");
       pressure_mb ← lift (unit_field weather_data "metric" "pressure");
       wind_chill_c ← lift (unit_field weather_data "metric" "windChill");
       wind_gust_kph ← lift (unit_field weather_data "metric" "windGust");
       wind_speed_kph ← lift (unit_field weather_data "metric" "windSpeed");
       temp_c ← publish_temperature cfg dev "temp" "temp_c" "tempC (M, MS, I)"
                  current_temp_c;
       _ ← updateStateOnServer "tempIcon"
             (PyStr (without_dots (str_of_float (py_round temp_c 0)))) None;
       display_value ← item_list_text h cfg (PyFloat temp_c) "C";
       _ ← publish_temperature cfg dev "dewpoint" "dewpointC (M, MS)"
             "dewpointC (M, MS)" (PyInt dew_point_c);
       display_value ← item_list_text h cfg (PyInt dew_point_c) "C";
       _ ← publish_temperature cfg dev "heatIndex" "heatIndexC (M, MS)"
             "heatIndexC (M, MS)" heat_index_c;
       display_value ← item_list_text h cfg heat_index_c "C";
       _ ← publish_temperature cfg dev "windchill" "windChillC (M, MS)"
             "windChillC (M, MS)" wind_chill_c;
       display_value ← item_list_text h cfg wind_chill_c "C";
       '(precip_today, precip_today_ui) ←
         lift (fixCorruptedData "precipMM (M, MS)" precip_today_m);
       _ ← updateStateOnServer "precip_today" (PyFloat precip_today)
             (Some (PyStr (uiFormatRain dev "precipToday (M, MS)" precip_today_ui)));
       '(wind_gust_kph, wind_gust_kph_ui) ←
         lift (fixCorruptedData "windGust (KPH)" wind_gust_kph);
       mps ← lift (int_of_float (wind_gust_kph * 0.277778)%float);
       _ ← lift (fixCorruptedData "windGust (MPS)" (PyInt mps));
       '(wind_speed_kph, wind_speed_kph_ui) ←
         lift (fixCorruptedData "windGust (KPH)" wind_speed_kph);
       ui ← lift (uiFormatWind (uiWindDecimal cfg) dev "windGust" wind_gust_kph_ui);
       _ ← updateStateOnServer "windGust" (PyFloat wind_gust_kph) (Some (PyStr ui));
       ui ← lift (uiFormatWind (uiWindDecimal cfg) dev "windSpeed" wind_speed_kph_ui);
       _ ← updateStateOnServer "windSpeed" (PyFloat wind_speed_kph) (Some (PyStr ui));
       _ ← updateStateOnServer "windGustIcon"
             (PyStr (without_dots (str_of_float (py_round wind_gust_kph 1)))) None;
       _ ← updateStateOnServer "windSpeedIcon"
             (PyStr (without_dots (str_of_float (py_round wind_speed_kph 1)))) None;
       _ ← updateStateOnServer "windString"
             (PyStr ("From " +:+ fmt wind_degrees +:+ " degrees at "
                     +:+ str_of_float wind_speed_kph +:+ " KPH Gusting to "
                     +:+ str_of_float wind_gust_kph +:+ " KPH")) None;
       _ ← updateStateOnServer "windShortString"
             (PyStr (fmt wind_degrees +:+ " degress at "
                     +:+ str_of_float wind_speed_kph)) None;
       _ ← updateStateOnServer "windStringMetric"
             (PyStr ("From the " +:+ fmt wind_degrees +:+ " at "
                     +:+ str_of_float wind_speed_kph +:+ " KPH Gusting to "
                     +:+ str_of_float wind_gust_kph +:+ " KPH")) None;
       mret display_value);
  _ ← updateStateOnServer "onOffState" (PyBool true) (Some (PyStr display_value));
  _ ← updateStateOnServer "stationID" station_id (Some station_id);
  _ ← updateStateOnServer "currentObservation" current_observation_time
        (Some current_observation_time);
  lt ← lift (lt ← localtime_of h current_observation_epoch; strftime_reading lt);
  _ ← updateStateOnServer "currentObservation24hr" (PyStr (strftime h lt)) None;
  '(relative_humidity, relative_humidity_ui) ←
    lift (fixCorruptedData "relativeHumidity" relative_humidity);
  relative_humidity_ui ←
    lift (uiFormatPercentage (uiHumidityDecimal cfg) dev "relativeHumidity"
            relative_humidity_ui);
  _ ← updateStateOnServer "relativeHumidity" (PyFloat relative_humidity)
        (Some (PyStr relative_humidity_ui));
  _ ← replacePluginPropsOnServer station_id;
  updateStateImageOnServer TemperatureSensorOn.

(** [parseWeatherData(dev)], from the host's record of the device to
    the record after the call: an [IndexError] is only logged, any
    other exception switches the device off. *)
Definition parseWeatherData (h : host) (cfg : settings)
    (masterWeatherDict : gmap string pyval) (dev server : device) : device :=
  match parseWeatherData_try h cfg masterWeatherDict dev server with
  | (d, Return _) | (d, Raise IndexError) => d
  | (d, Raise _) =>
      set_image SensorOff
        (set_state "onOffState" (PyBool false) (Some (PyStr " ")) d)
  end.

(** ** The poll cycle: [callDay], [getWeatherData],
    [getSatelliteImage], [getWUradar], [refreshWeatherData] *)

(** [callDay()], as it acts on the devices: on a new day every plugin
    device that has the state [weatherSummaryEmailSent] gets it set to
    [False].  The test for a new day is the one of [callDay]. *)
Definition callDay_devices (clk : clock) (p : pluginPrefs)
    (devs : list device) : list device :=
  match strptime_date (dailyCallDay p) with
  | Return today_unstr_conv =>
      if date_gtb (date_wu_zone clk) today_unstr_conv then
        map (fun dev =>
               if bool_decide (is_Some (states dev !! "weatherSummaryEmailSent"))
               then set_state "weatherSummaryEmailSent" (PyBool false) None dev
               else dev)
            devs
      else devs
  | Raise _ => devs
  end.

Definition satellite_models : list string :=
  ["Satellite Image Downloader"; "WUnderground Satellite Image Downloader"].

Definition image_models : list string :=
  ["Satellite Image Downloader"; "WUnderground Radar";
   "WUnderground Satellite Image Downloader"].

Definition weather_models : list string :=
  ["WUnderground Device"; "WUnderground Weather";
   "WUnderground Weather Device"; "Weather Underground"; "Weather"].

Definition in_models (m : string) (l : list string) : bool :=
  existsb (String.eqb m) l.

(** The state a poll cycle threads through its devices besides the
    host's registry: [self.masterWeatherDict] and the quota fields of
    [self.pluginPrefs]. *)
Record plugin : Type := {
  masterWeatherDict : gmap string pyval;
  prefs : pluginPrefs
}.

(** What the handler of [getWeatherData] does to one device of the
    registry. *)
Definition no_comm (dev : device) : device :=
  if dev_enabled dev
  then set_state "onOffState" (PyBool false) (Some (PyStr "No comm")) dev
  else dev.

(** The URL modifier for the units of a device: ['e'] for "Standard"
    units, ['m'] for all else. *)
Definition wu_units (dev : device) : string :=
  let config_menu_units := default "" (pluginProps dev !! "configMenuUnits") in
  if String.eqb config_menu_units "S" then "e" else "m".

(** [getWeatherData(dev)] on the plugin and the registry [devs] of the
    plugin's devices.  A location already in the dictionary is not
    fetched again; a body that does not decode is stored as the empty
    document; each stored reply counts as a call.  When the request
    raises, the handler marks every enabled device of the plugin
    "No comm".  ([self.wuOnline] is [True] again when the method
    returns, whatever happened.) *)
Definition getWeatherData (net : network) (pl : plugin) (devs : list device)
    (dev : device) : plugin * list device :=
  if in_models (dev_model dev) satellite_models then (pl, devs)
  else
    let location := default "autoip" (pluginProps dev !! "location") in
    if bool_decide (is_Some (masterWeatherDict pl !! location)) then (pl, devs)
    else
      match observations net location (wu_units dev) with
      | NoReply => (pl, map no_comm devs)
      | Body decoded =>
          let parsed_simplejson := default (PyDict []) decoded in
          ({| masterWeatherDict :=
                <[location := parsed_simplejson]> (masterWeatherDict pl);
              prefs := fst (callCount (prefs pl)) |},
           devs)
      end.

(** [getSatelliteImage(dev)]: what the call does to the host's record
    of the device, or the exception of a property that is missing (the
    two properties are read before the [try], and nothing is written
    before they are). *)
Definition getSatelliteImage (net : network) (dev : device)
    : result (device -> device) :=
  destination ← map_getitem (pluginProps dev) "imageDestinationLocation";
  source ← map_getitem (pluginProps dev) "imageSourceLocation";
  Return
    (if existsb (endswith destination) [".gif"; ".jpg"; ".jpeg"; ".png"] then
       if image_saved net source destination then
         fun server =>
           set_image SensorOn
             (set_state "onOffState" (PyBool true) (Some (PyStr " ")) server)
       else set_state "onOffState" (PyBool false) (Some (PyStr "No comm"))
     else set_state "onOffState" (PyBool false) (Some (PyStr "Bad Type"))).

(** A property that [getWUradar] converts with [float()] or [int()]
    when it is set; the default is a number. *)
Definition radar_number {A : Type} (convert : string -> result A)
    (dev : device) (name : string) : result unit :=
  match pluginProps dev !! name with
  | Some s => _ ← convert s; Return tt
  | None => Return tt
  end.

(** The properties [getWUradar] reads before its [try], in the order
    of the source: the image name must be there and the numbers must
    convert. *)
Definition radar_parms (dev : device) : result unit :=
  _ ← map_getitem (pluginProps dev) "imagename";
  _ ← radar_number float_of_string dev "centerlat";
  _ ← radar_number float_of_string dev "centerlon";
  _ ← radar_number int_of_string dev "delay";
  _ ← radar_number int_of_string dev "height";
  _ ← radar_number float_of_string dev "maxlat";
  _ ← radar_number float_of_string dev "maxlon";
  _ ← radar_number float_of_string dev "minlat";
  _ ← radar_number float_of_string dev "minlon";
  _ ← radar_number int_of_string dev "num";
  _ ← radar_number float_of_string dev "radius";
  _ ← radar_number int_of_string dev "timelabelx";
  _ ← radar_number int_of_string dev "timelabely";
  radar_number int_of_string dev "width".

(** [getWUradar(dev)]: the quota fields after the call and what the
    call does to the host's record of the device, or the exception of
    a property read before the [try].  Inside the [try] an image that
    is bounded neither by a radius nor by a box needs the device's
    location; an image that arrives counts as a call; everything that
    goes wrong there ends in "No comm". *)
Definition getWUradar (net : network) (p : pluginPrefs) (dev : device)
    : result (pluginPrefs * (device -> device)) :=
  _ ← radar_parms dev;
  let imagetype := default "radius" (pluginProps dev !! "imagetype") in
  let located :=
    String.eqb imagetype "radius" || String.eqb imagetype "boundingbox"
    || bool_decide (is_Some (pluginProps dev !! "location")) in
  if located && radar_saved net dev then
    Return (fst (callCount p),
            fun server =>
              set_state "onOffState" (PyBool true) (Some (PyStr " "))
                (set_image SensorOn server))
  else
    Return (p, set_state "onOffState" (PyBool false) (Some (PyStr "No comm"))).

(** [int(x)] with [except ValueError: 0]. *)
Definition int_or_zero (x : result Z) : result Z :=
  try_except x (exn_eqb ValueError) (Return 0).

(** The comparison of the device's epoch with the downloaded one:
    [good_time].  A [KeyError] anywhere counts as "cannot determine age
    of data"; other exceptions leave the block. *)
Definition good_time (masterWeatherDict : gmap string pyval)
    (location : string) (dev : device) : result bool :=
  try_except
    (device_epoch ← map_getitem (states dev) "currentObservationEpoch";
     device_epoch ← int_or_zero (py_int device_epoch);
     weather_data_epoch ←
       int_or_zero (weather_data ← map_getitem masterWeatherDict location;
                    e ← obs_field weather_data "epoch";
                    py_int e);
     Return (device_epoch <=? weather_data_epoch))
    (exn_eqb KeyError)
    (Return false).

(** Is the stored reply the string ['{}']?  (The "Bad Loc" test.) *)
Definition is_bad_loc (response : option pyval) : bool :=
  match response with
  | Some (PyStr s) => String.eqb s "{}"
  | _ => false
  end.

(** The body of the device loop of [refreshWeatherData] for the device
    at position [i] of the registry.  [dev] is the device as the loop
    holds it, read from the registry when its turn comes; writes go to
    the registry.  The result says whether [parseWeatherData] was
    called for the device ([Return true]) or not ([Return false]), or
    which exception left the loop.  The pauses taken for a device that
    is not configured yet and the log files written at debug level 3
    are left out. *)
Definition refreshDevice (h : host) (cfg : settings) (net : network)
    (pl : plugin) (devs : list device) (i : nat)
    : plugin * list device * result bool :=
  match devs !! i with
  | None => (pl, devs, Return false)
  | Some dev =>
      let api_key := apiKey cfg in
      let onOffState b ui := set_state "onOffState" (PyBool b) (Some (PyStr ui)) in
      if String.eqb api_key "" || String.eqb api_key "API Key" then
        (pl, alter (onOffState false "No key.") i devs, Return false)
      else if negb (dev_enabled dev) then
        (pl, alter (onOffState false "Disabled") i devs, Return false)
      else
        let devs := alter (onOffState true " ") i devs in
        if negb (in_models (dev_model dev) image_models) then
          match map_getitem (pluginProps dev) "location" with
          | Raise e => (pl, devs, Raise e)
          | Return location =>
              let '(pl, devs) := getWeatherData net pl devs dev in
              let devs :=
                if is_bad_loc (masterWeatherDict pl !! location)
                then alter (onOffState false "Bad Loc") i devs
                else devs in
              match good_time (masterWeatherDict pl) location dev with
              | Raise e => (pl, devs, Raise e)
              | Return good_time =>
                  if negb (bool_decide (masterWeatherDict pl = ∅)) && good_time
                     && in_models (dev_model dev) weather_models
                  then
                    (pl,
                     alter (fun server =>
                              set_image TemperatureSensorOn
                                (parseWeatherData h cfg (masterWeatherDict pl)
                                   dev server))
                           i devs,
                     Return true)
                  else (pl, devs, Return false)
              end
          end
        else if in_models (dev_model dev) satellite_models then
          match getSatelliteImage net dev with
          | Return write => (pl, alter write i devs, Return false)
          | Raise e => (pl, devs, Raise e)
          end
        else if in_models (dev_model dev) ["WUnderground Radar"] then
          match getWUradar net (prefs pl) dev with
          | Return (p, write) =>
              ({| masterWeatherDict := masterWeatherDict pl; prefs := p |},
               alter write i devs, Return false)
          | Raise e => (pl, devs, Raise e)
          end
        else (pl, devs, Return false)
  end.

(** The device loop over the positions [positions] of the registry: the
    first exception ends it (the handler of [refreshWeatherData] logs
    it); the devices after it are not visited.  Per device the result
    of [refreshDevice] is recorded. *)
Fixpoint refresh_loop (h : host) (cfg : settings) (net : network)
    (positions : list nat) (pl : plugin) (devs : list device)
    : plugin * list device * list (result bool) :=
  match positions with
  | [] => (pl, devs, [])
  | i :: rest =>
      match refreshDevice h cfg net pl devs i with
      | (pl', devs', Return b) =>
          let '(pl'', devs'', log) := refresh_loop h cfg net rest pl' devs' in
          (pl'', devs'', Return b :: log)
      | (pl', devs', Raise e) => (pl', devs', [Raise e])
      end
  end.

(** [refreshWeatherData()]: the day check, then, unless the call limit
    was reached when the cycle began, an empty dictionary and the
    device loop.  The last component is the exception that leaves the
    method: when [callDay] raises, the handler of the method finds no
    [dev] to name in its message and raises [UnboundLocalError]
    itself. *)
Definition refreshWeatherData (clk : clock) (h : host) (cfg : settings)
    (net : network) (pl : plugin) (devs : list device)
    : plugin * list device * list (result bool) * option exn :=
  let daily_call_limit_reached := dailyCallLimitReached (prefs pl) in
  match callDay clk (prefs pl) with
  | Raise _ => (pl, devs, [], Some UnboundLocalError)
  | Return p =>
      let devs := callDay_devices clk (prefs pl) devs in
      if daily_call_limit_reached then
        ({| masterWeatherDict := masterWeatherDict pl; prefs := p |},
         devs, [], None)
      else
        let '(pl', devs', log) :=
          refresh_loop h cfg net (seq 0 (length devs))
            {| masterWeatherDict := ∅; prefs := p |} devs in
        (pl', devs', log, None)
  end.

(** ** StalenessDetector: [triggerFireOfflineDevice] *)

(** [indigo.triggers[id]]: whether the trigger is enabled and its
    [pluginTypeId]. *)
Record trigger : Type := {
  trig_enabled : bool;
  pluginTypeId : string
}.

(** Why a trigger was executed, as the log line before
    [indigo.trigger.execute] tells it. *)
Inductive reason : Type :=
| timeout            (* "location appears to be offline for .." *)
| sentinel_failure   (* "appears to be offline (reported temperature)." *)
| active_alert.      (* "has at least one severe weather alert." *)

(** One [indigo.trigger.execute(trigger_id)]. *)
Record OfflineEvent : Type := {
  deviceKey : Z;
  triggerId : Z;
  why : reason
}.

(** [v <= -55.0] for a state value: numbers compare by value, and in
    Python 2 every number is below every other object, [None] below
    everything. *)
Definition le_minus55 (v : pyval) : bool :=
  match v with
  | PyFloat f => (f <=? -55.0)%float
  | PyInt z => z <=? -55
  | PyBool b => false
  | PyNone => true
  | PyStr _ | PyList _ | PyDict _ => false
  end.

Definition py_eq_str (v : pyval) (s : string) : bool := is_str s v.

(** The observation time of a device as [triggerFireOfflineDevice]
    builds it: [time.localtime(float(epoch))] written by
    [time.strftime] and read back by [strptime]. *)
Definition current_observation (h : host) (epoch : pyval) : result Z :=
  lt ← localtime_of h epoch;
  lt ← strftime_reading lt;
  strptime_reading lt.

(** The body of the device loop of [triggerFireOfflineDevice]: the
    trigger executions for one device, or the exception raised. *)
Definition fireDevice (h : host) (masterTriggerDict : gmap string (pyval * Z))
    (triggers : gmap Z trigger) (dev : device) : result (list OfflineEvent) :=
  match masterTriggerDict !! str_of_Z (dev_id dev) with
  | None => Return []
  | Some (offline_timer, trigger_id) =>
      if negb (dev_enabled dev) then Return []
      else
        match triggers !! trigger_id with
        | None => Raise KeyError
        | Some trig =>
            if negb (trig_enabled trig) then Return []
            else
              let ev r := {| deviceKey := dev_id dev;
                             triggerId := trigger_id; why := r |} in
              offline ←
                (if String.eqb (pluginTypeId trig) "weatherSiteOffline"
                 return result (list OfflineEvent) then
                   minutes ← py_int offline_timer;
                   offline_delta ← timedelta_minutes minutes;
                   epoch ← map_getitem (states dev) "currentObservationEpoch";
                   current_observation ← current_observation h epoch;
                   let diff := getTime h - current_observation in
                   if offline_delta <=? diff then Return [ev timeout]
                   else
                     temp ← map_getitem (states dev) "temp";
                     if le_minus55 temp then Return [ev sentinel_failure]
                     else Return []
                 else Return []);
              alert ←
                (if String.eqb (pluginTypeId trig) "weatherAlert"
                 return result (list OfflineEvent) then
                   alertStatus ← map_getitem (states dev) "alertStatus";
                   if py_eq_str alertStatus "true" then Return [ev active_alert]
                   else Return []
                 else Return []);
              Return (offline ++ alert)%list
        end
  end.

(** [triggerFireOfflineDevice()]: the executions of one cycle, in
    order.  A [KeyError] ends the loop silently ([except KeyError:
    pass]); any other exception ends it and leaves the method.  The
    executions made before the exception stay made. *)
Fixpoint triggerFireOfflineDevice (h : host)
    (masterTriggerDict : gmap string (pyval * Z)) (triggers : gmap Z trigger)
    (devs : list device) : list OfflineEvent * option exn :=
  match devs with
  | [] => ([], None)
  | dev :: rest =>
      match fireDevice h masterTriggerDict triggers dev with
      | Return evs =>
          let '(more, e) :=
            triggerFireOfflineDevice h masterTriggerDict triggers rest in
          ((evs ++ more)%list, e)
      | Raise KeyError => ([], None)
      | Raise e => ([], Some e)
      end
  end.

(** ** Runs and sample data *)

(** Consecutive poll cycles, one network per cycle; a cycle that
    raises is the last. *)
Fixpoint poll_cycles (clk : clock) (h : host) (cfg : settings)
    (networks : list network) (pl : plugin) (devs : list device)
    : plugin * list device * list (list (result bool)) * option exn :=
  match networks with
  | [] => (pl, devs, [], None)
  | net :: rest =>
      match refreshWeatherData clk h cfg net pl devs with
      | (pl', devs', log, Some e) => (pl', devs', [log], Some e)
      | (pl', devs', log, None) =>
          let '(pl'', devs'', logs, e) := poll_cycles clk h cfg rest pl' devs' in
          (pl'', devs'', log :: logs, e)
      end
  end.

(** A provider document for station [KXXTEST1] with the given epoch,
    local time and temperature, in standard units. *)
Definition sample_document (epoch : Z) (obsTimeLocal temp : string) : pyval :=
  PyDict
    [("observations",
      PyList
        [PyDict
           [("epoch", PyInt epoch);
            ("obsTimeLocal", PyStr obsTimeLocal);
            ("stationID", PyStr "KXXTEST1");
            ("humidity", PyInt 40);
            ("uv", PyFloat 1.0%float);
            ("winddir", PyInt 270);
            ("imperial",
             PyDict
               [("temp", PyStr temp);
                ("dewpt", PyInt 50);
                ("heatIndex", PyInt 72);
                ("windChill", PyInt 72);
                ("windGust", PyInt 9);
                ("windSpeed", PyInt 5);
                ("precipRate", PyFloat 0.0%float);
                ("precipTotal", PyFloat 0.1%float);
                ("pressure", PyFloat 30.25%float)])]])].

(** The same station answering in metric units. *)
Definition metric_document (epoch : Z) (obsTimeLocal temp : string) : pyval :=
  PyDict
    [("observations",
      PyList
        [PyDict
           [("epoch", PyInt epoch);
            ("obsTimeLocal", PyStr obsTimeLocal);
            ("stationID", PyStr "KXXTEST1");
            ("humidity", PyInt 40);
            ("uv", PyFloat 1.0%float);
            ("winddir", PyInt 270);
            ("metric",
             PyDict
               [("temp", PyStr temp);
                ("dewpt", PyInt 10);
                ("heatIndex", PyInt 22);
                ("windChill", PyInt 22);
                ("windGust", PyInt 14);
                ("windSpeed", PyInt 8);
                ("precipRate", PyFloat 0.0%float);
                ("precipTotal", PyFloat 2.5%float);
                ("pressure", PyFloat 1024.38%float)])]])].

(** The network answering every request for observations with the same
    reply; no image arrives. *)
Definition answering (r : reply) : network := {|
  observations := fun _ _ => r;
  image_saved := fun _ _ => false;
  radar_saved := fun _ => false
|}.

(** A device of the given model with the given properties and states,
    nothing displayed yet. *)
Definition a_device (id : Z) (name model : string)
    (props : gmap string string) (st : gmap string pyval) : device := {|
  dev_id := id;
  dev_name := name;
  dev_enabled := true;
  dev_model := model;
  pluginProps := props;
  states := st;
  uiValues := ∅;
  stateImage := None;
  address := None
|}.

(** A weather device for [KXXTEST1] in standard units. *)
Definition sample_device (st : gmap string pyval) : device :=
  a_device 7 "Back yard" "WUnderground Weather"
    {["location" := "KXXTEST1"; "configMenuUnits" := "S"]} st.

(** A new device: no epoch recorded yet. *)
Definition new_device : device :=
  sample_device {["currentObservationEpoch" := PyStr ""]}.

Definition sample_clock : clock := {|
  date_wu_zone := {| year := 2020; month := 6; day := 19 |};
  date_host_local := {| year := 2020; month := 6; day := 20 |}
|}.

(** The settings of [kDefaultPluginPrefs] with an API key. *)
Definition sample_settings : settings := {|
  apiKey := "0123456789abcdef";
  itemListTempDecimal := Some (PyInt 1);
  uiHumidityDecimal := Some (PyInt 1);
  uiTempDecimal := Some (PyInt 1);
  uiWindDecimal := Some (PyInt 1)
|}.

(** A host on universal time, [elapsed] seconds after
    2020-06-19 10:00:00, that writes a reading as its count of
    seconds. *)
Definition host_after (elapsed : Z) : host := {|
  getTime := 1592560800 + elapsed;
  localtime := fun t => Some t;
  strftime := fun lt => str_of_Z lt;
  repr := fun _ => "[...]"
|}.

Definition fresh_plugin : plugin :=
  {| masterWeatherDict := ∅; prefs := kDefaultPluginPrefs |}.

(** Three cycles delivering epochs 100, 150 and 90 to the new device. *)
Definition epochs_100_150_90
    : plugin * list device * list (list (result bool)) * option exn :=
  poll_cycles sample_clock (host_after 0) sample_settings
    [answering (Body (Some (sample_document 100 "2020-06-19 10:00:00" "70.1")));
     answering (Body (Some (sample_document 150 "2020-06-19 10:00:50" "71.5")));
     answering (Body (Some (sample_document 90 "2020-06-19 09:59:50" "68.0")))]
    fresh_plugin [new_device].

(** The property of one transition of a quota run. *)
Definition quota_transition_ok (t : pluginPrefs * quota_op * pluginPrefs)
    : Prop :=
  let '(a, o, b) := t in
  (is_rollover o a = true ->
     dailyCallCounter b = 0 /\ dailyCallLimitReached b = false)
  /\ (is_rollover o a = false -> dailyCallCounter a <= dailyCallCounter b)
  /\ (forall clk clk', o = CheckDay clk ->
        date_wu_zone clk' = date_wu_zone clk ->
        quota_step (CheckDay clk') a = b).

(** A computation that leaves the state [k] of the device alone. *)
Definition preserves {A : Type} (k : string) (m : stx device A) : Prop :=
  forall dev, states (fst (m dev)) !! k = states dev !! k.

(** An offline trigger with a 30 minute threshold bound to device 7,
    whose sanitized temperature is the sentinel and whose observation
    is [elapsed] seconds old. *)
Definition offline_triggers : gmap Z trigger :=
  {[ 42 := {| trig_enabled := true; pluginTypeId := "weatherSiteOffline" |} ]}.

Definition offline_bindings : gmap string (pyval * Z) :=
  {[ "7" := (PyStr "30", 42) ]}.

Definition sentinel_device : device :=
  sample_device {["currentObservationEpoch" := PyInt 1592560800;
                  "temp" := PyFloat (-99.0)%float]}.

(** ** Further notions used by the properties *)

Definition is_list (v : pyval) : bool :=
  match v with
  | PyList _ => true
  | _ => false
  end.

(** An object that does not hold the key. *)
Definition object_without (key : string) (v : pyval) : bool :=
  match v with
  | PyDict d => negb (bool_decide (is_Some (dict_get d key)))
  | _ => false
  end.

(** A write to the host's record that leaves the recorded epoch as it
    is. *)
Definition keeps_epoch (write : device -> device) : Prop :=
  forall d, currentObservationEpoch (write d) = currentObservationEpoch d.

(** Two registries whose devices hold the same epochs, position by
    position. *)
Definition same_epochs (devs devs' : list device) : Prop :=
  Forall2 (fun d d' => currentObservationEpoch d' = currentObservationEpoch d)
    devs devs'.

(** A sanitized reading: the sentinel pair, or a value that is not
    below the threshold together with its rendering. *)
Definition sanitized (v : float) (s : string) : Prop :=
  (v = fst sentinel /\ s = snd sentinel)
  \/ ((v <? implausible_below)%float = false /\ s = str_of_float v).

(** A calendar date [datetime.date] can hold. *)
Definition valid_date (d : date) : bool :=
  (1 <=? year d) && (year d <=? 9999)
  && (1 <=? month d) && (month d <=? 12)
  && (1 <=? day d) && (day d <=? days_in_month (year d) (month d)).

(** The year field of a date rendering reads back: four characters
    that [read_digits] turns into the year again. *)
Definition year_field_ok (y : Z) : bool :=
  (String.length (pad 4 y) =? 4)%nat
  && match read_digits (pad 4 y) 0 0 with
     | (v, n, r) => (v =? y) && (n =? 4) && String.eqb r ""
     end.

(** The stored reference date parses. *)
Definition day_parses (p : pluginPrefs) : Prop :=
  exists d, strptime_date (dailyCallDay p) = Return d.

(** The clock of a day check shows a calendar date. *)
Definition clock_ok (o : quota_op) : Prop :=
  match o with
  | RecordCall => True
  | CheckDay clk => valid_date (date_wu_zone clk) = true
  end.

(** The counter is within the daily limit [L], and the limit flag is
    raised only with the counter at the limit. *)
Definition within_limit (L : Z) (p : pluginPrefs) : Prop :=
  callCounter p = Some L
  /\ dailyCallCounter p <= L
  /\ (dailyCallLimitReached p = true -> dailyCallCounter p = L).

(** A published number that could be a reading: the sentinel, or a
    value that is not below the threshold. *)
Definition plausible (f : float) : Prop :=
  f = fst sentinel \/ (f <? implausible_below)%float = false.

(** The state [k] is as it was ([old]) or holds a plausible number. *)
Definition old_or_plausible (k : string) (old : option pyval)
    (st : gmap string pyval) : Prop :=
  st !! k = old \/ exists f, st !! k = Some (PyFloat f) /\ plausible f.

(** A computation that writes only plausible numbers to state [k]. *)
Definition writes_plausible {A : Type} (k : string) (m : stx device A) : Prop :=
  forall old dev,
    old_or_plausible k old (states dev) ->
    old_or_plausible k old (states (fst (m dev))).

(** The states [parseWeatherData] fills with something other than a
    sanitized number: the switch, the texts taken from the document as
    they are, and the texts rendered from the readings. *)
Definition text_states : list string :=
  ["onOffState"; "stationID"; "currentObservation"; "currentObservation24hr";
   "tempIcon"; "pressureIcon"; "windGustIcon"; "windSpeedIcon";
   "windString"; "windShortString"; "windStringMetric"].

(** ** Trigger registration: [triggerStartProcessing],
    [triggerStopProcessing] *)

(** [triggerStartProcessing(trigger)]: the binding
    [{dev.id: (delay, trigger.id)}], with the delay ['0'] when the
    trigger has no [offlineTimer].  [props] is [trigger.pluginProps];
    a trigger without [listOfDevices] is a [KeyError]. *)
Definition triggerStartProcessing (props : gmap string string)
    (trigger_id : Z) (masterTriggerDict : gmap string (pyval * Z))
    : result (gmap string (pyval * Z)) :=
  dev_id ← map_getitem props "listOfDevices";
  match props !! "offlineTimer" with
  | Some offlineTimer =>
      Return (<[dev_id := (PyStr offlineTimer, trigger_id)]> masterTriggerDict)
  | None =>
      Return (<[dev_id := (PyStr "0", trigger_id)]> masterTriggerDict)
  end.

(** [triggerStopProcessing(trigger)] only writes to the debug log; the
    binding stays in the dictionary. *)
Definition triggerStopProcessing (trigger_id : Z)
    (masterTriggerDict : gmap string (pyval * Z))
    : gmap string (pyval * Z) :=
  masterTriggerDict.

(** ** Configuration dialogs: [validatePrefsConfigUi],
    [validateDeviceConfigUi] *)

(** What a validation method answers: [True], or [False] with the
    fields it marks in [error_msg_dict] (the alert text aside). *)
Inductive verdict : Type :=
| Accepted
| Rejected (fields : list string).

(** The entries of [valuesDict] that [validatePrefsConfigUi] reads. *)
Record prefsDialog : Type := {
  vd_apiKey : string;
  vd_callCounter : pyval;
  vd_updaterEmail : string;
  vd_updaterEmailsEnabled : bool
}.

(** [v < 0] for a dialog value: numbers compare by value; in Python 2
    [None] is below every number and every other value that is not a
    number is above. *)
Definition lt_zero (v : pyval) : bool :=
  match v with
  | PyInt z => z <? 0
  | PyFloat f => (f <? 0)%float
  | PyBool _ => false
  | PyNone => true
  | PyStr _ | PyList _ | PyDict _ => false
  end.

(** [validatePrefsConfigUi(valuesDict)].  Every exception inside the
    [try] is logged and the dialog is accepted. *)
Definition validatePrefsConfigUi (valuesDict : prefsDialog) : verdict :=
  let api_key_config := vd_apiKey valuesDict in
  let call_counter_config := vd_callCounter valuesDict in
  let update_email := vd_updaterEmail valuesDict in
  let update_wanted := vd_updaterEmailsEnabled valuesDict in
  if (String.length api_key_config =? 0)%nat then Rejected ["apiKey"]
  else if is_substring " " api_key_config then Rejected ["apiKey"]
  else
    match py_int call_counter_config with
    | Raise _ => Accepted
    | Return n =>
        if n =? 0 then Rejected ["callCounter"]
        else if lt_zero call_counter_config then Rejected ["callCounter"]
        else if update_wanted && String.eqb update_email ""
        then Rejected ["updaterEmail"]
        else if update_wanted && negb (is_substring "@" update_email)
        then Rejected ["updaterEmail"]
        else Accepted
    end.

(** [s.isspace()]: not empty and nothing but whitespace. *)
Fixpoint all_space (s : string) : bool :=
  match s with
  | EmptyString => true
  | String c r => is_space c && all_space r
  end.

Definition isspace (s : string) : bool :=
  negb (String.eqb s "") && all_space s.

(** [lo <= x <= hi] on floats. *)
Definition between (lo x hi : float) : bool :=
  ((lo <=? x) && (x <=? hi))%float.

(** How a check of [validateDeviceConfigUi] ends: go on, answer, or
    raise. *)
Definition check (b : bool) (fields : list string) : result (option verdict) :=
  if b then Return None else Return (Some (Rejected fields)).

(** A sequence of checks: the first answer or exception ends it. *)
Fixpoint first_answer (steps : list (result (option verdict)))
    : result (option verdict) :=
  match steps with
  | [] => Return None
  | Return None :: rest => first_answer rest
  | r :: _ => r
  end.

(** [a = int(valuesDict[ka]); b = int(valuesDict[kb])] under
    [except ValueError]: both numbers, or the [ValueError] answer. *)
Definition two_ints (valuesDict : gmap string string) (ka kb : string)
    (on_error : list string) : result (Z * Z + verdict) :=
  a ← map_getitem valuesDict ka;
  match int_of_string a with
  | Raise _ => Return (inr (Rejected on_error))
  | Return x =>
      b ← map_getitem valuesDict kb;
      match int_of_string b with
      | Raise _ => Return (inr (Rejected on_error))
      | Return y => Return (inl (x, y))
      end
  end.

(** [float(valuesDict[k])] under [except ValueError]. *)
Definition one_float (valuesDict : gmap string string) (k : string)
    : result (float + verdict) :=
  a ← map_getitem valuesDict k;
  match float_of_string a with
  | Raise _ => Return (inr (Rejected []))
  | Return x => Return (inl x)
  end.

(** The bounding-box checks. *)
Definition validate_boundingbox (valuesDict : gmap string string)
    : result (option verdict) :=
  maxlat ← one_float valuesDict "maxlat";
  match maxlat with inr v => Return (Some v) | inl maxlat =>
  maxlon ← one_float valuesDict "maxlon";
  match maxlon with inr v => Return (Some v) | inl maxlon =>
  minlat ← one_float valuesDict "minlat";
  match minlat with inr v => Return (Some v) | inl minlat =>
  minlon ← one_float valuesDict "minlon";
  match minlon with inr v => Return (Some v) | inl minlon =>
  first_answer
    [check (between (-90.0) minlat 90.0) ["minlat"];
     check (between (-90.0) maxlat 90.0) ["maxlat"];
     check (between (-180.0) minlon 180.0) ["minlon"];
     check (between (-180.0) maxlon 180.0) ["maxlon"];
     check (negb (abs maxlat <? abs minlat)%float) ["minlat"; "maxlat"];
     check (negb (abs maxlon <? abs minlon)%float) ["minlon"; "maxlon"]]
  end end end end.

(** The radius checks. *)
Definition validate_radius (valuesDict : gmap string string)
    : result (option verdict) :=
  centerlat ← one_float valuesDict "centerlat";
  match centerlat with inr v => Return (Some v) | inl centerlat =>
  centerlon ← one_float valuesDict "centerlon";
  match centerlon with inr v => Return (Some v) | inl centerlon =>
  radius ← one_float valuesDict "radius";
  match radius with inr v => Return (Some v) | inl radius =>
  first_answer
    [check (between (-90.0) centerlat 90.0) ["centerlat"];
     check (between (-180.0) centerlon 180.0) ["centerlon"];
     check (0 <? radius)%float ["radius"]]
  end end end.

(** The [try] block of [validateDeviceConfigUi] for a radar device. *)
Definition validate_radar (valuesDict : gmap string string)
    : result (option verdict) :=
  imagename ← map_getitem valuesDict "imagename";
  if String.eqb imagename "" || isspace imagename
  then Return (Some (Rejected ["imagename"]))
  else
    size ← two_ints valuesDict "height" "width" [];
    match size with inr v => Return (Some v) | inl (height, width) =>
    first_answer
      [check (100 <=? height) ["height"];
       check (100 <=? width) ["width"];
       check (height =? width) ["height"; "width"];
       (num ← map_getitem valuesDict "num";
        match int_of_string num with
        | Raise _ => Return (Some (Rejected ["num"]))
        | Return num => check ((0 <? num) && (num <=? 15)) ["num"]
        end);
       (label ← two_ints valuesDict "timelabelx" "timelabely" [];
        match label with inr v => Return (Some v) | inl (timelabelx, timelabely) =>
        first_answer
          [check (0 <=? timelabelx) ["timelabelx"];
           check (0 <=? timelabely) ["timelabely"]]
        end);
       (imagetype ← map_getitem valuesDict "imagetype";
        if String.eqb imagetype "boundingbox" then validate_boundingbox valuesDict
        else if String.eqb imagetype "radius" then validate_radius valuesDict
        else if String.eqb imagetype "locationbox" then
          location ← map_getitem valuesDict "location";
          check (negb (isspace location)) ["location"]
        else Return None)]
    end.

(** The [try] block for every other device type: the location. *)
Definition validate_location (valuesDict : gmap string string)
    : result (option verdict) :=
  location_config ← map_getitem valuesDict "location";
  first_answer
    [check (negb (String.eqb location_config "")) ["location"];
     check (negb (is_substring " " location_config)) ["location"];
     check (negb (is_substring "\" location_config)) ["location"];
     check (negb (isspace location_config)) ["location"]].

(** [validateDeviceConfigUi(valuesDict, typeID, devId)]: an exception
    inside the [try] is logged and the dialog is accepted. *)
Definition validateDeviceConfigUi (valuesDict : gmap string string)
    (typeID : string) : verdict :=
  match (if String.eqb typeID "wundergroundRadar"
         then validate_radar valuesDict
         else validate_location valuesDict) with
  | Return (Some v) => v
  | Return None | Raise _ => Accepted
  end.


(** ** [verboseWindNames] *)

Definition wind_dict : list (string * string) :=
  [("N", "north"); ("NNE", "north northeast"); ("NE", "northeast");
   ("ENE", "east northeast"); ("E", "east"); ("ESE", "east southeast");
   ("SE", "southeast"); ("SSE", "south southeast"); ("S", "south");
   ("SSW", "south southwest"); ("SW", "southwest"); ("WSW", "west southwest");
   ("W", "west"); ("WNW", "west northwest"); ("NW", "northwest");
   ("NNW", "north northwest")].

Fixpoint assoc_get (d : list (string * string)) (k : string) : option string :=
  match d with
  | [] => None
  | (k', v) :: r => if String.eqb k' k then Some v else assoc_get r k
  end.

(** [verboseWindNames(state_name, val)]: with debugging on at level 3
    the log line looks the value up outside the [try]. *)
Definition verboseWindNames (debug : bool) (showDebugLevel : Z)
    (state_name val : string) : result string :=
  _ ← (if debug && (3 <=? showDebugLevel)
       then match assoc_get wind_dict val with
            | Some _ => Return tt
            | None => Raise KeyError
            end
       else Return tt);
  match assoc_get wind_dict val with
  | Some name => Return name
  | None => Return val
  end.
(** * Properties *)

(** ** The runtime *)

Lemma float_of_string_raises (s : string) (e : exn) :
  float_of_string s = Raise e -> e = ValueError.
Proof.
  unfold float_of_string.
  repeat match goal with
         | |- context [match ?x with _ => _ end] => destruct x
         end; congruence.
Qed.

Lemma py_float_raises (raw : pyval) (e : exn) :
  py_float raw = Raise e ->
  if out_of_float_range raw then e = OverflowError
  else if is_str_or_number raw then e = ValueError else e = TypeError.
Proof.
  destruct raw; cbn [py_float out_of_float_range is_str_or_number];
    try congruence.
  - destruct (int_too_large z); congruence.
  - apply float_of_string_raises.
Qed.

Lemma py_float_returns (raw : pyval) (v : float) :
  py_float raw = Return v ->
  is_str_or_number raw = true /\ out_of_float_range raw = false.
Proof.
  destruct raw; cbn [py_float out_of_float_range is_str_or_number];
    try congruence; try (intros _; split; reflexivity).
  destruct (int_too_large z); [discriminate | intros _; split; reflexivity].
Qed.

Lemma py_float_in_range (raw : pyval) :
  is_str_or_number raw = true -> out_of_float_range raw = false ->
  (exists v, py_float raw = Return v) \/ py_float raw = Raise ValueError.
Proof.
  intros Hn Hr. destruct (py_float raw) as [v|e] eqn:Hp; [left; eauto|].
  apply py_float_raises in Hp. rewrite Hr, Hn in Hp. subst e.
  right. reflexivity.
Qed.

(** ** Sanitizer *)

Lemma fixCorruptedData_unfold (state_name : string) (raw : pyval) :
  fixCorruptedData state_name raw =
  match py_float raw with
  | Return v =>
      if (v <? implausible_below)%float then Return sentinel
      else Return (v, str_of_float v)
  | Raise ValueError => Return sentinel
  | Raise e => Raise e
  end.
Proof.
  unfold fixCorruptedData, try_except.
  destruct (py_float raw) as [v|e]; simpl.
  - destruct (v <? implausible_below)%float; reflexivity.
  - destruct e; reflexivity.
Qed.

Lemma plausible_not_sentinel (v : float) :
  (v <? implausible_below)%float = false -> v <> fst sentinel.
Proof.
  intros H E. rewrite E in H. vm_compute in H. discriminate.
Qed.

(** C2 (amended to the values [float()] takes): on a string, a float, a
    boolean or an integer within the range of a float,
    [fixCorruptedData] returns a pair; the pair is the sentinel
    [(-99.0, "--")] exactly when [float()] fails or the parsed value is
    below [-55.728], and otherwise the parsed value with its [str]
    rendering; ["-999.0"] and ["abc"] give the sentinel, ["-45.2"]
    gives [(-45.2, "-45.2")], [-55.7] passes through and [-56.0] gives
    the sentinel. *)
Theorem fixCorruptedData_repairs (state_name : string) (raw : pyval) :
  is_str_or_number raw = true ->
  out_of_float_range raw = false ->
  (exists p, fixCorruptedData state_name raw = Return p)
  /\ (fixCorruptedData state_name raw = Return sentinel <->
        py_float raw = Raise ValueError \/
        exists v, py_float raw = Return v /\
                  (v <? implausible_below)%float = true)
  /\ (forall v, py_float raw = Return v ->
        (v <? implausible_below)%float = false ->
        fixCorruptedData state_name raw = Return (v, str_of_float v))
  /\ fixCorruptedData state_name (PyStr "-999.0") = Return ((-99.0)%float, "--")
  /\ fixCorruptedData state_name (PyStr "abc") = Return ((-99.0)%float, "--")
  /\ fixCorruptedData state_name (PyStr "-45.2") = Return ((-45.2)%float, "-45.2")
  /\ fixCorruptedData state_name (PyFloat (-55.7)%float)
     = Return ((-55.7)%float, "-55.7")
  /\ fixCorruptedData state_name (PyFloat (-56.0)%float)
     = Return ((-99.0)%float, "--").
Proof.
  intros Hnum Hrange. rewrite fixCorruptedData_unfold.
  split; [|split; [|split]].
  - destruct (py_float_in_range raw Hnum Hrange) as [[v ->] | ->]; [|eauto].
    destruct (v <? implausible_below)%float; eauto.
  - destruct (py_float raw) as [v|e] eqn:Hp.
    + destruct (v <? implausible_below)%float eqn:Hlt.
      * split; [intros _; right; eauto | reflexivity].
      * split.
        -- intros H. exfalso. apply (plausible_not_sentinel v Hlt).
           unfold sentinel in *. simpl. congruence.
        -- intros [H | (w & Hw & Hb)]; [discriminate|].
           congruence.
    + pose proof (py_float_raises raw e Hp) as He.
      rewrite Hrange, Hnum in He. subst e.
      split; [intros _; left; reflexivity | reflexivity].
  - intros v Hv Hlt. rewrite Hv, Hlt. reflexivity.
  - repeat split; vm_compute; reflexivity.
Qed.

(** C2, witness: the theorem at the string ["-45.2"]. *)
Lemma fixCorruptedData_repairs_witness :
  is_str_or_number (PyStr "-45.2") = true
  /\ out_of_float_range (PyStr "-45.2") = false
  /\ fixCorruptedData "temp_f" (PyStr "-45.2")
     = Return ((-45.2)%float, "-45.2").
Proof.
  split; [reflexivity|]. split; [reflexivity|].
  pose proof (fixCorruptedData_repairs "temp_f" (PyStr "-45.2") eq_refl eq_refl)
    as (_ & _ & H & _).
  apply (H (-45.2)%float); vm_compute; reflexivity.
Defined.

(** C2, as stated, fails on an object: [float()] fails on it, yet no
    sentinel pair comes back, a [TypeError] is raised. *)
Lemma fixCorruptedData_object_counterexample :
  (forall v, py_float (PyDict []) <> Return v)
  /\ fixCorruptedData "temp_f" (PyDict []) <> Return sentinel
  /\ fixCorruptedData "temp_f" (PyDict []) = Raise TypeError.
Proof.
  split; [|split]; [intros v | |]; vm_compute; congruence.
Qed.

(** C3 (amended): [fixCorruptedData] returns a pair on every string,
    float and boolean and on every integer within the range of a float,
    and raises nothing there; on [None], a list or an object it raises
    [TypeError], on an integer out of the range of a float it raises
    [OverflowError], and it never raises anything else. *)
Theorem fixCorruptedData_raises_TypeError_or_OverflowError
    (state_name : string) (raw : pyval) :
  match fixCorruptedData state_name raw with
  | Return _ => is_str_or_number raw = true /\ out_of_float_range raw = false
  | Raise e =>
      (e = TypeError /\ is_str_or_number raw = false)
      \/ (e = OverflowError /\ out_of_float_range raw = true)
  end.
Proof.
  rewrite fixCorruptedData_unfold.
  destruct (py_float raw) as [v|e] eqn:Hp.
  - apply py_float_returns in Hp.
    destruct (v <? implausible_below)%float; exact Hp.
  - apply py_float_raises in Hp.
    destruct (out_of_float_range raw) eqn:Hr.
    + subst e. right. split; reflexivity.
    + destruct (is_str_or_number raw) eqn:Hn; subst e.
      * destruct raw; try discriminate; cbn [py_float out_of_float_range] in *;
          split; reflexivity.
      * left. split; reflexivity.
Qed.

(** C3, as stated, fails on [None]: the call raises [TypeError]. *)
Lemma fixCorruptedData_None_counterexample :
  fixCorruptedData "temp_f" PyNone = Raise TypeError
  /\ ~ exists p, fixCorruptedData "temp_f" PyNone = Return p.
Proof.
  split; [reflexivity | intros [p H]; vm_compute in H; discriminate].
Qed.

(** ** PathResolver *)

Import Resolver.

Lemma expand_root (root : pyval) : expand [root] = candidates root.
Proof. unfold expand. simpl. apply app_nil_r. Qed.

(** One scan of the code against one scan of the design. *)
Lemma next_match_scan (key : string) (cands : list pyval) :
  next_match key cands =
  if scan_ok key cands then Return (first_object_with key cands)
  else Raise TypeError.
Proof.
  induction cands as [|sub rest IH]; [reflexivity|].
  destruct sub as [| b | z | f | s | l | d]; simpl; try reflexivity.
  - destruct (is_substring key s); simpl; [reflexivity | exact IH].
  - destruct (existsb (is_str key) l); simpl; [reflexivity | exact IH].
  - destruct (dict_get d key) as [v|] eqn:Hd; simpl.
    + reflexivity.
    + exact IH.
Qed.

(** C4 (amended): [nestedLookup] is the resolver of the design (focus
    [[root]], lists expanded into their elements, first object
    containing the key, [default] as soon as no candidate has the key)
    on every input whose scanned candidates are objects, or strings and
    lists that do not contain the key; on the others it raises
    [TypeError].  The two documented lookups give [1] and ["D"]. *)
Theorem nestedLookup_resolves (root : pyval) (pathKeys : list string)
    (default : pyval) :
  nestedLookup root pathKeys default
  = (if path_ok root pathKeys
     then Return (resolve root pathKeys default)
     else Raise TypeError)
  /\ nestedLookup
       (PyDict [("a", PyList [PyDict [("b", PyInt 1)]; PyDict [("c", PyInt 2)]])])
       ["a"; "b"] default = Return (PyInt 1)
  /\ nestedLookup (PyDict []) ["x"] (PyStr "D") = Return (PyStr "D").
Proof.
  split; [|split; reflexivity].
  revert root. induction pathKeys as [|key rest IH]; intros root.
  - reflexivity.
  - cbn [nestedLookup path_ok resolve].
    rewrite expand_root, next_match_scan.
    destruct (scan_ok key (candidates root)); simpl; [|reflexivity].
    destruct (first_object_with key (candidates root)) as [v|].
    + apply IH.
    + reflexivity.
Qed.

(** C4, as stated, fails when a scanned candidate is a scalar: with
    ["imperial"] bound to [null] the design's scan passes over the
    scalar and yields the default, the code raises [TypeError]. *)
Lemma nestedLookup_scalar_counterexample :
  let root := PyDict [("imperial", PyNone)] in
  resolve root ["imperial"; "temp"] not_available = not_available
  /\ nestedLookup root ["imperial"; "temp"] not_available = Raise TypeError
  /\ nestedLookup root ["imperial"; "temp"] not_available
     <> Return (resolve root ["imperial"; "temp"] not_available).
Proof.
  split; [|split]; vm_compute; congruence.
Qed.

(** ** QuotaTracker *)

Lemma callCount_below (p : pluginPrefs) :
  dailyCallCounter p < default 500 (callCounter p) ->
  callCount p
  = (set_dailyCallCounter (dailyCallCounter p + 1)
       (set_dailyCallLimitReached false p), []).
Proof.
  intros H. unfold callCount.
  destruct (Z.leb_spec (default 500 (callCounter p)) (dailyCallCounter p));
    [lia | reflexivity].
Qed.

Lemma callCount_at_limit (p : pluginPrefs) :
  default 500 (callCounter p) <= dailyCallCounter p ->
  callCount p
  = (set_dailyCallLimitReached true p,
     [LogLimitReached (default 500 (callCounter p));
      Sleep (default 15 (downloadInterval p))]).
Proof.
  intros H. unfold callCount.
  destruct (Z.leb_spec (default 500 (callCounter p)) (dailyCallCounter p));
    [reflexivity | lia].
Qed.

Lemma callCount_frame (p : pluginPrefs) :
  callCounter (fst (callCount p)) = callCounter p
  /\ downloadInterval (fst (callCount p)) = downloadInterval p
  /\ dailyCallDay (fst (callCount p)) = dailyCallDay p.
Proof.
  unfold callCount.
  destruct (default 500 (callCounter p) <=? dailyCallCounter p); auto.
Qed.

Lemma callCount_counter (p : pluginPrefs) :
  dailyCallCounter p <= dailyCallCounter (fst (callCount p)).
Proof.
  unfold callCount.
  destruct (default 500 (callCounter p) <=? dailyCallCounter p); simpl; lia.
Qed.

Lemma calls_S (n : nat) (p : pluginPrefs) :
  calls (S n) p = fst (callCount (calls n p)).
Proof. reflexivity. Qed.

(** Below the limit every call counts: [n] calls from [p] leave the
    counter at [dailyCallCounter p + n]. *)
Lemma calls_below (n : nat) (p : pluginPrefs) :
  dailyCallCounter p + Z.of_nat n <= default 500 (callCounter p) ->
  dailyCallCounter (calls n p) = dailyCallCounter p + Z.of_nat n
  /\ callCounter (calls n p) = callCounter p
  /\ downloadInterval (calls n p) = downloadInterval p.
Proof.
  induction n as [|n IH]; intros H.
  - cbn [calls Nat.iter]. repeat split. simpl. lia.
  - destruct IH as (Hc & Hm & Hd); [lia|].
    rewrite calls_S.
    destruct (callCount_frame (calls n p)) as (F1 & F2 & _).
    rewrite F1, F2, callCount_below by (rewrite Hc, Hm; lia).
    cbn [fst set_dailyCallCounter dailyCallCounter].
    repeat split; [lia | assumption | assumption].
Qed.

(** The run up to an arbitrary limit [L]. *)
Lemma callCount_until_limit (L : nat) (p : pluginPrefs) :
  dailyCallCounter p = 0 ->
  callCounter p = Some (Z.of_nat L) ->
  (forall n : nat, (n < L)%nat ->
     dailyCallCounter (calls n p) = Z.of_nat n
     /\ callCount (calls n p)
        = (set_dailyCallCounter (Z.of_nat n + 1)
             (set_dailyCallLimitReached false (calls n p)), [])
     /\ dailyCallCounter (calls (S n) p) = Z.of_nat n + 1
     /\ dailyCallLimitReached (calls (S n) p) = false)
  /\ dailyCallCounter (calls L p) = Z.of_nat L
  /\ callCount (calls L p)
     = (set_dailyCallLimitReached true (calls L p),
        [LogLimitReached (Z.of_nat L);
         Sleep (default 15 (downloadInterval p))])
  /\ dailyCallCounter (fst (callCount (calls L p))) = Z.of_nat L
  /\ dailyCallLimitReached (fst (callCount (calls L p))) = true.
Proof.
  intros H0 Hmax.
  assert (Hn : forall n : nat, (n <= L)%nat ->
            dailyCallCounter (calls n p) = Z.of_nat n
            /\ callCounter (calls n p) = Some (Z.of_nat L)
            /\ downloadInterval (calls n p) = downloadInterval p).
  { intros n Hle.
    destruct (calls_below n p) as (A & B & C);
      [rewrite H0, Hmax; simpl; lia|].
    split; [rewrite A, H0; lia|].
    split; [rewrite B; exact Hmax | exact C]. }
  split.
  - intros n Hlt. destruct (Hn n) as (A & B & _); [lia|].
    assert (E : callCount (calls n p)
                = (set_dailyCallCounter (Z.of_nat n + 1)
                     (set_dailyCallLimitReached false (calls n p)), [])).
    { rewrite callCount_below by (rewrite A, B; simpl; lia).
      rewrite A. reflexivity. }
    rewrite calls_S, E. repeat split; assumption.
  - destruct (Hn L) as (A & B & C); [lia|].
    rewrite callCount_at_limit by (rewrite A, B; simpl; lia).
    rewrite B, C. cbn [fst default].
    split; [exact A|]. split; [reflexivity|].
    split; [exact A | reflexivity].
Qed.

(** C5: from a counter of 0 and a daily limit of 500, each of the first
    500 invocations of [callCount] raises the counter by one, leaves
    the limit flag false and signals nothing; the 501st logs that the
    limit is reached and pauses, sets the flag, and leaves the counter
    at 500. *)
Theorem callCount_first_500_then_limit (p : pluginPrefs) :
  dailyCallCounter p = 0 ->
  callCounter p = Some 500 ->
  (forall n : nat, (n < 500)%nat ->
     dailyCallCounter (calls n p) = Z.of_nat n
     /\ callCount (calls n p)
        = (set_dailyCallCounter (Z.of_nat n + 1)
             (set_dailyCallLimitReached false (calls n p)), [])
     /\ dailyCallCounter (calls (S n) p) = Z.of_nat n + 1
     /\ dailyCallLimitReached (calls (S n) p) = false)
  /\ dailyCallCounter (calls 500 p) = 500
  /\ callCount (calls 500 p)
     = (set_dailyCallLimitReached true (calls 500 p),
        [LogLimitReached 500; Sleep (default 15 (downloadInterval p))])
  /\ dailyCallCounter (fst (callCount (calls 500 p))) = 500
  /\ dailyCallLimitReached (fst (callCount (calls 500 p))) = true.
Proof.
  intros H0 Hmax. exact (callCount_until_limit 500 p H0 Hmax).
Qed.

(** C5, witness: the theorem at [kDefaultPluginPrefs]. *)
Lemma callCount_first_500_then_limit_witness :
  dailyCallCounter kDefaultPluginPrefs = 0
  /\ callCounter kDefaultPluginPrefs = Some 500
  /\ dailyCallCounter (fst (callCount (calls 500 kDefaultPluginPrefs))) = 500
  /\ dailyCallLimitReached (fst (callCount (calls 500 kDefaultPluginPrefs)))
     = true.
Proof.
  split; [reflexivity|]. split; [reflexivity|].
  apply (callCount_first_500_then_limit kDefaultPluginPrefs);
    reflexivity.
Defined.

(** C10: an invocation of [callCount] with the counter strictly below
    the limit sets [dailyCallLimitReached] to [False] and raises the
    counter by one, whatever the flag was. *)
Theorem callCount_below_limit_clears_flag (p : pluginPrefs) :
  dailyCallCounter p < default 500 (callCounter p) ->
  dailyCallLimitReached (fst (callCount p)) = false
  /\ dailyCallCounter (fst (callCount p)) = dailyCallCounter p + 1
  /\ snd (callCount p) = [].
Proof.
  intros H. rewrite callCount_below by assumption. auto.
Qed.

(** C10, witness: a raised flag with 3 calls made of 500. *)
Lemma callCount_below_limit_clears_flag_witness :
  let p := set_dailyCallLimitReached true
             (set_dailyCallCounter 3 kDefaultPluginPrefs) in
  dailyCallLimitReached p = true
  /\ dailyCallCounter p < default 500 (callCounter p)
  /\ dailyCallLimitReached (fst (callCount p)) = false
  /\ dailyCallCounter (fst (callCount p)) = 4.
Proof.
  intros p. split; [reflexivity|]. split; [reflexivity|].
  destruct (callCount_below_limit_clears_flag p) as (A & B & _);
    [reflexivity|].
  split; [exact A | exact B].
Defined.

Lemma callDay_rollover (clk : clock) (p : pluginPrefs) (d : date) :
  strptime_date (dailyCallDay p) = Return d ->
  date_gtb (date_wu_zone clk) d = true ->
  callDay clk p
  = Return {| callCounter := callCounter p;
              dailyCallCounter := 0;
              dailyCallDay := isoformat (date_wu_zone clk);
              dailyCallLimitReached := false;
              downloadInterval := downloadInterval p |}.
Proof.
  intros Hd Hgt. unfold callDay. rewrite Hd. simpl. rewrite Hgt.
  destruct (_ || _); reflexivity.
Qed.

Lemma callDay_same_day (clk : clock) (p : pluginPrefs) (d : date) :
  strptime_date (dailyCallDay p) = Return d ->
  date_gtb (date_wu_zone clk) d = false ->
  dailyCallDay p <> "2000-01-01" ->
  callDay clk p = Return p.
Proof.
  intros Hd Hgt Hne. unfold callDay. rewrite Hd. simpl. rewrite Hgt.
  destruct (String.eqb_spec (dailyCallDay p) "") as [E|_].
  - rewrite E in Hd. vm_compute in Hd. discriminate.
  - destruct (String.eqb_spec (dailyCallDay p) "2000-01-01"); [contradiction|].
    reflexivity.
Qed.

Lemma callDay_counter (clk : clock) (p p' : pluginPrefs) :
  callDay clk p = Return p' ->
  if is_rollover (CheckDay clk) p
  then dailyCallCounter p' = 0 /\ dailyCallLimitReached p' = false
  else dailyCallCounter p' = dailyCallCounter p.
Proof.
  unfold callDay, is_rollover.
  destruct (strptime_date (dailyCallDay p)) as [d|e]; simpl; [|discriminate].
  destruct (date_gtb (date_wu_zone clk) d); intros [= <-].
  - split; reflexivity.
  - destruct (_ || _); reflexivity.
Qed.


Lemma quota_step_ok (o : quota_op) (p : pluginPrefs) :
  quota_transition_ok (p, o, quota_step o p).
Proof.
  unfold quota_transition_ok. destruct o as [|clk].
  - split; [discriminate|]. split; [|discriminate].
    intros _. apply callCount_counter.
  - pose proof (callDay_counter clk p) as H. simpl quota_step.
    destruct (callDay clk p) as [p'|e] eqn:Hc.
    + specialize (H p' eq_refl).
      split; [|split].
      * intros R. rewrite R in H. exact H.
      * intros R. rewrite R in H. lia.
      * intros c c' [= ->] Hz. simpl.
        unfold callDay in *. rewrite Hz, Hc. reflexivity.
    + split; [|split].
      * unfold is_rollover, callDay in *.
        destruct (strptime_date (dailyCallDay p)); simpl in Hc;
          [|discriminate].
        destruct (date_gtb (date_wu_zone clk) a); discriminate.
      * lia.
      * intros c c' [= ->] Hz. simpl.
        unfold callDay in *. rewrite Hz, Hc. reflexivity.
Qed.

(** C6: along every run of [callCount] and [callDay] operations the
    call counter never decreases except at a date rollover, a rollover
    always resets the counter to 0 and the limit flag to false, and the
    outcome of a day check depends on the date in the provider's zone
    only, not on the host's local date. *)
Theorem quota_counter_monotone_between_rollovers (ops : list quota_op)
    (p : pluginPrefs) :
  Forall quota_transition_ok (quota_run ops p).
Proof.
  revert p. induction ops as [|o ops IH]; intros p; simpl.
  - constructor.
  - constructor; [apply quota_step_ok | apply IH].
Qed.

(** C9 at the failing input: with the reference date unset (the empty
    string) [strptime] rejects the date, so [callDay] raises
    [ValueError] before its test for the empty string is reached, and
    neither the counter, the flag nor the date is reset. *)
Theorem callDay_unset_raises (clk : clock) (p : pluginPrefs) :
  strptime_date "" = Raise ValueError
  /\ callDay clk (set_dailyCallDay "" p) = Raise ValueError
  /\ quota_step (CheckDay clk) (set_dailyCallDay "" p) = set_dailyCallDay "" p.
Proof.
  split; [reflexivity|].
  assert (E : callDay clk (set_dailyCallDay "" p) = Raise ValueError)
    by reflexivity.
  split; [exact E|].
  unfold quota_step. rewrite E. reflexivity.
Qed.

(** ** Device states *)

Lemma preserves_lift {A : Type} (k : string) (r : result A) :
  preserves k (lift r).
Proof. intros st. reflexivity. Qed.

Lemma preserves_ret {A : Type} (k : string) (a : A) :
  preserves k (mret a).
Proof. intros st. reflexivity. Qed.

Lemma preserves_bind {A B : Type} (k : string)
    (m : stx device A) (f : A -> stx device B) :
  preserves k m -> (forall a, preserves k (f a)) -> preserves k (m ≫= f).
Proof.
  intros Hm Hf st. unfold mbind, stx_bind.
  specialize (Hm st). destruct (m st) as [st' [a|e]]; simpl in *.
  - rewrite Hf. exact Hm.
  - exact Hm.
Qed.

Lemma preserves_update (k key : string) (v : pyval) (ui : option pyval) :
  key <> k -> preserves k (updateStateOnServer key v ui).
Proof. intros Hne st. simpl. apply lookup_insert_ne. exact Hne. Qed.

Lemma preserves_image (k : string) (image : stateImageSel) :
  preserves k (updateStateImageOnServer image).
Proof. intros st. reflexivity. Qed.

Lemma preserves_props (k : string) (v : pyval) :
  preserves k (replacePluginPropsOnServer v).
Proof. intros st. reflexivity. Qed.

Lemma preserves_publish_temperature (k : string) (cfg : settings)
    (dev : device) (key state_name state_name_ui : string) (val : pyval) :
  key <> k ->
  preserves k (publish_temperature cfg dev key state_name state_name_ui val).
Proof.
  intros Hne. unfold publish_temperature.
  apply preserves_bind; [apply preserves_lift|].
  intros [v s]. apply preserves_bind; [apply preserves_lift|].
  intros ui. apply preserves_bind; [apply preserves_update; exact Hne|].
  intros _. apply preserves_ret.
Qed.

Lemma preserves_item_list_text (k : string) (h : host) (cfg : settings)
    (val : pyval) (letter : string) :
  preserves k (item_list_text h cfg val letter).
Proof.
  unfold item_list_text. apply preserves_bind; [apply preserves_lift|].
  intros s. apply preserves_ret.
Qed.

Ltac preserve_step :=
  lazymatch goal with
  | |- preserves _ (lift _) => apply preserves_lift
  | |- preserves _ (mret _) => apply preserves_ret
  | |- preserves _ (updateStateOnServer _ _ _) =>
      apply preserves_update; discriminate
  | |- preserves _ (updateStateImageOnServer _) => apply preserves_image
  | |- preserves _ (replacePluginPropsOnServer _) => apply preserves_props
  | |- preserves _ (publish_temperature _ _ _ _ _ _) =>
      apply preserves_publish_temperature; discriminate
  | |- preserves _ (item_list_text _ _ _ _) => apply preserves_item_list_text
  | |- preserves _ (mbind _ _) => apply preserves_bind; [|intros ?]
  | |- preserves _ (if ?b then _ else _) => destruct b
  | |- preserves _ (match ?x with _ => _ end) => destruct x
  end.

(** [parseWeatherData] never writes the epoch state. *)
Lemma parseWeatherData_try_epoch (h : host) (cfg : settings)
    (mwd : gmap string pyval) (dev : device) :
  preserves "currentObservationEpoch" (parseWeatherData_try h cfg mwd dev).
Proof. unfold parseWeatherData_try. repeat preserve_step. Qed.

Lemma set_state_keeps_epoch (key : string) (v : pyval) (ui : option pyval) :
  key <> "currentObservationEpoch" -> keeps_epoch (set_state key v ui).
Proof.
  intros Hne d. unfold currentObservationEpoch. simpl.
  apply lookup_insert_ne. exact Hne.
Qed.

Lemma set_image_keeps_epoch (image : stateImageSel) :
  keeps_epoch (set_image image).
Proof. intros d. reflexivity. Qed.

Lemma keeps_epoch_compose (f g : device -> device) :
  keeps_epoch f -> keeps_epoch g -> keeps_epoch (fun d => f (g d)).
Proof. intros Hf Hg d. rewrite Hf. apply Hg. Qed.

Lemma parseWeatherData_keeps_epoch (h : host) (cfg : settings)
    (mwd : gmap string pyval) (dev : device) :
  keeps_epoch (parseWeatherData h cfg mwd dev).
Proof.
  intros d. unfold parseWeatherData, currentObservationEpoch.
  pose proof (parseWeatherData_try_epoch h cfg mwd dev d) as H.
  destruct (parseWeatherData_try h cfg mwd dev d) as [st [u|e]];
    simpl in H; [exact H|].
  destruct e; simpl; rewrite ?lookup_insert_ne by discriminate; exact H.
Qed.

Lemma no_comm_keeps_epoch : keeps_epoch no_comm.
Proof.
  intros d. unfold no_comm. destruct (dev_enabled d); [|reflexivity].
  apply set_state_keeps_epoch. discriminate.
Qed.

Lemma same_epochs_refl (devs : list device) : same_epochs devs devs.
Proof. induction devs; constructor; auto. Qed.

Lemma same_epochs_trans (a b c : list device) :
  same_epochs a b -> same_epochs b c -> same_epochs a c.
Proof.
  intros Hab. revert c. induction Hab as [|x y a b Hxy _ IH]; intros c Hbc.
  - inversion Hbc. constructor.
  - inversion Hbc as [|y' z b' c' Hyz Hbc']; subst.
    constructor; [congruence | apply IH; assumption].
Qed.

Lemma same_epochs_map (write : device -> device) (devs : list device) :
  keeps_epoch write -> same_epochs devs (map write devs).
Proof. intros Hw. induction devs; simpl; constructor; auto. Qed.

Lemma same_epochs_alter (write : device -> device) (i : nat)
    (devs : list device) :
  keeps_epoch write -> same_epochs devs (alter write i devs).
Proof.
  intros Hw. revert i. induction devs as [|d devs IH]; intros i.
  - constructor.
  - destruct i as [|i]; simpl.
    + constructor; [apply Hw | apply same_epochs_refl].
    + constructor; [reflexivity | apply IH].
Qed.

Lemma callDay_devices_epochs (clk : clock) (p : pluginPrefs)
    (devs : list device) :
  same_epochs devs (callDay_devices clk p devs).
Proof.
  unfold callDay_devices.
  destruct (strptime_date (dailyCallDay p)); [|apply same_epochs_refl].
  destruct (date_gtb _ _); [|apply same_epochs_refl].
  apply same_epochs_map. intros d.
  destruct (bool_decide _); [|reflexivity].
  apply set_state_keeps_epoch. discriminate.
Qed.

Lemma getWeatherData_epochs (net : network) (pl : plugin)
    (devs : list device) (dev : device) :
  same_epochs devs (snd (getWeatherData net pl devs dev)).
Proof.
  unfold getWeatherData.
  repeat match goal with
         | |- context [if ?b then _ else _] => destruct b
         | |- context [match observations ?n ?l ?u with _ => _ end] =>
             destruct (observations n l u)
         end; simpl; try apply same_epochs_refl.
  apply same_epochs_map, no_comm_keeps_epoch.
Qed.

Lemma getSatelliteImage_keeps_epoch (net : network) (dev : device)
    (write : device -> device) :
  getSatelliteImage net dev = Return write -> keeps_epoch write.
Proof.
  unfold getSatelliteImage.
  destruct (map_getitem (pluginProps dev) "imageDestinationLocation")
    as [destination|]; [|discriminate].
  destruct (map_getitem (pluginProps dev) "imageSourceLocation")
    as [source|]; [|discriminate].
  cbn [mbind result_bind]. intros [= <-].
  match goal with
  | |- context [if ?b then _ else _] => destruct b
  end; [destruct (image_saved _ _ _)|].
  - apply (keeps_epoch_compose (set_image SensorOn)
             (set_state "onOffState" (PyBool true) (Some (PyStr " ")))).
    + apply set_image_keeps_epoch.
    + apply set_state_keeps_epoch. discriminate.
  - apply set_state_keeps_epoch. discriminate.
  - apply set_state_keeps_epoch. discriminate.
Qed.

Lemma getWUradar_keeps_epoch (net : network) (p p' : pluginPrefs)
    (dev : device) (write : device -> device) :
  getWUradar net p dev = Return (p', write) -> keeps_epoch write.
Proof.
  unfold getWUradar. destruct (radar_parms dev); [|discriminate].
  cbn [mbind result_bind].
  destruct (_ && _); intros [= _ <-].
  - apply (keeps_epoch_compose
             (set_state "onOffState" (PyBool true) (Some (PyStr " ")))
             (set_image SensorOn)).
    + apply set_state_keeps_epoch. discriminate.
    + apply set_image_keeps_epoch.
  - apply set_state_keeps_epoch. discriminate.
Qed.

Lemma refreshDevice_epochs (h : host) (cfg : settings) (net : network)
    (pl : plugin) (devs : list device) (i : nat) :
  same_epochs devs (snd (fst (refreshDevice h cfg net pl devs i))).
Proof.
  assert (On : forall b ui,
            keeps_epoch (set_state "onOffState" (PyBool b) (Some (PyStr ui))))
    by (intros b ui; apply set_state_keeps_epoch; discriminate).
  unfold refreshDevice.
  destruct (devs !! i) as [dev|]; [|apply same_epochs_refl].
  destruct (_ || _); [apply same_epochs_alter, On|].
  destruct (negb (dev_enabled dev)); [apply same_epochs_alter, On|].
  set (devs1 := alter _ i devs).
  assert (H1 : same_epochs devs devs1) by apply same_epochs_alter, On.
  destruct (negb (in_models (dev_model dev) image_models)).
  - destruct (map_getitem (pluginProps dev) "location") as [location|e];
      [|exact H1].
    pose proof (getWeatherData_epochs net pl devs1 dev) as H2.
    destruct (getWeatherData net pl devs1 dev) as [pl2 devs2]. simpl in H2.
    set (devs3 := if is_bad_loc _ then _ else devs2).
    assert (H3 : same_epochs devs devs3).
    { apply (same_epochs_trans _ devs2); [apply (same_epochs_trans _ devs1)|];
        try assumption.
      subst devs3. destruct (is_bad_loc _);
        [apply same_epochs_alter, On | apply same_epochs_refl]. }
    destruct (good_time _ location dev) as [g|e]; [|exact H3].
    destruct (_ && _); simpl; [|exact H3].
    apply (same_epochs_trans _ devs3); [exact H3|].
    apply same_epochs_alter.
    apply (keeps_epoch_compose (set_image TemperatureSensorOn)
             (parseWeatherData h cfg (masterWeatherDict pl2) dev)).
    + apply set_image_keeps_epoch.
    + apply parseWeatherData_keeps_epoch.
  - destruct (in_models (dev_model dev) satellite_models).
    + destruct (getSatelliteImage net dev) as [write|e] eqn:E; [|exact H1].
      simpl. apply (same_epochs_trans _ devs1); [exact H1|].
      apply same_epochs_alter. exact (getSatelliteImage_keeps_epoch _ _ _ E).
    + destruct (in_models (dev_model dev) ["WUnderground Radar"]);
        [|exact H1].
      destruct (getWUradar net (prefs pl) dev) as [[p write]|e] eqn:E;
        [|exact H1].
      simpl. apply (same_epochs_trans _ devs1); [exact H1|].
      apply same_epochs_alter. exact (getWUradar_keeps_epoch _ _ _ _ _ E).
Qed.

Lemma refresh_loop_epochs (h : host) (cfg : settings) (net : network)
    (positions : list nat) (pl : plugin) (devs : list device) :
  same_epochs devs (snd (fst (refresh_loop h cfg net positions pl devs))).
Proof.
  revert pl devs. induction positions as [|i rest IH]; intros pl devs; simpl.
  - apply same_epochs_refl.
  - pose proof (refreshDevice_epochs h cfg net pl devs i) as H.
    destruct (refreshDevice h cfg net pl devs i) as [[pl' devs'] [b|e]];
      simpl in H.
    + specialize (IH pl' devs').
      destruct (refresh_loop h cfg net rest pl' devs') as [[pl'' devs''] log].
      simpl in *. apply (same_epochs_trans _ devs'); assumption.
    + exact H.
Qed.

Lemma refreshWeatherData_epochs (clk : clock) (h : host) (cfg : settings)
    (net : network) (pl : plugin) (devs : list device) :
  same_epochs devs (snd (fst (fst (refreshWeatherData clk h cfg net pl devs)))).
Proof.
  unfold refreshWeatherData.
  destruct (callDay clk (prefs pl)) as [p|e]; simpl; [|apply same_epochs_refl].
  pose proof (callDay_devices_epochs clk (prefs pl) devs) as H0.
  destruct (dailyCallLimitReached (prefs pl)); simpl; [exact H0|].
  set (devs0 := callDay_devices clk (prefs pl) devs) in *.
  pose proof (refresh_loop_epochs h cfg net (seq 0 (length devs0))
                {| masterWeatherDict := ∅; prefs := p |} devs0) as H.
  destruct (refresh_loop _ _ _ _ _ devs0) as [[pl' devs'] log]. simpl in *.
  apply (same_epochs_trans _ devs0); assumption.
Qed.

(** C1 at the failing input.  No poll cycle ever changes a device's
    [currentObservationEpoch]: the statement that wrote it is commented
    out of [parseWeatherData].  So for a new device the epochs 100, 150
    and 90 are all accepted, and after the third cycle the device shows
    the observation of epoch 90 while its recorded epoch is still
    empty. *)
Theorem stale_epoch_is_accepted :
  (forall clk h cfg net pl devs,
     Forall2 (fun d d' => currentObservationEpoch d' = currentObservationEpoch d)
       devs (snd (fst (fst (refreshWeatherData clk h cfg net pl devs)))))
  /\ snd (fst epochs_100_150_90) = [[Return true]; [Return true]; [Return true]]
  /\ snd epochs_100_150_90 = None
  /\ map currentObservationEpoch (snd (fst (fst epochs_100_150_90)))
     = [Some (PyStr "")]
  /\ map (fun d => states d !! "currentObservation")
       (snd (fst (fst epochs_100_150_90)))
     = [Some (PyStr "2020-06-19 09:59:50")]
  /\ map (fun d => states d !! "temp") (snd (fst (fst epochs_100_150_90)))
     = [Some (PyFloat 68.0%float)].
Proof.
  split; [exact refreshWeatherData_epochs|].
  repeat split; vm_compute; reflexivity.
Qed.

(** ** Undecodable bodies *)

Lemma int_of_string_raises (s : string) (e : exn) :
  int_of_string s = Raise e -> e = ValueError.
Proof.
  unfold int_of_string.
  repeat match goal with
         | |- context [match ?x with _ => _ end] => destruct x
         end; congruence.
Qed.

Lemma not_image_not_satellite (m : string) :
  in_models m image_models = false ->
  in_models m satellite_models = false.
Proof.
  unfold in_models, image_models, satellite_models. simpl.
  repeat match goal with
         | |- context [String.eqb m ?x] => destruct (String.eqb m x)
         end; simpl; congruence.
Qed.

(** With the empty document stored, the epoch gate says "no". *)
Lemma good_time_empty_document (mwd : gmap string pyval) (location : string)
    (dev : device) :
  mwd !! location = Some (PyDict []) ->
  epoch_state_ok dev = true ->
  good_time mwd location dev = Return false.
Proof.
  intros Hdoc Hok. unfold good_time, map_getitem, epoch_state_ok in *.
  unfold currentObservationEpoch in Hok. rewrite Hdoc.
  destruct (states dev !! "currentObservationEpoch") as [v|]; [|reflexivity].
  destruct v as [| | z | | s | |]; try discriminate.
  - reflexivity.
  - simpl. destruct (int_of_string s) as [z|e] eqn:E; [reflexivity|].
    apply int_of_string_raises in E. subst e. reflexivity.
Qed.

(** The first steps of [refreshDevice] for an enabled device of a
    weather model whose location is fetched in this cycle and answered
    with a body. *)
Lemma refreshDevice_fetch (h : host) (cfg : settings) (net : network)
    (pl : plugin) (devs : list device) (i : nat) (dev : device)
    (location : string) (decoded : option pyval) :
  apiKey cfg <> "" -> apiKey cfg <> "API Key" ->
  devs !! i = Some dev ->
  dev_enabled dev = true ->
  in_models (dev_model dev) image_models = false ->
  pluginProps dev !! "location" = Some location ->
  masterWeatherDict pl !! location = None ->
  observations net location (wu_units dev) = Body decoded ->
  is_bad_loc decoded = false ->
  let wd := default (PyDict []) decoded in
  let pl' := {| masterWeatherDict := <[location := wd]> (masterWeatherDict pl);
                prefs := fst (callCount (prefs pl)) |} in
  let devs' :=
    alter (set_state "onOffState" (PyBool true) (Some (PyStr " "))) i devs in
  refreshDevice h cfg net pl devs i
  = match good_time (masterWeatherDict pl') location dev with
    | Raise e => (pl', devs', Raise e)
    | Return g =>
        if g && in_models (dev_model dev) weather_models
        then (pl',
              alter (fun server =>
                       set_image TemperatureSensorOn
                         (parseWeatherData h cfg (masterWeatherDict pl') dev
                            server))
                    i devs',
              Return true)
        else (pl', devs', Return false)
    end.
Proof.
  intros Hk1 Hk2 Hi Hen Himg Hloc Hnew Hbody Hbad wd pl' devs'.
  unfold refreshDevice. rewrite Hi.
  destruct (String.eqb_spec (apiKey cfg) ""); [contradiction|].
  destruct (String.eqb_spec (apiKey cfg) "API Key"); [contradiction|].
  rewrite Hen, Himg. cbn [orb negb]. fold devs'.
  unfold map_getitem at 1. rewrite Hloc.
  unfold getWeatherData.
  rewrite (not_image_not_satellite _ Himg), Hloc. cbn [from_option id].
  rewrite Hnew, Hbody.
  rewrite bool_decide_eq_false_2 by (intros [x Hx]; discriminate).
  fold wd. fold pl'.
  assert (Hl : masterWeatherDict pl' !! location = Some wd)
    by apply lookup_insert_eq.
  rewrite Hl.
  assert (Hb : is_bad_loc (Some wd) = false).
  { subst wd. destruct decoded as [v|]; [exact Hbad | reflexivity]. }
  rewrite Hb.
  assert (Hne : bool_decide (masterWeatherDict pl' = ∅) = false).
  { apply bool_decide_eq_false_2. intros E. rewrite E in Hl.
    rewrite lookup_empty in Hl. discriminate. }
  rewrite Hne. cbn [negb andb].
  reflexivity.
Qed.

(** C8 (amended): when the body does not decode, the document stored
    for the location is [{}]; for an enabled weather device whose
    recorded epoch is missing, a string or an integer, the epoch lookup
    on [{}] raises [KeyError], the gate takes that as "cannot determine
    age of data", and the device is passed over: it is switched on,
    nothing is parsed, no default is published, and the loop goes on to
    the next device without an exception.  Only a lookup made through
    [nestedLookup] falls back to its default on [{}]. *)
Theorem undecodable_body_skips_device (h : host) (cfg : settings)
    (net : network) (pl : plugin) (devs : list device) (i : nat)
    (dev : device) (positions : list nat) (location : string) :
  apiKey cfg <> "" -> apiKey cfg <> "API Key" ->
  devs !! i = Some dev ->
  dev_enabled dev = true ->
  in_models (dev_model dev) image_models = false ->
  pluginProps dev !! "location" = Some location ->
  masterWeatherDict pl !! location = None ->
  observations net location (wu_units dev) = Body None ->
  epoch_state_ok dev = true ->
  let pl' := {| masterWeatherDict :=
                  <[location := PyDict []]> (masterWeatherDict pl);
                prefs := fst (callCount (prefs pl)) |} in
  let devs' :=
    alter (set_state "onOffState" (PyBool true) (Some (PyStr " "))) i devs in
  refreshDevice h cfg net pl devs i = (pl', devs', Return false)
  /\ refresh_loop h cfg net (i :: positions) pl devs
     = (let '(pl'', devs'', log) := refresh_loop h cfg net positions pl' devs' in
        (pl'', devs'', Return false :: log))
  /\ obs_field (PyDict []) "epoch" = Raise KeyError
  /\ forall key keys default,
       nestedLookup (PyDict []) (key :: keys) default = Return default.
Proof.
  intros Hk1 Hk2 Hi Hen Himg Hloc Hnew Hbody Hok pl' devs'.
  assert (E : refreshDevice h cfg net pl devs i = (pl', devs', Return false)).
  { rewrite (refreshDevice_fetch h cfg net pl devs i dev location None
               Hk1 Hk2 Hi Hen Himg Hloc Hnew Hbody eq_refl).
    cbn [from_option id]. fold pl' devs'.
    rewrite (good_time_empty_document _ location dev);
      [reflexivity | apply lookup_insert_eq | exact Hok]. }
  split; [exact E|]. split; [|split].
  - cbn [refresh_loop]. rewrite E. reflexivity.
  - reflexivity.
  - intros key keys default. reflexivity.
Qed.

(** C8, witness: the theorem at the new device and a network whose
    body does not decode. *)
Lemma undecodable_body_skips_device_witness :
  refreshDevice (host_after 0) sample_settings (answering (Body None))
    fresh_plugin [new_device] 0
  = ({| masterWeatherDict := {["KXXTEST1" := PyDict []]};
        prefs := fst (callCount kDefaultPluginPrefs) |},
     [set_state "onOffState" (PyBool true) (Some (PyStr " ")) new_device],
     Return false).
Proof.
  refine (proj1 (undecodable_body_skips_device (host_after 0) sample_settings
                   (answering (Body None)) fresh_plugin [new_device] 0
                   new_device [] "KXXTEST1" _ _ _ _ _ _ _ _ _));
    solve [discriminate | reflexivity].
Defined.

(** C8, as stated, fails: on the stored [{}] the field lookups of
    [parseWeatherData] do not resolve to a default, the first of them
    raises [KeyError]; were the device parsed it would be switched
    off. *)
Lemma undecodable_body_lookup_counterexample :
  let pl := fst (fst (refreshDevice (host_after 0) sample_settings
                        (answering (Body None)) fresh_plugin [new_device] 0)) in
  let parsed := parseWeatherData (host_after 0) sample_settings
                  (masterWeatherDict pl) new_device new_device in
  masterWeatherDict pl !! "KXXTEST1" = Some (PyDict [])
  /\ obs_field (PyDict []) "epoch" = Raise KeyError
  /\ (forall d, obs_field (PyDict []) "epoch" <> Return d)
  /\ states parsed !! "onOffState" = Some (PyBool false)
  /\ states parsed !! "temp" = None.
Proof.
  repeat split; try (intros d); vm_compute; congruence.
Qed.

(** ** Offline triggers *)

(** A pass over devices that all return is the pass over the first of
    them followed by the pass over the rest. *)
Lemma triggerFire_app (h : host) (mtd : gmap string (pyval * Z))
    (triggers : gmap Z trigger) (pre rest : list device) :
  Forall (fun d => exists l, fireDevice h mtd triggers d = Return l) pre ->
  triggerFireOfflineDevice h mtd triggers (pre ++ rest)
  = ((fst (triggerFireOfflineDevice h mtd triggers pre)
      ++ fst (triggerFireOfflineDevice h mtd triggers rest))%list,
     snd (triggerFireOfflineDevice h mtd triggers rest)).
Proof.
  intros Hpre. induction Hpre as [|d pre [l Hl] _ IH]; simpl.
  - destruct (triggerFireOfflineDevice h mtd triggers rest); reflexivity.
  - rewrite Hl, IH.
    destruct (triggerFireOfflineDevice h mtd triggers pre) as [a x].
    simpl. rewrite app_assoc. reflexivity.
Qed.

Lemma triggerFire_reaches (h : host) (mtd : gmap string (pyval * Z))
    (triggers : gmap Z trigger) (pre : list device) (dev : device)
    (post : list device) (evs : list OfflineEvent) (e : OfflineEvent) :
  Forall (fun d => exists l, fireDevice h mtd triggers d = Return l) pre ->
  fireDevice h mtd triggers dev = Return evs ->
  In e evs ->
  In e (fst (triggerFireOfflineDevice h mtd triggers (pre ++ dev :: post))).
Proof.
  intros Hpre Hdev Hin. rewrite (triggerFire_app h mtd triggers _ _ Hpre).
  cbn [fst triggerFireOfflineDevice]. rewrite Hdev.
  destruct (triggerFireOfflineDevice h mtd triggers post) as [more x].
  cbn [fst]. apply in_or_app. right. apply in_or_app. left. exact Hin.
Qed.

(** From 1900 to 9999 the observation time is the reading of the
    local calendar itself. *)
Lemma current_observation_reading (h : host) (epoch : pyval) (seen : Z) :
  localtime_of h epoch = Return seen ->
  year_1900 <= seen < year_10000 ->
  current_observation h epoch = Return seen.
Proof.
  intros Hl [Hlo Hhi]. unfold current_observation. rewrite Hl.
  cbn [mbind result_bind]. unfold strftime_reading, strptime_reading.
  destruct (Z.leb_spec year_1900 seen); [|lia].
  cbn [mbind result_bind].
  destruct (Z.ltb_spec seen year_10000); [reflexivity | lia].
Qed.

(** The offline test of [fireDevice] for a device whose binding,
    trigger, threshold, epoch and temperature can all be read. *)
Lemma fireDevice_offline (h : host) (mtd : gmap string (pyval * Z))
    (triggers : gmap Z trigger) (dev : device)
    (offline_timer epoch temp : pyval)
    (trigger_id minutes offline_delta seen : Z) (trig : trigger) :
  mtd !! str_of_Z (dev_id dev) = Some (offline_timer, trigger_id) ->
  dev_enabled dev = true ->
  triggers !! trigger_id = Some trig ->
  trig_enabled trig = true ->
  pluginTypeId trig = "weatherSiteOffline" ->
  py_int offline_timer = Return minutes ->
  timedelta_minutes minutes = Return offline_delta ->
  states dev !! "currentObservationEpoch" = Some epoch ->
  current_observation h epoch = Return seen ->
  states dev !! "temp" = Some temp ->
  fireDevice h mtd triggers dev
  = Return (if offline_delta <=? getTime h - seen
            then [{| deviceKey := dev_id dev; triggerId := trigger_id;
                     why := timeout |}]
            else if le_minus55 temp
            then [{| deviceKey := dev_id dev; triggerId := trigger_id;
                     why := sentinel_failure |}]
            else []).
Proof.
  intros Hb Hen Ht Hte Hty Hmin Hdelta Hep Hseen Htemp.
  unfold fireDevice, map_getitem.
  rewrite Hb, Hen, Ht, Hte, Hty, Hmin, Hep, Htemp. simpl.
  rewrite Hdelta. simpl. rewrite Hseen. simpl.
  destruct (offline_delta <=? getTime h - seen); [reflexivity|].
  destruct (le_minus55 temp); reflexivity.
Qed.

(** C7 (amended): for an enabled device bound to an enabled offline
    trigger, with a threshold that converts to a time span and an
    observation epoch that the host reads as a local time of the years
    1900 to 9999, whose temperature state is at most [-55.0], and with
    no device earlier in the pass raising an exception (which would end
    the pass), the trigger is executed once in the cycle whatever the
    elapsed time; the execution is the sentinel-failure one only while
    the elapsed time is below the threshold, from the threshold on it
    is the timeout one. *)
Theorem offline_trigger_fires_on_sentinel (h : host)
    (mtd : gmap string (pyval * Z)) (triggers : gmap Z trigger)
    (pre post : list device) (dev : device)
    (offline_timer epoch temp : pyval)
    (trigger_id minutes offline_delta seen : Z) (trig : trigger) :
  mtd !! str_of_Z (dev_id dev) = Some (offline_timer, trigger_id) ->
  dev_enabled dev = true ->
  triggers !! trigger_id = Some trig ->
  trig_enabled trig = true ->
  pluginTypeId trig = "weatherSiteOffline" ->
  py_int offline_timer = Return minutes ->
  timedelta_minutes minutes = Return offline_delta ->
  states dev !! "currentObservationEpoch" = Some epoch ->
  localtime_of h epoch = Return seen ->
  year_1900 <= seen < year_10000 ->
  states dev !! "temp" = Some temp ->
  le_minus55 temp = true ->
  Forall (fun d => exists l, fireDevice h mtd triggers d = Return l) pre ->
  let elapsed := getTime h - seen in
  let ev := {| deviceKey := dev_id dev; triggerId := trigger_id;
               why := if offline_delta <=? elapsed then timeout
                      else sentinel_failure |} in
  offline_delta = 60 * minutes
  /\ fireDevice h mtd triggers dev = Return [ev]
  /\ In ev (fst (triggerFireOfflineDevice h mtd triggers (pre ++ dev :: post)))
  /\ fst (triggerFireOfflineDevice h mtd triggers (pre ++ dev :: post))
     = (fst (triggerFireOfflineDevice h mtd triggers pre)
        ++ ev :: fst (triggerFireOfflineDevice h mtd triggers post))%list.
Proof.
  intros Hb Hen Ht Hte Hty Hmin Hdelta Hep Hlocal Hyears Htemp Hle Hpre
    elapsed ev.
  pose proof (current_observation_reading h epoch seen Hlocal Hyears) as Hseen.
  assert (E : fireDevice h mtd triggers dev = Return [ev]).
  { rewrite (fireDevice_offline h mtd triggers dev offline_timer epoch temp
               trigger_id minutes offline_delta seen trig
               Hb Hen Ht Hte Hty Hmin Hdelta Hep Hseen Htemp).
    fold elapsed. subst ev. rewrite Hle.
    destruct (offline_delta <=? elapsed); reflexivity. }
  split; [|split; [exact E|split]].
  - unfold timedelta_minutes in Hdelta.
    destruct (_ && _); [congruence | discriminate].
  - apply (triggerFire_reaches h mtd triggers pre dev post [ev] ev Hpre E).
    left. reflexivity.
  - rewrite (triggerFire_app h mtd triggers _ _ Hpre).
    cbn [fst triggerFireOfflineDevice]. rewrite E.
    destruct (triggerFireOfflineDevice h mtd triggers post). reflexivity.
Qed.

(** C7, witness: the sentinel device 29 minutes after its observation,
    with a 30 minute threshold. *)
Lemma offline_trigger_fires_on_sentinel_witness :
  fireDevice (host_after (29 * 60)) offline_bindings offline_triggers
    sentinel_device
  = Return [{| deviceKey := 7; triggerId := 42; why := sentinel_failure |}].
Proof.
  refine (proj1 (proj2 (offline_trigger_fires_on_sentinel
                   (host_after (29 * 60))
                   offline_bindings offline_triggers [] [] sentinel_device
                   (PyStr "30") (PyInt 1592560800) (PyFloat (-99.0)%float)
                   42 30 1800 1592560800
                   {| trig_enabled := true;
                      pluginTypeId := "weatherSiteOffline" |}
                   _ _ _ _ _ _ _ _ _ _ _ _ _)));
    solve [reflexivity | constructor | vm_compute; split; congruence].
Defined.

(** C7, as stated, fails once the threshold has passed: 31 minutes
    after the observation, with a 30 minute threshold and the sentinel
    temperature, the only execution is the timeout one; no
    sentinel-failure execution is emitted. *)
Lemma offline_sentinel_after_threshold_counterexample :
  le_minus55 (PyFloat (-99.0)%float) = true
  /\ triggerFireOfflineDevice (host_after (31 * 60)) offline_bindings
       offline_triggers [sentinel_device]
     = ([{| deviceKey := 7; triggerId := 42; why := timeout |}], None)
  /\ ~ In {| deviceKey := 7; triggerId := 42; why := sentinel_failure |}
         (fst (triggerFireOfflineDevice (host_after (31 * 60)) offline_bindings
                 offline_triggers [sentinel_device])).
Proof.
  split; [reflexivity|]. split; [vm_compute; reflexivity|].
  vm_compute. intros [H|[]]. discriminate.
Qed.

(** * Further properties of the code *)

(** ** PathResolver *)

(** X1: a field wrapped in a one-element array resolves like the bare
    field for every further path: the array the provider sometimes puts
    around an object is transparent to [nestedLookup]. *)
Theorem nestedLookup_singleton_array_transparent
    (d d' : list (string * pyval)) (key : string) (o : pyval)
    (rest : list string) (default : pyval) :
  dict_get d key = Some (PyList [o]) ->
  dict_get d' key = Some o ->
  is_list o = false ->
  rest <> [] ->
  nestedLookup (PyDict d) (key :: rest) default
  = nestedLookup (PyDict d') (key :: rest) default.
Proof.
  intros Hd Hd' Ho Hrest.
  destruct rest as [|k ks]; [contradiction|].
  cbn [nestedLookup candidates next_match py_contains py_getitem].
  rewrite Hd, Hd'. simpl.
  destruct o; try discriminate; reflexivity.
Qed.

Lemma nestedLookup_singleton_array_transparent_witness :
  nestedLookup (PyDict [("observations", PyList [PyDict [("epoch", PyInt 5)]])])
    ["observations"; "epoch"] not_available
  = nestedLookup (PyDict [("observations", PyDict [("epoch", PyInt 5)])])
      ["observations"; "epoch"] not_available.
Proof.
  apply (nestedLookup_singleton_array_transparent _ _ "observations"
           (PyDict [("epoch", PyInt 5)]));
    solve [reflexivity | discriminate].
Defined.



Lemma next_match_skips (key : string) (pre rest : list pyval) :
  forallb (object_without key) pre = true ->
  next_match key (pre ++ rest) = next_match key rest.
Proof.
  induction pre as [|sub pre IH]; [reflexivity|].
  cbn [forallb]. intros H. apply andb_true_iff in H as [Hs Hp].
  destruct sub; try discriminate. simpl in Hs.
  cbn [app next_match py_contains].
  destruct (bool_decide (is_Some (dict_get d key))); [discriminate|].
  simpl. apply IH. exact Hp.
Qed.

(** X3: in an array the first object holding the key wins and the
    elements after it are never inspected, whatever they are. *)
Theorem nestedLookup_first_match_wins (key : string) (pre post : list pyval)
    (d : list (string * pyval)) (v default : pyval) (rest : list string) :
  forallb (object_without key) pre = true ->
  dict_get d key = Some v ->
  nestedLookup (PyList (pre ++ PyDict d :: post)) (key :: rest) default
  = nestedLookup v rest default.
Proof.
  intros Hpre Hd. cbn [nestedLookup candidates].
  rewrite (next_match_skips key pre _ Hpre).
  cbn [next_match py_contains py_getitem]. rewrite Hd. reflexivity.
Qed.

Lemma nestedLookup_first_match_wins_witness :
  nestedLookup
    (PyList [PyDict [("c", PyInt 2)]; PyDict [("b", PyInt 1)]; PyNone;
             PyDict [("b", PyInt 3)]])
    ["b"] not_available
  = Return (PyInt 1).
Proof.
  apply (nestedLookup_first_match_wins "b" [PyDict [("c", PyInt 2)]]
           [PyNone; PyDict [("b", PyInt 3)]] [("b", PyInt 1)] (PyInt 1)
           not_available []);
    reflexivity.
Defined.

(** ** Sanitizer *)

Lemma fixCorruptedData_returns_sanitized (state_name : string) (raw : pyval)
    (v : float) (s : string) :
  fixCorruptedData state_name raw = Return (v, s) -> sanitized v s.
Proof.
  rewrite fixCorruptedData_unfold. intros H.
  destruct (py_float raw) as [w|e].
  - destruct (w <? implausible_below)%float eqn:Hlt; injection H as <- <-.
    + left. split; reflexivity.
    + right. split; [exact Hlt | reflexivity].
  - destruct e; try discriminate. injection H as <- <-.
    left. split; reflexivity.
Qed.

(** X4: whatever [fixCorruptedData] returns is sanitized: a value below
    [-55.728] never comes back except as the sentinel [-99.0] with
    ["--"], and every other value comes with its own rendering. *)
Theorem fixCorruptedData_sanitized (state_name : string) (raw : pyval)
    (v : float) (s : string) :
  fixCorruptedData state_name raw = Return (v, s) ->
  sanitized v s
  /\ ((v <? implausible_below)%float = true -> (v, s) = sentinel).
Proof.
  intros H. apply fixCorruptedData_returns_sanitized in H as S.
  split; [exact S|].
  intros Hlt. destruct S as [[-> ->] | [Hge _]]; [reflexivity | congruence].
Qed.

Lemma fixCorruptedData_sanitized_witness :
  fixCorruptedData "temp_f" (PyStr "-999.0") = Return ((-99.0)%float, "--")
  /\ sanitized (-99.0)%float "--".
Proof.
  split; [reflexivity|].
  exact (proj1 (fixCorruptedData_sanitized "temp_f" (PyStr "-999.0")
                  (-99.0)%float "--" eq_refl)).
Defined.

(** X5: sanitizing is idempotent: the numeric part of a result, put
    through [fixCorruptedData] again, gives the same pair. *)
Theorem fixCorruptedData_idempotent (state_name state_name' : string)
    (raw : pyval) (v : float) (s : string) :
  fixCorruptedData state_name raw = Return (v, s) ->
  fixCorruptedData state_name' (PyFloat v) = Return (v, s).
Proof.
  intros H.
  apply fixCorruptedData_returns_sanitized in H as [[-> ->] | [Hge ->]].
  - reflexivity.
  - rewrite fixCorruptedData_unfold. simpl. rewrite Hge. reflexivity.
Qed.

Lemma fixCorruptedData_idempotent_witness :
  fixCorruptedData "temp_f" (PyStr "-45.2") = Return ((-45.2)%float, "-45.2")
  /\ fixCorruptedData "windGust (MPH)" (PyFloat (-45.2)%float)
     = Return ((-45.2)%float, "-45.2").
Proof.
  split; [vm_compute; reflexivity|].
  apply (fixCorruptedData_idempotent "temp_f" "windGust (MPH)" (PyStr "-45.2")).
  vm_compute. reflexivity.
Defined.

(** X6: [floatEverything] lets one exception through: it returns what
    [float()] returns, implausible values included, and [-99.0] when
    [float()] raises [ValueError] or [TypeError]; on an integer out of
    the range of a float the [OverflowError] of [float()] is not
    caught. *)
Theorem floatEverything_raises_only_OverflowError (state_name : string)
    (raw : pyval) :
  match floatEverything state_name raw with
  | Return v =>
      out_of_float_range raw = false
      /\ (py_float raw = Return v
          \/ ((py_float raw = Raise ValueError \/ py_float raw = Raise TypeError)
              /\ v = (-99.0)%float))
  | Raise e => e = OverflowError /\ out_of_float_range raw = true
  end.
Proof.
  unfold floatEverything, try_except.
  destruct (py_float raw) as [v|e] eqn:Hp.
  - split; [exact (proj2 (py_float_returns raw v Hp)) | left; reflexivity].
  - pose proof (py_float_raises raw e Hp) as He.
    destruct (out_of_float_range raw).
    + subst e. split; reflexivity.
    + destruct (is_str_or_number raw); subst e; simpl;
        (split; [reflexivity | right; split; [auto | reflexivity]]).
Qed.

(** ** QuotaTracker: dates *)

Lemma substring_0_0 (s : string) : substring 0 0 s = "".
Proof. destruct s; reflexivity. Qed.

Lemma substring_app_prefix (a b : string) :
  substring 0 (String.length a) (a +:+ b) = a.
Proof.
  induction a as [|c a IH]; simpl; [apply substring_0_0 | now rewrite IH].
Qed.

Lemma substring_app_suffix (a b : string) (k : nat) :
  substring (String.length a) k (a +:+ b) = substring 0 k b.
Proof. induction a as [|c a IH]; simpl; [reflexivity | exact IH]. Qed.

Lemma substring_all (s : string) (k : nat) :
  (String.length s <= k)%nat -> substring 0 k s = s.
Proof.
  revert k. induction s as [|c s IH]; intros k Hk; simpl in *.
  - destruct k; reflexivity.
  - destruct k as [|k]; [lia|]. rewrite IH by lia. reflexivity.
Qed.

Lemma length_append (a b : string) :
  String.length (a +:+ b) = (String.length a + String.length b)%nat.
Proof. induction a as [|c a IH]; simpl; [reflexivity | now rewrite IH]. Qed.

Lemma year_field_roundtrip (y : Z) :
  1 <= y <= 9999 ->
  String.length (pad 4 y) = 4%nat /\ read_digits (pad 4 y) 0 0 = (y, 4, "").
Proof.
  intros Hy.
  assert (H : forallb (fun n => year_field_ok (Z.of_nat n))
                (seq 1 (Z.to_nat 9999)) = true) by (vm_compute; reflexivity).
  rewrite forallb_forall in H.
  assert (Hin : In (Z.to_nat y) (seq 1 (Z.to_nat 9999)))
    by (apply in_seq; lia).
  specialize (H (Z.to_nat y) Hin). rewrite Z2Nat.id in H by lia.
  unfold year_field_ok in H.
  destruct (read_digits (pad 4 y) 0 0) as [[v n] r].
  rewrite !andb_true_iff in H. destruct H as (Hl & (Hv & Hn) & Hr).
  apply Nat.eqb_eq in Hl. apply Z.eqb_eq in Hv, Hn.
  apply String.eqb_eq in Hr. subst. split; [exact Hl | reflexivity].
Qed.

(** The month and day fields, checked for every month and day number. *)
Lemma month_day_fields_roundtrip (m d : Z) :
  1 <= m <= 12 -> 1 <= d <= 31 ->
  read_month (pad 2 m +:+ "-" +:+ pad 2 d) = Some (m, "-" +:+ pad 2 d)
  /\ read_day (pad 2 d) = Some d.
Proof.
  intros Hm Hd.
  assert (H : forallb
                (fun i => forallb
                   (fun j => bool_decide
                      (read_month (pad 2 (Z.of_nat i) +:+ "-" +:+ pad 2 (Z.of_nat j))
                       = Some (Z.of_nat i, "-" +:+ pad 2 (Z.of_nat j))
                       /\ read_day (pad 2 (Z.of_nat j)) = Some (Z.of_nat j)))
                   (seq 1 31))
                (seq 1 12) = true) by (vm_compute; reflexivity).
  rewrite forallb_forall in H.
  specialize (H (Z.to_nat m)). rewrite forallb_forall in H.
  assert (Hi : In (Z.to_nat m) (seq 1 12)) by (apply in_seq; lia).
  assert (Hj : In (Z.to_nat d) (seq 1 31)) by (apply in_seq; lia).
  specialize (H Hi (Z.to_nat d) Hj).
  rewrite !Z2Nat.id in H by lia.
  apply bool_decide_eq_true in H. exact H.
Qed.

Lemma days_in_month_le_31 (y m : Z) : days_in_month y m <= 31.
Proof.
  unfold days_in_month.
  repeat match goal with
         | |- context [if ?b then _ else _] => destruct b
         end; lia.
Qed.

Lemma valid_date_bounds (d : date) :
  valid_date d = true ->
  1 <= year d <= 9999 /\ 1 <= month d <= 12
  /\ 1 <= day d <= days_in_month (year d) (month d).
Proof.
  unfold valid_date. rewrite !andb_true_iff, !Z.leb_le. tauto.
Qed.

Lemma isoformat_parses (d : date) :
  valid_date d = true -> strptime_date (isoformat d) = Return d.
Proof.
  intros Hv. destruct (valid_date_bounds d Hv) as (Hy & Hm & Hd).
  pose proof (days_in_month_le_31 (year d) (month d)) as H31.
  destruct (year_field_roundtrip (year d) Hy) as (Hlen & Hread).
  destruct (month_day_fields_roundtrip (month d) (day d) Hm) as (Hmon & Hday);
    [lia|].
  unfold strptime_date, isoformat.
  set (a := pad 4 (year d)) in *.
  set (r1 := pad 2 (month d) +:+ "-" +:+ pad 2 (day d)) in *.
  change (a +:+ "-" +:+ r1) with (a +:+ String "-" r1).
  replace (substring 0 4 (a +:+ String "-" r1)) with a
    by (rewrite <- Hlen; symmetry; apply substring_app_prefix).
  rewrite Hread. simpl negb. cbv iota.
  replace (substring 4 (String.length (a +:+ String "-" r1))
                     (a +:+ String "-" r1))
    with (String "-" r1).
  2:{ rewrite <- Hlen at 1. rewrite substring_app_suffix.
      rewrite substring_all; [reflexivity|].
      rewrite length_append. lia. }
  rewrite Hmon. change ("-" +:+ pad 2 (day d)) with (String "-" (pad 2 (day d))).
  cbv iota. rewrite Hday.
  destruct (Z.leb_spec 1 (year d)); [|lia].
  destruct (Z.leb_spec (day d) (days_in_month (year d) (month d))); [|lia].
  simpl. destruct d; reflexivity.
Qed.

(** X7: the stored reference date round-trips: the ISO rendering of
    every calendar date is ten characters long and parses back to that
    date, so two dates with the same rendering are the same date. *)
Theorem strptime_isoformat (d : date) :
  valid_date d = true ->
  strptime_date (isoformat d) = Return d
  /\ String.length (isoformat d) = 10%nat
  /\ forall d', valid_date d' = true -> isoformat d' = isoformat d -> d' = d.
Proof.
  intros Hv. pose proof (isoformat_parses d Hv) as Hrt.
  split; [exact Hrt|]. split.
  - destruct (valid_date_bounds d Hv) as (Hy & Hm & Hd).
    pose proof (days_in_month_le_31 (year d) (month d)) as H31.
    destruct (year_field_roundtrip (year d) Hy) as (Hlen & _).
    assert (H2 : forall z, 1 <= z <= 31 -> String.length (pad 2 z) = 2%nat).
    { intros z Hz.
      assert (H : forallb (fun n => (String.length (pad 2 (Z.of_nat n)) =? 2)%nat)
                    (seq 1 31) = true) by (vm_compute; reflexivity).
      rewrite forallb_forall in H.
      assert (Hin : In (Z.to_nat z) (seq 1 31)) by (apply in_seq; lia).
      specialize (H _ Hin). rewrite Z2Nat.id in H by lia.
      apply Nat.eqb_eq in H. exact H. }
    unfold isoformat. rewrite !length_append, Hlen, !H2 by lia. reflexivity.
  - intros d' Hv' E. pose proof (isoformat_parses d' Hv') as Hrt'.
    rewrite E, Hrt in Hrt'. congruence.
Qed.

Lemma strptime_isoformat_witness :
  valid_date {| year := 2020; month := 2; day := 29 |} = true
  /\ strptime_date (isoformat {| year := 2020; month := 2; day := 29 |})
     = Return {| year := 2020; month := 2; day := 29 |}.
Proof.
  split; [reflexivity|].
  apply (strptime_isoformat {| year := 2020; month := 2; day := 29 |}).
  reflexivity.
Defined.

(** ** QuotaTracker: runs *)

Lemma date_gtb_irrefl (d : date) : date_gtb d d = false.
Proof.
  unfold date_gtb. rewrite !Z.ltb_irrefl, !Z.eqb_refl. reflexivity.
Qed.

Lemma callDay_day_parses (clk : clock) (p p' : pluginPrefs) :
  valid_date (date_wu_zone clk) = true ->
  callDay clk p = Return p' -> day_parses p'.
Proof.
  intros Hv H. pose proof (isoformat_parses _ Hv) as Hrt.
  unfold callDay in H.
  destruct (strptime_date (dailyCallDay p)) as [d|e] eqn:Hd;
    simpl in H; [|discriminate].
  destruct (date_gtb (date_wu_zone clk) d).
  - injection H as <-. eexists. exact Hrt.
  - destruct (_ || _); injection H as <-; eexists; eauto.
Qed.

(** X8: after a day check the reference date is never behind the
    provider's date, and a second check on the same date changes
    nothing. *)
Theorem callDay_settles (clk : clock) (p p' : pluginPrefs) :
  valid_date (date_wu_zone clk) = true ->
  callDay clk p = Return p' ->
  (exists d', strptime_date (dailyCallDay p') = Return d'
              /\ date_gtb (date_wu_zone clk) d' = false)
  /\ callDay clk p' = Return p'.
Proof.
  intros Hv H.
  pose proof (isoformat_parses _ Hv) as Hrt.
  pose proof (date_gtb_irrefl (date_wu_zone clk)) as Hirr.
  unfold callDay in H.
  destruct (strptime_date (dailyCallDay p)) as [d|e] eqn:Hd;
    simpl in H; [|discriminate].
  assert (Today : forall q, dailyCallDay q = isoformat (date_wu_zone clk) ->
            (exists d', strptime_date (dailyCallDay q) = Return d'
                        /\ date_gtb (date_wu_zone clk) d' = false)
            /\ callDay clk q = Return q).
  { intros q Hq. split.
    - exists (date_wu_zone clk). rewrite Hq. auto.
    - unfold callDay. rewrite Hq, Hrt. simpl. rewrite Hirr.
      assert (E : set_dailyCallDay (isoformat (date_wu_zone clk)) q = q)
        by (destruct q; simpl in *; subst; reflexivity).
      rewrite E.
      match goal with
      | |- context [if ?b then _ else _] => destruct b
      end; reflexivity. }
  destruct (date_gtb (date_wu_zone clk) d) eqn:G.
  - injection H as <-. apply Today. reflexivity.
  - destruct (String.eqb (dailyCallDay p) "" || String.eqb (dailyCallDay p) "2000-01-01")
      eqn:Sp; injection H as <-.
    + apply Today. reflexivity.
    + split; [exists d; auto|].
      unfold callDay. rewrite Hd. simpl. rewrite Sp, G. reflexivity.
Qed.

Lemma callDay_settles_witness :
  valid_date (date_wu_zone sample_clock) = true
  /\ callDay sample_clock kDefaultPluginPrefs
     = Return (set_dailyCallDay "2020-06-19" kDefaultPluginPrefs)
  /\ callDay sample_clock (set_dailyCallDay "2020-06-19" kDefaultPluginPrefs)
     = Return (set_dailyCallDay "2020-06-19" kDefaultPluginPrefs).
Proof.
  split; [reflexivity|]. split; [reflexivity|].
  apply (callDay_settles sample_clock kDefaultPluginPrefs); reflexivity.
Defined.

Lemma callDay_returns (clk : clock) (p : pluginPrefs) :
  day_parses p -> exists p', callDay clk p = Return p'.
Proof.
  intros [d Hd]. unfold callDay. rewrite Hd. simpl.
  destruct (date_gtb _ d); eauto.
Qed.

(** X9: once the stored reference date parses, it parses for ever:
    along every run of quota operations with calendar dates on the
    clock, no day check raises. *)
Theorem callDay_never_raises_after_valid_date (ops : list quota_op)
    (p : pluginPrefs) :
  day_parses p ->
  Forall clock_ok ops ->
  Forall (fun t => let '(a, o, b) := t in
            day_parses a /\ day_parses b
            /\ forall clk, o = CheckDay clk -> callDay clk a = Return b)
    (quota_run ops p).
Proof.
  intros Hp Hops. revert p Hp.
  induction Hops as [|o ops Ho _ IH]; intros p Hp; simpl; [constructor|].
  assert (Hb : day_parses (quota_step o p)).
  { destruct o as [|clk]; simpl.
    - destruct Hp as [d Hd]. exists d.
      destruct (callCount_frame p) as (_ & _ & E). rewrite E. exact Hd.
    - destruct (callDay_returns clk p Hp) as [p' E]. rewrite E.
      exact (callDay_day_parses clk p p' Ho E). }
  constructor; [|apply IH; exact Hb].
  split; [exact Hp|]. split; [exact Hb|].
  intros clk ->. simpl.
  destruct (callDay_returns clk p Hp) as [p' E]. rewrite E. reflexivity.
Qed.

Lemma callDay_never_raises_after_valid_date_witness :
  day_parses kDefaultPluginPrefs
  /\ Forall clock_ok [CheckDay sample_clock; RecordCall; CheckDay sample_clock]
  /\ Forall (fun t => let '(a, o, b) := t in
               day_parses a /\ day_parses b
               /\ forall clk, o = CheckDay clk -> callDay clk a = Return b)
       (quota_run [CheckDay sample_clock; RecordCall; CheckDay sample_clock]
          kDefaultPluginPrefs).
Proof.
  assert (Hp : day_parses kDefaultPluginPrefs)
    by (eexists; reflexivity).
  assert (Ho : Forall clock_ok
                 [CheckDay sample_clock; RecordCall; CheckDay sample_clock])
    by (repeat constructor).
  split; [exact Hp|]. split; [exact Ho|].
  exact (callDay_never_raises_after_valid_date _ _ Hp Ho).
Defined.

Lemma callDay_frame (clk : clock) (p p' : pluginPrefs) :
  callDay clk p = Return p' -> callCounter p' = callCounter p.
Proof.
  unfold callDay.
  destruct (strptime_date (dailyCallDay p)); simpl; [|discriminate].
  destruct (date_gtb _ _); destruct (_ || _); intros [= <-]; reflexivity.
Qed.

Lemma quota_step_within_limit (L : Z) (o : quota_op) (p : pluginPrefs) :
  0 <= L -> within_limit L p -> within_limit L (quota_step o p).
Proof.
  intros HL (Hmax & Hle & Hflag). destruct o as [|clk]; simpl.
  - unfold callCount, within_limit. rewrite Hmax. simpl.
    destruct (Z.leb_spec L (dailyCallCounter p)); simpl.
    + split; [exact Hmax|]. split; [exact Hle | intros _; lia].
    + split; [exact Hmax|]. split; [lia | discriminate].
  - destruct (callDay clk p) as [p'|e] eqn:E; [|repeat split; assumption].
    pose proof (callDay_frame clk p p' E) as F.
    pose proof (callDay_counter clk p p' E) as C.
    destruct (is_rollover (CheckDay clk) p) eqn:R.
    + destruct C as [C0 Cf]. repeat split; [congruence | lia |].
      rewrite Cf. discriminate.
    + unfold callDay, is_rollover in *.
      destruct (strptime_date (dailyCallDay p)); simpl in E; [|discriminate].
      rewrite R in E. destruct (_ || _); injection E as <-;
        repeat split; assumption.
Qed.

(** X10: the call counter never passes the daily limit, and the limit
    flag is raised only while the counter sits at the limit: both hold
    after every step of every run that starts within the limit. *)
Theorem quota_counter_within_limit (L : Z) (ops : list quota_op)
    (p : pluginPrefs) :
  0 <= L ->
  within_limit L p ->
  Forall (fun t => within_limit L (snd t)) (quota_run ops p).
Proof.
  intros HL. revert p. induction ops as [|o ops IH]; intros p Hp; simpl.
  - constructor.
  - pose proof (quota_step_within_limit L o p HL Hp) as Hq.
    constructor; [exact Hq | apply IH; exact Hq].
Qed.

Lemma quota_counter_within_limit_witness :
  0 <= 500
  /\ within_limit 500 kDefaultPluginPrefs
  /\ Forall (fun t => within_limit 500 (snd t))
       (quota_run [RecordCall; CheckDay sample_clock; RecordCall]
          kDefaultPluginPrefs).
Proof.
  assert (H0 : 0 <= 500) by lia.
  assert (Hp : within_limit 500 kDefaultPluginPrefs)
    by (repeat split; [simpl; lia | discriminate]).
  split; [exact H0|]. split; [exact Hp|].
  exact (quota_counter_within_limit 500 _ _ H0 Hp).
Defined.

(** ** FetchCache and the poll cycle *)

Lemma getWeatherData_cached (net : network) (pl : plugin)
    (devs : list device) (dev : device) (location : string) :
  pluginProps dev !! "location" = Some location ->
  is_Some (masterWeatherDict pl !! location) ->
  getWeatherData net pl devs dev = (pl, devs).
Proof.
  intros Hloc Hc. unfold getWeatherData. rewrite Hloc. cbn [from_option id].
  destruct (in_models _ _); [reflexivity|].
  rewrite bool_decide_eq_true_2 by exact Hc. reflexivity.
Qed.

(** X11: one call per location per cycle: once a device has fetched a
    location, a second device bound to the same location finds it in
    the dictionary; nothing is fetched or counted for it and no device
    is written to, and the first fetch counted at most one call. *)
Theorem getWeatherData_one_call_per_location (net : network)
    (pl : plugin) (devs : list device) (dev1 dev2 : device)
    (location : string) (decoded : option pyval) :
  in_models (dev_model dev1) image_models = false ->
  pluginProps dev1 !! "location" = Some location ->
  pluginProps dev2 !! "location" = Some location ->
  observations net location (wu_units dev1) = Body decoded ->
  let pl1 := fst (getWeatherData net pl devs dev1) in
  snd (getWeatherData net pl devs dev1) = devs
  /\ getWeatherData net pl1 devs dev2 = (pl1, devs)
  /\ is_Some (masterWeatherDict pl1 !! location)
  /\ dailyCallCounter (prefs pl) <= dailyCallCounter (prefs pl1)
     <= dailyCallCounter (prefs pl) + 1.
Proof.
  intros Himg H1 H2 Hbody pl1.
  assert (Hc : snd (getWeatherData net pl devs dev1) = devs
               /\ is_Some (masterWeatherDict pl1 !! location)
               /\ dailyCallCounter (prefs pl) <= dailyCallCounter (prefs pl1)
                  <= dailyCallCounter (prefs pl) + 1).
  { subst pl1. unfold getWeatherData.
    rewrite (not_image_not_satellite _ Himg), H1. cbn [from_option id].
    destruct (masterWeatherDict pl !! location) as [w|] eqn:Hw.
    - rewrite bool_decide_eq_true_2 by eauto. simpl. rewrite Hw.
      split; [reflexivity|]. split; [eauto | lia].
    - rewrite bool_decide_eq_false_2 by (intros [x Hx]; discriminate).
      rewrite Hbody. simpl. rewrite lookup_insert_eq.
      split; [reflexivity|]. split; [eauto|].
      unfold callCount.
      destruct (_ <=? _); simpl; lia. }
  destruct Hc as (Hd & Hc & Hn).
  split; [exact Hd|]. split; [|split; assumption].
  apply (getWeatherData_cached net pl1 devs dev2 location H2 Hc).
Qed.

Lemma getWeatherData_one_call_per_location_witness :
  let net := answering (Body (Some (sample_document 100 "t" "70.1"))) in
  let pl1 := fst (getWeatherData net fresh_plugin
                    [new_device; sample_device ∅] new_device) in
  getWeatherData net pl1 [new_device; sample_device ∅] (sample_device ∅)
  = (pl1, [new_device; sample_device ∅]).
Proof.
  intros net pl1.
  refine (proj1 (proj2 (getWeatherData_one_call_per_location net
           fresh_plugin [new_device; sample_device ∅] new_device
           (sample_device ∅) "KXXTEST1"
           (Some (sample_document 100 "t" "70.1")) _ _ _ _)));
    reflexivity.
Defined.

(** X12: the daily limit does not hold back a fetch inside a cycle:
    with the counter at the limit a location not yet fetched is still
    fetched and stored; only then is the limit flag raised, and the
    counter stays where it was. *)
Theorem getWeatherData_fetches_at_limit (net : network)
    (pl : plugin) (devs : list device) (dev : device) (location : string)
    (decoded : option pyval) :
  in_models (dev_model dev) image_models = false ->
  pluginProps dev !! "location" = Some location ->
  masterWeatherDict pl !! location = None ->
  observations net location (wu_units dev) = Body decoded ->
  default 500 (callCounter (prefs pl)) <= dailyCallCounter (prefs pl) ->
  let pl1 := fst (getWeatherData net pl devs dev) in
  masterWeatherDict pl1 !! location = Some (default (PyDict []) decoded)
  /\ dailyCallLimitReached (prefs pl1) = true
  /\ dailyCallCounter (prefs pl1) = dailyCallCounter (prefs pl).
Proof.
  intros Himg Hloc Hnew Hbody Hlim pl1. subst pl1.
  unfold getWeatherData.
  rewrite (not_image_not_satellite _ Himg), Hloc. cbn [from_option id].
  rewrite Hnew, Hbody.
  rewrite bool_decide_eq_false_2 by (intros [x Hx]; discriminate).
  simpl. rewrite lookup_insert_eq, callCount_at_limit by exact Hlim.
  repeat split; reflexivity.
Qed.

Lemma getWeatherData_fetches_at_limit_witness :
  let pl := {| masterWeatherDict := ∅;
               prefs := set_dailyCallCounter 500 kDefaultPluginPrefs |} in
  let pl1 := fst (getWeatherData (answering (Body None)) pl [new_device]
                    new_device) in
  masterWeatherDict pl1 !! "KXXTEST1" = Some (PyDict [])
  /\ dailyCallLimitReached (prefs pl1) = true
  /\ dailyCallCounter (prefs pl1) = 500.
Proof.
  intros pl.
  apply (getWeatherData_fetches_at_limit (answering (Body None)) pl
           [new_device] new_device "KXXTEST1" None);
    solve [reflexivity | simpl; lia].
Defined.

Lemma callDay_devices_writes (clk : clock) (p : pluginPrefs)
    (devs : list device) :
  Forall2 (fun d d' =>
             d' = d
             \/ d' = set_state "weatherSummaryEmailSent" (PyBool false) None d)
    devs (callDay_devices clk p devs).
Proof.
  assert (R : Forall2 (fun d d' : device =>
                         d' = d
                         \/ d' = set_state "weatherSummaryEmailSent"
                                   (PyBool false) None d) devs devs)
    by (induction devs; constructor; auto).
  unfold callDay_devices.
  destruct (strptime_date (dailyCallDay p)); [|exact R].
  destruct (date_gtb _ _); [|exact R].
  clear R. induction devs as [|d devs IH]; simpl; constructor; [|exact IH].
  destruct (bool_decide _); auto.
Qed.

(** X13: a cycle that begins with the limit flag raised fetches nothing
    and visits no device, also when its day check rolls the date over
    and clears the flag: polling resumes with the next cycle.  All it
    writes to a device is the reset of [weatherSummaryEmailSent] that
    the day check makes on a new day.  When the day check raises, the
    cycle changes nothing and leaves with [UnboundLocalError]. *)
Theorem refreshWeatherData_idle_when_limit_reached (clk : clock)
    (h : host) (cfg : settings) (net : network) (pl : plugin)
    (devs : list device) :
  dailyCallLimitReached (prefs pl) = true ->
  let '(pl', devs', log, raised) := refreshWeatherData clk h cfg net pl devs in
  log = []
  /\ masterWeatherDict pl' = masterWeatherDict pl
  /\ Forall2 (fun d d' =>
                d' = d
                \/ d' = set_state "weatherSummaryEmailSent" (PyBool false) None d)
       devs devs'
  /\ (forall p', callDay clk (prefs pl) = Return p' ->
        prefs pl' = p' /\ raised = None
        /\ devs' = callDay_devices clk (prefs pl) devs)
  /\ (forall e, callDay clk (prefs pl) = Raise e ->
        pl' = pl /\ devs' = devs /\ raised = Some UnboundLocalError).
Proof.
  intros Hflag. unfold refreshWeatherData. rewrite Hflag.
  destruct (callDay clk (prefs pl)) as [p'|e]; simpl.
  - split; [reflexivity|]. split; [reflexivity|].
    split; [apply callDay_devices_writes|]. split.
    + intros q [= <-]. repeat split; reflexivity.
    + discriminate.
  - split; [reflexivity|]. split; [reflexivity|]. split.
    + induction devs; constructor; auto.
    + split; [discriminate|]. intros x _. repeat split; reflexivity.
Qed.

Lemma refreshWeatherData_idle_when_limit_reached_witness :
  let pl := {| masterWeatherDict := ∅;
               prefs := set_dailyCallLimitReached true kDefaultPluginPrefs |} in
  snd (fst (refreshWeatherData sample_clock (host_after 0) sample_settings
              (answering (Body None)) pl [new_device]))
  = [].
Proof.
  intros pl.
  pose proof (refreshWeatherData_idle_when_limit_reached sample_clock
                (host_after 0) sample_settings (answering (Body None)) pl
                [new_device] eq_refl) as H.
  destruct (refreshWeatherData sample_clock (host_after 0) sample_settings
              (answering (Body None)) pl [new_device])
    as [[[pl' devs'] log] raised].
  exact (proj1 H).
Defined.

(** ** The epoch gate *)

Lemma weather_not_image (m : string) :
  in_models m weather_models = true -> in_models m image_models = false.
Proof.
  unfold in_models, weather_models. simpl. rewrite !orb_true_iff.
  intros H.
  repeat destruct H as [H|H]; try discriminate;
    apply String.eqb_eq in H; subst m; reflexivity.
Qed.

Lemma good_time_int_epochs (mwd : gmap string pyval) (location : string)
    (dev : device) (wd : pyval) (n m : Z) :
  currentObservationEpoch dev = Some (PyInt n) ->
  mwd !! location = Some wd ->
  obs_field wd "epoch" = Return (PyInt m) ->
  good_time mwd location dev = Return (n <=? m).
Proof.
  intros Hn Hwd Hm. unfold good_time, map_getitem.
  unfold currentObservationEpoch in Hn. rewrite Hn, Hwd. simpl.
  rewrite Hm. reflexivity.
Qed.

(** X14: were the device's epoch recorded, the gate would do its work:
    for a weather device whose [currentObservationEpoch] is the integer
    [n], a download with epoch [m] is parsed into the device exactly
    when [n <= m] (an equal epoch is taken again); an older one leaves
    the device as it was but for the switch. *)
Theorem refreshDevice_gate (h : host) (cfg : settings) (net : network)
    (pl : plugin) (devs : list device) (i : nat) (dev : device)
    (location : string) (wd : pyval) (n m : Z) :
  apiKey cfg <> "" -> apiKey cfg <> "API Key" ->
  devs !! i = Some dev ->
  dev_enabled dev = true ->
  in_models (dev_model dev) weather_models = true ->
  pluginProps dev !! "location" = Some location ->
  masterWeatherDict pl !! location = None ->
  observations net location (wu_units dev) = Body (Some wd) ->
  obs_field wd "epoch" = Return (PyInt m) ->
  currentObservationEpoch dev = Some (PyInt n) ->
  let pl' := {| masterWeatherDict := <[location := wd]> (masterWeatherDict pl);
                prefs := fst (callCount (prefs pl)) |} in
  let devs' :=
    alter (set_state "onOffState" (PyBool true) (Some (PyStr " "))) i devs in
  refreshDevice h cfg net pl devs i
  = if n <=? m
    then (pl',
          alter (fun server =>
                   set_image TemperatureSensorOn
                     (parseWeatherData h cfg (masterWeatherDict pl') dev server))
                i devs',
          Return true)
    else (pl', devs', Return false).
Proof.
  intros Hk1 Hk2 Hi Hen Hw Hloc Hnew Hbody Hm Hn pl' devs'.
  assert (Hbad : is_bad_loc (Some wd) = false).
  { destruct wd; try reflexivity. discriminate. }
  rewrite (refreshDevice_fetch h cfg net pl devs i dev location (Some wd)
             Hk1 Hk2 Hi Hen (weather_not_image _ Hw) Hloc Hnew Hbody Hbad).
  cbn [from_option id]. fold pl' devs'.
  rewrite (good_time_int_epochs _ location dev wd n m Hn);
    [|apply lookup_insert_eq | exact Hm].
  rewrite Hw, andb_true_r. reflexivity.
Qed.

Lemma refreshDevice_gate_witness :
  let doc := sample_document 90 "2020-06-19 09:59:50" "68.0" in
  let dev := sample_device {["currentObservationEpoch" := PyInt 150]} in
  refreshDevice (host_after 0) sample_settings (answering (Body (Some doc)))
    fresh_plugin [dev] 0
  = ({| masterWeatherDict := {["KXXTEST1" := doc]};
        prefs := fst (callCount kDefaultPluginPrefs) |},
     [set_state "onOffState" (PyBool true) (Some (PyStr " ")) dev],
     Return false).
Proof.
  intros doc dev.
  refine (refreshDevice_gate (host_after 0) sample_settings
            (answering (Body (Some doc))) fresh_plugin [dev] 0 dev
            "KXXTEST1" doc 150 90 _ _ _ _ _ _ _ _ _ _);
    solve [discriminate | reflexivity].
Defined.

(** ** Empty observation arrays *)

(** X15: a reply whose [observations] array is empty ends the device
    loop: the epoch lookup raises [IndexError], which no handler of the
    gate catches; the devices after this one are not visited in the
    cycle. *)
Theorem empty_observations_end_the_cycle (h : host) (cfg : settings)
    (net : network) (pl : plugin) (devs : list device) (i : nat)
    (dev : device) (positions : list nat) (location : string) (wd : pyval) :
  apiKey cfg <> "" -> apiKey cfg <> "API Key" ->
  devs !! i = Some dev ->
  dev_enabled dev = true ->
  in_models (dev_model dev) image_models = false ->
  pluginProps dev !! "location" = Some location ->
  masterWeatherDict pl !! location = None ->
  observations net location (wu_units dev) = Body (Some wd) ->
  py_getitem wd "observations" = Return (PyList []) ->
  epoch_state_ok dev = true ->
  currentObservationEpoch dev <> None ->
  let pl' := {| masterWeatherDict := <[location := wd]> (masterWeatherDict pl);
                prefs := fst (callCount (prefs pl)) |} in
  let devs' :=
    alter (set_state "onOffState" (PyBool true) (Some (PyStr " "))) i devs in
  refresh_loop h cfg net (i :: positions) pl devs
  = (pl', devs', [Raise IndexError]).
Proof.
  intros Hk1 Hk2 Hi Hen Himg Hloc Hnew Hbody Hobs Hok Hsome pl' devs'.
  assert (Hbad : is_bad_loc (Some wd) = false).
  { destruct wd; try reflexivity. discriminate. }
  cbn [refresh_loop].
  rewrite (refreshDevice_fetch h cfg net pl devs i dev location (Some wd)
             Hk1 Hk2 Hi Hen Himg Hloc Hnew Hbody Hbad).
  cbn [from_option id]. fold pl' devs'.
  assert (G : good_time (masterWeatherDict pl') location dev
              = Raise IndexError).
  { unfold good_time, map_getitem.
    unfold epoch_state_ok, currentObservationEpoch in *.
    assert (Hl : masterWeatherDict pl' !! location = Some wd)
      by apply lookup_insert_eq.
    rewrite Hl.
    assert (Ho : obs_field wd "epoch" = Raise IndexError)
      by (unfold obs_field, observation; rewrite Hobs; reflexivity).
    destruct (states dev !! "currentObservationEpoch") as [v|];
      [|contradiction].
    destruct v as [| | z | | s | |]; try discriminate.
    - simpl. rewrite Ho. reflexivity.
    - simpl. destruct (int_of_string s) as [z|e] eqn:Ei.
      + simpl. rewrite Ho. reflexivity.
      + apply int_of_string_raises in Ei. subst e.
        simpl. rewrite Ho. reflexivity. }
  rewrite G. reflexivity.
Qed.

Lemma empty_observations_end_the_cycle_witness :
  let wd := PyDict [("observations", PyList [])] in
  refresh_loop (host_after 0) sample_settings (answering (Body (Some wd)))
    [0; 1]%nat fresh_plugin [new_device; sample_device ∅]
  = ({| masterWeatherDict := {["KXXTEST1" := wd]};
        prefs := fst (callCount kDefaultPluginPrefs) |},
     [set_state "onOffState" (PyBool true) (Some (PyStr " ")) new_device;
      sample_device ∅],
     [Raise IndexError]).
Proof.
  intros wd.
  refine (empty_observations_end_the_cycle (host_after 0) sample_settings
            (answering (Body (Some wd))) fresh_plugin
            [new_device; sample_device ∅] 0 new_device [1%nat] "KXXTEST1" wd
            _ _ _ _ _ _ _ _ _ _ _);
    solve [discriminate | reflexivity].
Defined.

(** ** What [parseWeatherData] publishes *)

Lemma writes_plausible_ret {A : Type} (k : string) (a : A) :
  writes_plausible k (mret a).
Proof. intros old st H. exact H. Qed.

Lemma writes_plausible_bind {A B : Type} (k : string)
    (m : stx device A) (f : A -> stx device B) :
  writes_plausible k m -> (forall a, writes_plausible k (f a)) ->
  writes_plausible k (m ≫= f).
Proof.
  intros Hm Hf old st H. unfold mbind, stx_bind.
  specialize (Hm old st H). destruct (m st) as [st' [a|e]]; simpl in *.
  - apply Hf. exact Hm.
  - exact Hm.
Qed.

Lemma writes_plausible_bind_lift {A B : Type} (k : string) (r : result A)
    (f : A -> stx device B) :
  (forall a, r = Return a -> writes_plausible k (f a)) ->
  writes_plausible k (lift r ≫= f).
Proof.
  intros Hf old st H. unfold mbind, stx_bind, lift.
  destruct r as [a|e]; simpl; [apply (Hf a eq_refl); exact H | exact H].
Qed.

Lemma writes_plausible_update_other (k key : string) (v : pyval)
    (ui : option pyval) :
  key <> k -> writes_plausible k (updateStateOnServer key v ui).
Proof.
  intros Hne old st H. unfold old_or_plausible in *. simpl.
  rewrite lookup_insert_ne by exact Hne. exact H.
Qed.

Lemma writes_plausible_update_float (k key : string) (f : float)
    (ui : option pyval) :
  plausible f -> writes_plausible k (updateStateOnServer key (PyFloat f) ui).
Proof.
  intros Hf old st H. destruct (decide (key = k)) as [->|Hne].
  - right. exists f. simpl. rewrite lookup_insert_eq. auto.
  - apply (writes_plausible_update_other k key _ _ Hne old st H).
Qed.

Lemma writes_plausible_image (k : string) (image : stateImageSel) :
  writes_plausible k (updateStateImageOnServer image).
Proof. intros old st H. exact H. Qed.

Lemma writes_plausible_props (k : string) (v : pyval) :
  writes_plausible k (replacePluginPropsOnServer v).
Proof. intros old st H. exact H. Qed.

Lemma fixCorruptedData_plausible (state_name : string) (raw : pyval)
    (v : float) (s : string) :
  fixCorruptedData state_name raw = Return (v, s) -> plausible v.
Proof.
  intros H. apply fixCorruptedData_returns_sanitized in H.
  destruct H as [[-> _] | [Hge _]]; [left; reflexivity | right; exact Hge].
Qed.

Lemma writes_plausible_publish_temperature (k : string) (cfg : settings)
    (dev : device) (key state_name state_name_ui : string) (val : pyval) :
  writes_plausible k
    (publish_temperature cfg dev key state_name state_name_ui val).
Proof.
  unfold publish_temperature. apply writes_plausible_bind_lift.
  intros [v s] Hfix. apply writes_plausible_bind_lift.
  intros ui _. apply writes_plausible_bind.
  - apply writes_plausible_update_float.
    exact (fixCorruptedData_plausible _ _ _ _ Hfix).
  - intros _. apply writes_plausible_ret.
Qed.

Lemma writes_plausible_item_list_text (k : string) (h : host)
    (cfg : settings) (val : pyval) (letter : string) :
  writes_plausible k (item_list_text h cfg val letter).
Proof.
  unfold item_list_text. apply writes_plausible_bind_lift.
  intros s _. apply writes_plausible_ret.
Qed.

Ltac plausible_step :=
  lazymatch goal with
  | |- writes_plausible _ (mret _) => apply writes_plausible_ret
  | |- writes_plausible _ (publish_temperature _ _ _ _ _ _) =>
      apply writes_plausible_publish_temperature
  | |- writes_plausible _ (item_list_text _ _ _ _) =>
      apply writes_plausible_item_list_text
  | |- writes_plausible _ (updateStateImageOnServer _) =>
      apply writes_plausible_image
  | |- writes_plausible _ (replacePluginPropsOnServer _) =>
      apply writes_plausible_props
  | |- writes_plausible _ (updateStateOnServer _ (PyFloat ?v) _) =>
      apply writes_plausible_update_float;
      match goal with
      | H : fixCorruptedData _ _ = Return (v, _) |- _ =>
          exact (fixCorruptedData_plausible _ _ _ _ H)
      end
  | |- writes_plausible _ (updateStateOnServer _ _ _) =>
      apply writes_plausible_update_other; assumption
  | |- writes_plausible _ (mbind _ (lift _)) =>
      apply writes_plausible_bind_lift; intros ? ?
  | |- writes_plausible _ (mbind _ _) =>
      apply writes_plausible_bind; [|intros ?]
  | |- writes_plausible _ (if ?b then _ else _) => destruct b
  | |- writes_plausible _ (match ?x with _ => _ end) => destruct x
  end.

Lemma parseWeatherData_try_plausible (h : host) (cfg : settings)
    (mwd : gmap string pyval) (dev : device) (k : string) :
  Forall (fun key => key <> k) text_states ->
  writes_plausible k (parseWeatherData_try h cfg mwd dev).
Proof.
  intros Hk. unfold text_states in Hk.
  repeat match goal with
         | H : Forall _ (_ :: _) |- _ =>
             let H1 := fresh "Hne" in
             apply Forall_cons_1 in H as [H1 H]
         end.
  unfold parseWeatherData_try. repeat plausible_step.
Qed.

(** X16: every numeric state [parseWeatherData] writes is sanitized:
    after the call each state other than the switch and the texts
    ([onOffState], [stationID], [currentObservation],
    [currentObservation24hr], the four icon texts and the three wind
    texts) is either what it was or a number that is the sentinel
    [-99.0] or not below [-55.728], also when the parse fails half
    way. *)
Theorem parseWeatherData_publishes_plausible (h : host) (cfg : settings)
    (mwd : gmap string pyval) (dev server : device) (k : string) :
  ~ In k text_states ->
  states (parseWeatherData h cfg mwd dev server) !! k = states server !! k
  \/ exists f, states (parseWeatherData h cfg mwd dev server) !! k
               = Some (PyFloat f)
               /\ plausible f.
Proof.
  intros Hk.
  assert (Hne : Forall (fun key => key <> k) text_states).
  { apply List.Forall_forall. intros key Hin ->. exact (Hk Hin). }
  assert (H1 : "onOffState" <> k).
  { rewrite List.Forall_forall in Hne. apply Hne. simpl. auto. }
  pose proof (parseWeatherData_try_plausible h cfg mwd dev k Hne
                (states server !! k) server (or_introl eq_refl)) as H.
  unfold parseWeatherData.
  destruct (parseWeatherData_try h cfg mwd dev server) as [st [u|e]];
    simpl in H; [exact H|].
  destruct e; simpl; unfold old_or_plausible in H;
    rewrite ?lookup_insert_ne by exact H1; exact H.
Qed.

Lemma parseWeatherData_publishes_plausible_witness :
  let mwd : gmap string pyval :=
    {["KXXTEST1" := sample_document 100 "2020-06-19 10:00:00" "-999.0"]} in
  let parsed := parseWeatherData (host_after 0) sample_settings mwd
                  new_device new_device in
  ~ In "temp" text_states
  /\ (states parsed !! "temp" = states new_device !! "temp"
      \/ exists f, states parsed !! "temp" = Some (PyFloat f) /\ plausible f).
Proof.
  intros mwd parsed.
  assert (Hk : ~ In "temp" text_states).
  { unfold text_states. simpl. intros H.
    repeat destruct H as [H|H]; try discriminate. exact H. }
  split; [exact Hk|].
  exact (parseWeatherData_publishes_plausible (host_after 0) sample_settings
           mwd new_device new_device "temp" Hk).
Defined.

(** X17: in metric units the pressure is read but never published:
    [parseWeatherData] leaves the [pressure] state as it was for every
    device whose units are not ["S"]. *)
Theorem parseWeatherData_metric_keeps_pressure (h : host) (cfg : settings)
    (mwd : gmap string pyval) (dev server : device) :
  default "" (pluginProps dev !! "configMenuUnits") <> "S" ->
  states (parseWeatherData h cfg mwd dev server) !! "pressure"
  = states server !! "pressure".
Proof.
  intros Hu.
  assert (P : preserves "pressure" (parseWeatherData_try h cfg mwd dev)).
  { unfold parseWeatherData_try.
    destruct (String.eqb_spec (default "" (pluginProps dev !! "configMenuUnits"))
                "S") as [E|_]; [contradiction|].
    repeat preserve_step. }
  specialize (P server). unfold parseWeatherData.
  destruct (parseWeatherData_try h cfg mwd dev server) as [st [u|e]];
    simpl in P; [exact P|].
  destruct e; simpl; rewrite ?lookup_insert_ne by discriminate; exact P.
Qed.

Lemma parseWeatherData_metric_keeps_pressure_witness :
  let dev := a_device 8 "Roof" "WUnderground Weather"
               {["location" := "KXXTEST1"; "configMenuUnits" := "M"]}
               {["pressure" := PyFloat 30.25%float]} in
  let mwd : gmap string pyval :=
    {["KXXTEST1" := metric_document 100 "2020-06-19 10:00:00" "21.5"]} in
  let parsed := parseWeatherData (host_after 0) sample_settings mwd dev dev in
  states parsed !! "temp" = Some (PyFloat 21.5%float)
  /\ states parsed !! "pressure" = Some (PyFloat 30.25%float).
Proof.
  intros dev mwd parsed. split; [vm_compute; reflexivity|].
  apply (parseWeatherData_metric_keeps_pressure (host_after 0) sample_settings
           mwd dev dev).
  discriminate.
Defined.

(** ** Trigger executions *)

Lemma fireDevice_events (h : host) (mtd : gmap string (pyval * Z))
    (triggers : gmap Z trigger) (dev : device) (evs : list OfflineEvent) :
  fireDevice h mtd triggers dev = Return evs ->
  (length evs <= 1)%nat
  /\ Forall (fun e => deviceKey e = dev_id dev
                      /\ exists t, mtd !! str_of_Z (dev_id dev)
                                   = Some (t, triggerId e)) evs.
Proof.
  unfold fireDevice.
  destruct (mtd !! str_of_Z (dev_id dev)) as [[timer id]|];
    [|intros [= <-]; split; [simpl; lia | constructor]].
  destruct (negb (dev_enabled dev));
    [intros [= <-]; split; [simpl; lia | constructor]|].
  destruct (triggers !! id) as [trig|]; [|discriminate].
  destruct (negb (trig_enabled trig));
    [intros [= <-]; split; [simpl; lia | constructor]|].
  assert (Ev : forall r, deviceKey {| deviceKey := dev_id dev;
                                      triggerId := id; why := r |}
                         = dev_id dev
                         /\ exists t, Some (timer, id)
                                      = Some (t, triggerId
                                                   {| deviceKey := dev_id dev;
                                                      triggerId := id;
                                                      why := r |}))
    by (intros r; split; [reflexivity | exists timer; reflexivity]).
  destruct (String.eqb_spec (pluginTypeId trig) "weatherSiteOffline") as [E|_].
  - rewrite E. cbn [String.eqb Ascii.eqb Bool.eqb].
    destruct (py_int timer) as [minutes|]; [|discriminate]. simpl.
    destruct (timedelta_minutes minutes) as [delta|]; [|discriminate]. simpl.
    destruct (map_getitem (states dev) "currentObservationEpoch") as [ep|];
      [|discriminate]. simpl.
    destruct (current_observation h ep) as [seen|]; [|discriminate]. simpl.
    destruct (_ <=? _); simpl.
    + intros [= <-]. split; [simpl; lia | repeat constructor; apply Ev].
    + destruct (map_getitem (states dev) "temp") as [temp|]; [|discriminate].
      simpl. destruct (le_minus55 temp); intros [= <-];
        (split; [simpl; lia | repeat constructor; apply Ev]).
  - simpl.
    destruct (String.eqb (pluginTypeId trig) "weatherAlert");
      [|intros [= <-]; split; [simpl; lia | constructor]].
    destruct (map_getitem (states dev) "alertStatus") as [a|]; [|discriminate].
    simpl. destruct (py_eq_str a "true"); intros [= <-];
      (split; [simpl; lia | repeat constructor; apply Ev]).
Qed.

(** X18: a device gives at most one trigger execution per cycle, and
    it is always the execution of the trigger bound to that device. *)
Theorem fireDevice_at_most_one_execution (h : host)
    (mtd : gmap string (pyval * Z)) (triggers : gmap Z trigger) (dev : device)
    (evs : list OfflineEvent) :
  fireDevice h mtd triggers dev = Return evs ->
  (length evs <= 1)%nat
  /\ forall e, In e evs ->
       deviceKey e = dev_id dev
       /\ exists t, mtd !! str_of_Z (dev_id dev) = Some (t, triggerId e).
Proof.
  intros H. destruct (fireDevice_events h mtd triggers dev evs H) as [Hl Hf].
  split; [exact Hl|]. rewrite List.Forall_forall in Hf. exact Hf.
Qed.

Lemma fireDevice_at_most_one_execution_witness :
  fireDevice (host_after (31 * 60)) offline_bindings offline_triggers
    sentinel_device
  = Return [{| deviceKey := 7; triggerId := 42; why := timeout |}]
  /\ (length [{| deviceKey := 7; triggerId := 42; why := timeout |}] <= 1)%nat.
Proof.
  split; [vm_compute; reflexivity|].
  refine (proj1 (fireDevice_at_most_one_execution (host_after (31 * 60))
                   offline_bindings offline_triggers sentinel_device _ _)).
  vm_compute. reflexivity.
Defined.

(** X19: for an enabled device bound to an enabled offline trigger,
    with a threshold that converts to a time span, an epoch that the
    host reads as a local time of the years 1900 to 9999 and a
    temperature above [-55.0], and with no earlier device of the pass
    raising, the pass executes the trigger for that device exactly when
    the observation is at least the threshold old: the executions of
    the pass are those for the earlier devices, then the timeout
    execution if the elapsed time has reached the threshold and nothing
    if it has not, then those for the later devices. *)
Theorem offline_timeout_threshold (h : host)
    (mtd : gmap string (pyval * Z)) (triggers : gmap Z trigger)
    (pre post : list device) (dev : device)
    (offline_timer epoch temp : pyval)
    (trigger_id minutes offline_delta seen : Z) (trig : trigger) :
  mtd !! str_of_Z (dev_id dev) = Some (offline_timer, trigger_id) ->
  dev_enabled dev = true ->
  triggers !! trigger_id = Some trig ->
  trig_enabled trig = true ->
  pluginTypeId trig = "weatherSiteOffline" ->
  py_int offline_timer = Return minutes ->
  timedelta_minutes minutes = Return offline_delta ->
  states dev !! "currentObservationEpoch" = Some epoch ->
  localtime_of h epoch = Return seen ->
  year_1900 <= seen < year_10000 ->
  states dev !! "temp" = Some temp ->
  le_minus55 temp = false ->
  Forall (fun d => exists l, fireDevice h mtd triggers d = Return l) pre ->
  let fired :=
    if 60 * minutes <=? getTime h - seen
    then [{| deviceKey := dev_id dev; triggerId := trigger_id;
             why := timeout |}]
    else [] in
  fireDevice h mtd triggers dev = Return fired
  /\ triggerFireOfflineDevice h mtd triggers (pre ++ dev :: post)
     = ((fst (triggerFireOfflineDevice h mtd triggers pre) ++ fired
         ++ fst (triggerFireOfflineDevice h mtd triggers post))%list,
        snd (triggerFireOfflineDevice h mtd triggers post)).
Proof.
  intros Hb Hen Ht Hte Hty Hmin Hdelta Hep Hlocal Hyears Htemp Hle Hpre fired.
  pose proof (current_observation_reading h epoch seen Hlocal Hyears) as Hseen.
  assert (D : offline_delta = 60 * minutes).
  { unfold timedelta_minutes in Hdelta.
    destruct (_ && _); [congruence | discriminate]. }
  assert (E : fireDevice h mtd triggers dev = Return fired).
  { rewrite (fireDevice_offline h mtd triggers dev offline_timer epoch temp
               trigger_id minutes offline_delta seen trig
               Hb Hen Ht Hte Hty Hmin Hdelta Hep Hseen Htemp).
    subst fired. rewrite Hle, D. destruct (_ <=? _); reflexivity. }
  split; [exact E|].
  rewrite (triggerFire_app h mtd triggers _ _ Hpre).
  cbn [fst snd triggerFireOfflineDevice]. rewrite E.
  destruct (triggerFireOfflineDevice h mtd triggers post). reflexivity.
Qed.

Lemma offline_timeout_threshold_witness :
  let dev := sample_device {["currentObservationEpoch" := PyInt 1592560800;
                             "temp" := PyFloat 68.0%float]} in
  fireDevice (host_after (30 * 60)) offline_bindings offline_triggers dev
  = Return [{| deviceKey := 7; triggerId := 42; why := timeout |}]
  /\ fireDevice (host_after (30 * 60 - 1)) offline_bindings offline_triggers dev
     = Return [].
Proof.
  intros dev. split.
  - refine (proj1 (offline_timeout_threshold (host_after (30 * 60))
              offline_bindings offline_triggers [] [] dev (PyStr "30")
              (PyInt 1592560800) (PyFloat 68.0%float) 42 30 1800 1592560800
              {| trig_enabled := true; pluginTypeId := "weatherSiteOffline" |}
              _ _ _ _ _ _ _ _ _ _ _ _ _));
      solve [reflexivity | constructor | vm_compute; split; congruence].
  - refine (proj1 (offline_timeout_threshold (host_after (30 * 60 - 1))
              offline_bindings offline_triggers [] [] dev (PyStr "30")
              (PyInt 1592560800) (PyFloat 68.0%float) 42 30 1800 1592560800
              {| trig_enabled := true; pluginTypeId := "weatherSiteOffline" |}
              _ _ _ _ _ _ _ _ _ _ _ _ _));
      solve [reflexivity | constructor | vm_compute; split; congruence].
Defined.

Lemma triggerFire_stops_at_KeyError (h : host)
    (mtd : gmap string (pyval * Z)) (triggers : gmap Z trigger)
    (pre : list device) (dev : device) (post : list device) :
  fireDevice h mtd triggers dev = Raise KeyError ->
  triggerFireOfflineDevice h mtd triggers (pre ++ dev :: post)
  = triggerFireOfflineDevice h mtd triggers pre.
Proof.
  intros Hd. induction pre as [|d pre IH]; simpl.
  - rewrite Hd. reflexivity.
  - destruct (fireDevice h mtd triggers d) as [evs|e]; [|reflexivity].
    rewrite IH. reflexivity.
Qed.

(** X20: a binding whose trigger no longer exists ends the trigger pass
    without a word: the [KeyError] is swallowed, and no device after
    that one has its trigger executed in the cycle. *)
Theorem stale_binding_silences_later_devices (h : host)
    (mtd : gmap string (pyval * Z)) (triggers : gmap Z trigger)
    (pre : list device) (dev : device) (post : list device)
    (offline_timer : pyval) (trigger_id : Z) :
  mtd !! str_of_Z (dev_id dev) = Some (offline_timer, trigger_id) ->
  dev_enabled dev = true ->
  triggers !! trigger_id = None ->
  triggerFireOfflineDevice h mtd triggers (pre ++ dev :: post)
  = triggerFireOfflineDevice h mtd triggers pre.
Proof.
  intros Hb Hen Ht. apply triggerFire_stops_at_KeyError.
  unfold fireDevice. rewrite Hb, Hen, Ht. reflexivity.
Qed.

Lemma stale_binding_silences_later_devices_witness :
  let stale := a_device 3 "Gone" "WUnderground Weather" ∅ ∅ in
  let mtd : gmap string (pyval * Z) :=
    {["3" := (PyStr "30", 41); "7" := (PyStr "30", 42)]} in
  triggerFireOfflineDevice (host_after (31 * 60)) mtd offline_triggers
    [stale; sentinel_device]
  = ([], None).
Proof.
  intros stale mtd.
  refine (stale_binding_silences_later_devices (host_after (31 * 60)) mtd
            offline_triggers [] stale [sentinel_device] (PyStr "30") 41 _ _ _);
    reflexivity.
Defined.

(** X21: for an enabled device bound to an enabled alert trigger, with
    no earlier device of the pass raising: while the device's
    [alertStatus] is the string ['true'] the pass executes the trigger,
    whatever the age of the observation and the temperature, and
    nothing remembers that it fired before; with any other
    [alertStatus] it does not; and for a device without the state the
    lookup raises [KeyError], which ends the pass there without a
    word. *)
Theorem alert_trigger_fires_while_alert (h : host)
    (mtd : gmap string (pyval * Z)) (triggers : gmap Z trigger)
    (pre post : list device) (dev : device)
    (offline_timer : pyval) (trigger_id : Z) (trig : trigger) :
  mtd !! str_of_Z (dev_id dev) = Some (offline_timer, trigger_id) ->
  dev_enabled dev = true ->
  triggers !! trigger_id = Some trig ->
  trig_enabled trig = true ->
  pluginTypeId trig = "weatherAlert" ->
  Forall (fun d => exists l, fireDevice h mtd triggers d = Return l) pre ->
  triggerFireOfflineDevice h mtd triggers (pre ++ dev :: post)
  = match states dev !! "alertStatus" with
    | Some alertStatus =>
        ((fst (triggerFireOfflineDevice h mtd triggers pre)
          ++ (if py_eq_str alertStatus "true"
              then [{| deviceKey := dev_id dev; triggerId := trigger_id;
                       why := active_alert |}]
              else [])
          ++ fst (triggerFireOfflineDevice h mtd triggers post))%list,
         snd (triggerFireOfflineDevice h mtd triggers post))
    | None => triggerFireOfflineDevice h mtd triggers pre
    end.
Proof.
  intros Hb Hen Ht Hte Hty Hpre.
  destruct (states dev !! "alertStatus") as [alertStatus|] eqn:Ha.
  - assert (E : fireDevice h mtd triggers dev
                = Return (if py_eq_str alertStatus "true"
                          then [{| deviceKey := dev_id dev;
                                   triggerId := trigger_id;
                                   why := active_alert |}]
                          else [])).
    { unfold fireDevice, map_getitem.
      rewrite Hb, Hen, Ht, Hte, Hty, Ha. simpl.
      destruct (py_eq_str alertStatus "true"); reflexivity. }
    rewrite (triggerFire_app h mtd triggers _ _ Hpre).
    cbn [fst snd triggerFireOfflineDevice]. rewrite E.
    destruct (triggerFireOfflineDevice h mtd triggers post). reflexivity.
  - apply triggerFire_stops_at_KeyError.
    unfold fireDevice, map_getitem.
    rewrite Hb, Hen, Ht, Hte, Hty, Ha. reflexivity.
Qed.

Lemma alert_trigger_fires_while_alert_witness :
  let dev := sample_device {["alertStatus" := PyStr "true"]} in
  let triggers : gmap Z trigger :=
    {[ 42 := {| trig_enabled := true; pluginTypeId := "weatherAlert" |} ]} in
  triggerFireOfflineDevice (host_after 0) {["7" := (PyStr "0", 42)]} triggers
    [dev]
  = ([{| deviceKey := 7; triggerId := 42; why := active_alert |}], None).
Proof.
  intros dev triggers.
  refine (alert_trigger_fires_while_alert (host_after 0)
            {["7" := (PyStr "0", 42)]} triggers [] [] dev (PyStr "0")
            42 {| trig_enabled := true; pluginTypeId := "weatherAlert" |}
            _ _ _ _ _ _);
    solve [reflexivity | constructor].
Defined.

(** X22: one binding per device: when two triggers are registered for
    the same device the later one replaces the earlier, so every
    execution for that device is the later trigger's; and stopping a
    trigger does not take its binding away. *)
Theorem trigger_registration_last_wins (props1 props2 : gmap string string)
    (id1 id2 : Z) (mtd mtd1 mtd2 : gmap string (pyval * Z)) (h : host)
    (triggers : gmap Z trigger) (dev : device) (evs : list OfflineEvent) :
  triggerStartProcessing props1 id1 mtd = Return mtd1 ->
  triggerStartProcessing props2 id2 mtd1 = Return mtd2 ->
  props1 !! "listOfDevices" = Some (str_of_Z (dev_id dev)) ->
  props2 !! "listOfDevices" = Some (str_of_Z (dev_id dev)) ->
  fireDevice h (triggerStopProcessing id2 mtd2) triggers dev = Return evs ->
  (exists t, mtd2 !! str_of_Z (dev_id dev) = Some (t, id2))
  /\ forall e, In e evs -> triggerId e = id2.
Proof.
  intros H1 H2 Hp1 Hp2 Hf.
  assert (Hb : exists t, mtd2 !! str_of_Z (dev_id dev) = Some (t, id2)).
  { unfold triggerStartProcessing, map_getitem in H2. rewrite Hp2 in H2.
    simpl in H2.
    destruct (props2 !! "offlineTimer"); injection H2 as <-;
      rewrite lookup_insert_eq; eauto. }
  split; [exact Hb|].
  intros e He. unfold triggerStopProcessing in Hf.
  destruct (fireDevice_events h mtd2 triggers dev evs Hf) as [_ Hall].
  rewrite List.Forall_forall in Hall. destruct (Hall e He) as [_ [t Ht]].
  destruct Hb as [t' Ht']. congruence.
Qed.

Lemma trigger_registration_last_wins_witness :
  let mtd1 : gmap string (pyval * Z) := {["7" := (PyStr "30", 41)]} in
  let mtd2 : gmap string (pyval * Z) := <["7" := (PyStr "0", 42)]> mtd1 in
  triggerStartProcessing {["listOfDevices" := "7"; "offlineTimer" := "30"]} 41 ∅
  = Return mtd1
  /\ triggerStartProcessing {["listOfDevices" := "7"]} 42 mtd1 = Return mtd2
  /\ exists t, mtd2 !! "7" = Some (t, 42).
Proof.
  intros mtd1 mtd2.
  assert (H1 : triggerStartProcessing
                 {["listOfDevices" := "7"; "offlineTimer" := "30"]} 41 ∅
               = Return mtd1) by (vm_compute; reflexivity).
  assert (H2 : triggerStartProcessing {["listOfDevices" := "7"]} 42 mtd1
               = Return mtd2) by (vm_compute; reflexivity).
  split; [exact H1|]. split; [exact H2|].
  refine (proj1 (trigger_registration_last_wins _ _ 41 42 ∅ mtd1 mtd2
                   (host_after 60) offline_triggers sentinel_device
                   [{| deviceKey := 7; triggerId := 42; why := timeout |}]
                   H1 H2 _ _ _));
    vm_compute; reflexivity.
Defined.

(** ** Configuration dialogs *)

(** X23: what an accepted preferences dialog guarantees: the API key is
    not empty and has no space, and, when the call counter converts to
    an integer, that integer is not zero and, with update e-mails
    wanted, the address contains an [@]. *)
Theorem validatePrefsConfigUi_accepts_only (valuesDict : prefsDialog) :
  validatePrefsConfigUi valuesDict = Accepted ->
  vd_apiKey valuesDict <> ""
  /\ is_substring " " (vd_apiKey valuesDict) = false
  /\ forall n, py_int (vd_callCounter valuesDict) = Return n ->
       n <> 0
       /\ lt_zero (vd_callCounter valuesDict) = false
       /\ (vd_updaterEmailsEnabled valuesDict = true ->
           is_substring "@" (vd_updaterEmail valuesDict) = true).
Proof.
  unfold validatePrefsConfigUi. intros H.
  destruct (vd_apiKey valuesDict) as [|c key] eqn:Hkey; [discriminate|].
  cbn [String.length Nat.eqb] in H.
  destruct (is_substring " " (String c key)); [discriminate|].
  split; [discriminate|]. split; [reflexivity|].
  intros n Hn. rewrite Hn in H.
  destruct (Z.eqb_spec n 0); [discriminate|].
  destruct (lt_zero (vd_callCounter valuesDict)); [discriminate|].
  split; [assumption|]. split; [reflexivity|].
  intros Hw. rewrite Hw in H. cbn [andb] in H.
  destruct (String.eqb (vd_updaterEmail valuesDict) ""); [discriminate|].
  destruct (is_substring "@" (vd_updaterEmail valuesDict));
    [reflexivity | discriminate].
Qed.

Lemma validatePrefsConfigUi_accepts_only_witness :
  let v := {| vd_apiKey := "0123456789abcdef"; vd_callCounter := PyStr "500";
              vd_updaterEmail := "foo@bar.com";
              vd_updaterEmailsEnabled := true |} in
  validatePrefsConfigUi v = Accepted
  /\ vd_apiKey v <> ""
  /\ is_substring " " (vd_apiKey v) = false.
Proof.
  intros v.
  assert (H : validatePrefsConfigUi v = Accepted) by reflexivity.
  split; [exact H|].
  destruct (validatePrefsConfigUi_accepts_only v H) as (A & B & _).
  split; [exact A | exact B].
Defined.

(** X24: what the preferences dialog lets through: a call counter that
    [int()] cannot convert is accepted, and with it any e-mail setting,
    because the exception skips the remaining tests; and a counter
    typed as text is never tested for its sign, so a negative one is
    accepted. *)
Theorem validatePrefsConfigUi_lets_through (valuesDict : prefsDialog) :
  vd_apiKey valuesDict <> "" ->
  is_substring " " (vd_apiKey valuesDict) = false ->
  (forall e, py_int (vd_callCounter valuesDict) = Raise e ->
     validatePrefsConfigUi valuesDict = Accepted)
  /\ (forall s n, vd_callCounter valuesDict = PyStr s ->
        int_of_string s = Return n -> n <> 0 ->
        vd_updaterEmailsEnabled valuesDict = false ->
        validatePrefsConfigUi valuesDict = Accepted).
Proof.
  intros Hkey Hsp. unfold validatePrefsConfigUi.
  destruct (vd_apiKey valuesDict) as [|c key]; [contradiction|].
  cbn [String.length Nat.eqb]. rewrite Hsp.
  split.
  - intros e He. rewrite He. reflexivity.
  - intros s n Hs Hn Hne Hw. rewrite Hs. simpl. rewrite Hn, Hw.
    destruct (Z.eqb_spec n 0); [contradiction | reflexivity].
Qed.

Lemma validatePrefsConfigUi_lets_through_witness :
  validatePrefsConfigUi {| vd_apiKey := "0123456789abcdef";
                           vd_callCounter := PyStr "-5";
                           vd_updaterEmail := "";
                           vd_updaterEmailsEnabled := false |}
  = Accepted
  /\ validatePrefsConfigUi {| vd_apiKey := "0123456789abcdef";
                              vd_callCounter := PyStr "many";
                              vd_updaterEmail := "";
                              vd_updaterEmailsEnabled := true |}
     = Accepted.
Proof.
  split.
  - refine (proj2 (validatePrefsConfigUi_lets_through _ _ _) "-5" (-5) _ _ _ _);
      solve [discriminate | reflexivity].
  - refine (proj1 (validatePrefsConfigUi_lets_through _ _ _) ValueError _);
      solve [discriminate | reflexivity].
Defined.

(** X25: the location test of the device dialog: a dialog without a
    [location] entry is accepted, and one with a location is accepted
    exactly when the location is not empty, holds no space and no
    backslash, and is not made of whitespace only. *)
Theorem validateDeviceConfigUi_location (valuesDict : gmap string string)
    (typeID : string) :
  typeID <> "wundergroundRadar" ->
  (valuesDict !! "location" = None ->
   validateDeviceConfigUi valuesDict typeID = Accepted)
  /\ forall location, valuesDict !! "location" = Some location ->
       (validateDeviceConfigUi valuesDict typeID = Accepted
        <-> location <> ""
            /\ is_substring " " location = false
            /\ is_substring "\" location = false
            /\ isspace location = false).
Proof.
  intros Hty. unfold validateDeviceConfigUi, validate_location, map_getitem.
  destruct (String.eqb_spec typeID "wundergroundRadar"); [contradiction|].
  split.
  - intros ->. reflexivity.
  - intros location ->. simpl.
    destruct (String.eqb_spec location "") as [->|Hne]; simpl.
    + split; [discriminate | intros [H _]; contradiction].
    + destruct (is_substring " " location); simpl;
        [split; [discriminate | intros (_ & H & _); discriminate]|].
      destruct (is_substring "\" location); simpl;
        [split; [discriminate | intros (_ & _ & H & _); discriminate]|].
      destruct (isspace location); simpl;
        [split; [discriminate | intros (_ & _ & _ & H); discriminate]|].
      split; [intros _; repeat split; assumption | reflexivity].
Qed.

Lemma validateDeviceConfigUi_location_witness :
  "wunderground" <> "wundergroundRadar"
  /\ validateDeviceConfigUi {["location" := "KXXTEST1"]} "wunderground"
     = Accepted.
Proof.
  assert (Hty : "wunderground" <> "wundergroundRadar") by discriminate.
  split; [exact Hty|].
  apply (proj2 (validateDeviceConfigUi_location {["location" := "KXXTEST1"]}
                  "wunderground" Hty) "KXXTEST1");
    [reflexivity | repeat split; solve [discriminate | reflexivity]].
Defined.

(** X26: an accepted radar dialog that carries its name, size and frame
    entries has a name that is not blank, a square image of at least
    100 pixels a side, and between 1 and 15 frames. *)
Theorem validateDeviceConfigUi_radar_size (valuesDict : gmap string string)
    (imagename height width num : string) :
  valuesDict !! "imagename" = Some imagename ->
  valuesDict !! "height" = Some height ->
  valuesDict !! "width" = Some width ->
  valuesDict !! "num" = Some num ->
  validateDeviceConfigUi valuesDict "wundergroundRadar" = Accepted ->
  imagename <> "" /\ isspace imagename = false
  /\ exists side frames,
       int_of_string height = Return side
       /\ int_of_string width = Return side
       /\ 100 <= side
       /\ int_of_string num = Return frames
       /\ 1 <= frames <= 15.
Proof.
  intros Hi Hh Hw Hn. unfold validateDeviceConfigUi.
  change (String.eqb "wundergroundRadar" "wundergroundRadar") with true.
  cbv iota. unfold validate_radar, two_ints, map_getitem.
  rewrite Hi, Hh, Hw, Hn. cbn [mbind result_bind].
  destruct (String.eqb_spec imagename "") as [->|Hne]; [discriminate|].
  destruct (isspace imagename); [discriminate|]. cbn [orb].
  destruct (int_of_string height) as [h|]; cbn [mbind result_bind];
    [|discriminate].
  destruct (int_of_string width) as [w|]; cbn [mbind result_bind];
    [|discriminate].
  unfold check at 1 2 3.
  destruct (Z.leb_spec 100 h); cbn [first_answer]; [|discriminate].
  destruct (Z.leb_spec 100 w); cbn [first_answer]; [|discriminate].
  destruct (Z.eqb_spec h w) as [->|]; cbn [first_answer]; [|discriminate].
  destruct (int_of_string num) as [n|]; [|discriminate].
  unfold check at 1.
  destruct (Z.ltb_spec 0 n); cbn [andb first_answer]; [|discriminate].
  destruct (Z.leb_spec n 15); cbn [first_answer]; [|discriminate].
  intros _. repeat split; try assumption.
  exists w, n. repeat split; try reflexivity; lia.
Qed.

Lemma validateDeviceConfigUi_radar_size_witness :
  let v : gmap string string :=
    {["imagename" := "radar"; "height" := "500"; "width" := "500";
      "num" := "10"; "timelabelx" := "10"; "timelabely" := "20";
      "imagetype" := "radius"; "centerlat" := "41.25";
      "centerlon" := "-87.65"; "radius" := "150"]} in
  validateDeviceConfigUi v "wundergroundRadar" = Accepted
  /\ "radar" <> "" /\ isspace "radar" = false.
Proof.
  intros v.
  assert (H : validateDeviceConfigUi v "wundergroundRadar" = Accepted)
    by (vm_compute; reflexivity).
  split; [exact H|].
  destruct (validateDeviceConfigUi_radar_size v "radar" "500" "500" "10"
              eq_refl eq_refl eq_refl eq_refl H) as (A & B & _).
  split; [exact A | exact B].
Defined.

Lemma validate_boundingbox_passes (valuesDict : gmap string string)
    (maxlat maxlon minlat minlon : string) (r : result (option verdict)) :
  valuesDict !! "maxlat" = Some maxlat ->
  valuesDict !! "maxlon" = Some maxlon ->
  valuesDict !! "minlat" = Some minlat ->
  valuesDict !! "minlon" = Some minlon ->
  validate_boundingbox valuesDict = r ->
  match r with
  | Return (Some v) => v
  | Return None | Raise _ => Accepted
  end = Accepted ->
  exists north east south west,
    float_of_string maxlat = Return north
    /\ float_of_string maxlon = Return east
    /\ float_of_string minlat = Return south
    /\ float_of_string minlon = Return west
    /\ between (-90.0) south 90.0 = true
    /\ between (-90.0) north 90.0 = true
    /\ between (-180.0) west 180.0 = true
    /\ between (-180.0) east 180.0 = true
    /\ (abs north <? abs south)%float = false
    /\ (abs east <? abs west)%float = false.
Proof.
  intros H1 H2 H3 H4 <-.
  unfold validate_boundingbox, one_float, map_getitem.
  rewrite H1, H2, H3, H4. cbn [mbind result_bind].
  destruct (float_of_string maxlat) as [north|]; cbn [mbind result_bind];
    [|discriminate].
  destruct (float_of_string maxlon) as [east|]; cbn [mbind result_bind];
    [|discriminate].
  destruct (float_of_string minlat) as [south|]; cbn [mbind result_bind];
    [|discriminate].
  destruct (float_of_string minlon) as [west|]; cbn [mbind result_bind];
    [|discriminate].
  unfold check.
  destruct (between (-90.0) south 90.0) eqn:B1; cbn [first_answer];
    [|discriminate].
  destruct (between (-90.0) north 90.0) eqn:B2; cbn [first_answer];
    [|discriminate].
  destruct (between (-180.0) west 180.0) eqn:B3; cbn [first_answer];
    [|discriminate].
  destruct (between (-180.0) east 180.0) eqn:B4; cbn [first_answer];
    [|discriminate].
  destruct (abs north <? abs south)%float eqn:B5; cbn [negb first_answer];
    [discriminate|].
  destruct (abs east <? abs west)%float eqn:B6; cbn [negb first_answer];
    [discriminate|].
  intros _. exists north, east, south, west.
  repeat split; first [assumption | reflexivity].
Qed.

(** X27: an accepted bounding box lies within [-90, 90] by
    [-180, 180] and its minimum is not larger in absolute value than
    its maximum, for latitude and for longitude: the comparison is made
    on absolute values, so a box in the southern or western hemisphere
    given with its smaller coordinate as minimum is refused. *)
Theorem validateDeviceConfigUi_boundingbox (valuesDict : gmap string string)
    (imagename height width num timelabelx timelabely : string)
    (maxlat maxlon minlat minlon : string) :
  valuesDict !! "imagename" = Some imagename ->
  valuesDict !! "height" = Some height ->
  valuesDict !! "width" = Some width ->
  valuesDict !! "num" = Some num ->
  valuesDict !! "timelabelx" = Some timelabelx ->
  valuesDict !! "timelabely" = Some timelabely ->
  valuesDict !! "imagetype" = Some "boundingbox" ->
  valuesDict !! "maxlat" = Some maxlat ->
  valuesDict !! "maxlon" = Some maxlon ->
  valuesDict !! "minlat" = Some minlat ->
  valuesDict !! "minlon" = Some minlon ->
  validateDeviceConfigUi valuesDict "wundergroundRadar" = Accepted ->
  exists north east south west,
    float_of_string maxlat = Return north
    /\ float_of_string maxlon = Return east
    /\ float_of_string minlat = Return south
    /\ float_of_string minlon = Return west
    /\ between (-90.0) south 90.0 = true
    /\ between (-90.0) north 90.0 = true
    /\ between (-180.0) west 180.0 = true
    /\ between (-180.0) east 180.0 = true
    /\ (abs north <? abs south)%float = false
    /\ (abs east <? abs west)%float = false.
Proof.
  intros Hi Hh Hw Hn Hx Hy Hty H1 H2 H3 H4.
  pose proof (validate_boundingbox_passes valuesDict maxlat maxlon minlat
                minlon _ H1 H2 H3 H4 eq_refl) as Hbox.
  unfold validateDeviceConfigUi.
  change (String.eqb "wundergroundRadar" "wundergroundRadar") with true.
  cbv iota. unfold validate_radar, two_ints, map_getitem.
  rewrite Hi, Hh, Hw, Hn, Hx, Hy, Hty. cbn [mbind result_bind].
  change (String.eqb "boundingbox" "boundingbox") with true. cbv iota.
  destruct (String.eqb imagename "" || isspace imagename); [discriminate|].
  destruct (int_of_string height) as [h|]; cbn [mbind result_bind];
    [|discriminate].
  destruct (int_of_string width) as [w|]; cbn [mbind result_bind];
    [|discriminate].
  unfold check at 1 2 3.
  destruct (100 <=? h); cbn [first_answer]; [|discriminate].
  destruct (100 <=? w); cbn [first_answer]; [|discriminate].
  destruct (h =? w); cbn [first_answer]; [|discriminate].
  destruct (int_of_string num) as [n|]; [|discriminate].
  unfold check at 1.
  destruct ((0 <? n) && (n <=? 15)); cbn [first_answer]; [|discriminate].
  destruct (int_of_string timelabelx) as [x|]; cbn [mbind result_bind];
    [|discriminate].
  destruct (int_of_string timelabely) as [y|]; cbn [mbind result_bind];
    [|discriminate].
  unfold check at 1 2.
  destruct (0 <=? x); cbn [first_answer]; [|discriminate].
  destruct (0 <=? y); cbn [first_answer]; [|discriminate].
  destruct (validate_boundingbox valuesDict) as [[v|]|e];
    cbn [first_answer]; exact Hbox.
Qed.

Lemma validateDeviceConfigUi_boundingbox_witness :
  let v : gmap string string :=
    {["imagename" := "radar"; "height" := "500"; "width" := "500";
      "num" := "10"; "timelabelx" := "10"; "timelabely" := "20";
      "imagetype" := "boundingbox"; "maxlat" := "43.0"; "maxlon" := "-90.5";
      "minlat" := "39.0"; "minlon" := "-86.5"]} in
  validateDeviceConfigUi v "wundergroundRadar" = Accepted
  /\ exists north south,
       float_of_string "43.0" = Return north
       /\ float_of_string "39.0" = Return south
       /\ (abs north <? abs south)%float = false.
Proof.
  intros v.
  assert (H : validateDeviceConfigUi v "wundergroundRadar" = Accepted)
    by (vm_compute; reflexivity).
  split; [exact H|].
  destruct (validateDeviceConfigUi_boundingbox v "radar" "500" "500" "10"
              "10" "20" "43.0" "-90.5" "39.0" "-86.5"
              eq_refl eq_refl eq_refl eq_refl eq_refl eq_refl eq_refl
              eq_refl eq_refl eq_refl eq_refl H)
    as (north & east & south & west & A & _ & C & _ & _ & _ & _ & _ & E & _).
  exists north, south. repeat split; assumption.
Defined.

(** ** UnitFormatter *)

(** X28: what the formatters show for a value that is not a number
    (the placeholder ["--"] among them): the temperature formatter
    shows ["--"] without units, the percentage formatter shows the text
    followed by the units, the wind formatter shows the text alone,
    whatever its precision setting. *)
Theorem formatters_on_non_number (uiTempDecimal uiHumidityDecimal
    uiWindDecimal : option pyval) (dev : device) (state_name val : string)
    (dT dH : Z) (e : exn) :
  float_of_string val = Raise e ->
  py_int (default (PyInt 1) uiTempDecimal) = Return dT ->
  py_int (default (PyInt 1) uiHumidityDecimal) = Return dH ->
  uiFormatTemperature uiTempDecimal dev state_name val = Return "--"
  /\ uiFormatPercentage uiHumidityDecimal dev state_name val
     = Return (val +:+ default "" (pluginProps dev !! "percentageUnits"))
  /\ uiFormatWind uiWindDecimal dev state_name val = Return val.
Proof.
  intros Hv HT HH.
  unfold uiFormatTemperature, uiFormatPercentage, uiFormatWind, format_reading.
  rewrite Hv, HT, HH. repeat split; reflexivity.
Qed.

Lemma formatters_on_non_number_witness :
  float_of_string "--" = Raise ValueError
  /\ uiFormatTemperature None new_device "tempF (S)" "--" = Return "--"
  /\ uiFormatWind (Some (PyStr "1")) new_device "windGust" "--" = Return "--".
Proof.
  split; [reflexivity|].
  destruct (formatters_on_non_number None None (Some (PyStr "1")) new_device
              "tempF (S)" "--" 1 1 ValueError eq_refl eq_refl eq_refl)
    as (A & _ & C).
  split; [exact A|].
  destruct (formatters_on_non_number None None (Some (PyStr "1")) new_device
              "windGust" "--" 1 1 ValueError eq_refl eq_refl eq_refl)
    as (_ & _ & C').
  exact C'.
Defined.

Lemma append_assoc (a b c : string) : (a +:+ b) +:+ c = a +:+ (b +:+ c).
Proof.
  induction a as [|x a IH]; [reflexivity|].
  change (String x ((a +:+ b) +:+ c) = String x (a +:+ (b +:+ c))).
  f_equal. exact IH.
Qed.

Lemma length_zeros (n : nat) : String.length (zeros n) = n.
Proof. induction n as [|n IH]; simpl; [reflexivity | now rewrite IH]. Qed.

Lemma length_substring (s : string) (n m : nat) :
  (n + m <= String.length s)%nat -> String.length (substring n m s) = m.
Proof.
  revert n m. induction s as [|c s IH]; intros n m H; simpl in *.
  - assert (m = 0%nat) by lia. subst m. destruct n; reflexivity.
  - destruct n as [|n].
    + destruct m as [|m]; [reflexivity|]. simpl. rewrite (IH 0%nat m); lia.
    + apply IH. lia.
Qed.

Lemma fixed_digits_shape (neg : bool) (r : Z) (p : nat) :
  (0 < p)%nat ->
  exists whole frac,
    fixed_digits neg r p = whole +:+ "." +:+ frac
    /\ String.length frac = p.
Proof.
  intros Hp. unfold fixed_digits.
  set (ds := zeros (S p - String.length (digits_of_Z r)) +:+ digits_of_Z r).
  assert (Hlen : (S p <= String.length ds)%nat).
  { subst ds. rewrite length_append, length_zeros. lia. }
  destruct (Nat.eqb_spec p 0); [lia|].
  exists ((if neg then "" +:+ "-" else "")
          +:+ substring 0 (String.length ds - p) ds),
         (substring (String.length ds - p) p ds).
  split.
  - destruct neg; simpl; reflexivity.
  - apply length_substring. lia.
Qed.

Lemma format_fixed_shape (f : float) (p : nat) :
  finite f = true -> (0 < p)%nat ->
  exists whole frac,
    format_fixed f p = whole +:+ "." +:+ frac /\ String.length frac = p.
Proof.
  unfold finite, format_fixed. intros Hf Hp.
  destruct (Prim2SF f); try discriminate; apply fixed_digits_shape; exact Hp.
Qed.

(** X29: a reading that is a finite number is shown with exactly the
    configured number of decimals, followed by the device's units; a
    negative precision setting gives ["--"] instead. *)
Theorem uiFormatTemperature_precision (uiTempDecimal : option pyval)
    (dev : device) (state_name val : string) (f : float) (d : Z) :
  float_of_string val = Return f ->
  finite f = true ->
  py_int (default (PyInt 1) uiTempDecimal) = Return d ->
  (0 < d ->
   exists whole frac,
     uiFormatTemperature uiTempDecimal dev state_name val
     = Return (whole +:+ "." +:+ frac
               +:+ default "" (pluginProps dev !! "temperatureUnits"))
     /\ String.length frac = Z.to_nat d)
  /\ (d < 0 ->
      uiFormatTemperature uiTempDecimal dev state_name val = Return "--").
Proof.
  intros Hv Hf Hd.
  unfold uiFormatTemperature, format_reading. rewrite Hd, Hv.
  cbn [mbind result_bind py_int]. split; intros Hs.
  - destruct (Z.ltb_spec d 0); [lia|].
    destruct (format_fixed_shape f (Z.to_nat d) Hf) as (whole & frac & E & L);
      [lia|].
    exists whole, frac. split; [|exact L].
    cbn [mbind result_bind]. rewrite E.
    rewrite !append_assoc. reflexivity.
  - destruct (Z.ltb_spec d 0); [reflexivity | lia].
Qed.

Lemma uiFormatTemperature_precision_witness :
  let dev := a_device 7 "Back yard" "WUnderground Weather"
               {["temperatureUnits" := " F"]} ∅ in
  uiFormatTemperature (Some (PyStr "1")) dev "tempF (S)" "72.345"
  = Return "72.3 F"
  /\ exists whole frac,
       uiFormatTemperature (Some (PyStr "1")) dev "tempF (S)" "72.345"
       = Return (whole +:+ "." +:+ frac +:+ " F")
       /\ String.length frac = 1%nat.
Proof.
  intros dev. split; [vm_compute; reflexivity|].
  refine (proj1 (uiFormatTemperature_precision (Some (PyStr "1")) dev
                   "tempF (S)" "72.345" 72.345%float 1 _ _ _) _);
    solve [vm_compute; reflexivity | lia].
Defined.

(** ** Wind names *)

Lemma wind_names_are_not_keys (val name : string) :
  assoc_get wind_dict val = Some name -> assoc_get wind_dict name = None.
Proof.
  intros H. unfold wind_dict in H. cbn [assoc_get] in H.
  repeat match type of H with
         | (if ?b then _ else _) = _ =>
             destruct b; [injection H as <-; reflexivity|]
         end.
  discriminate.
Qed.

(** X30: with debugging below level 3, [verboseWindNames] never raises
    and settles at once: a compass abbreviation becomes its name, any
    other value stays, and the result is left unchanged by a second
    pass.  With debugging on at level 3 an unknown value raises
    [KeyError] from the log line. *)
Theorem verboseWindNames_settles (debug : bool) (showDebugLevel : Z)
    (state_name val : string) :
  (debug && (3 <=? showDebugLevel) = false ->
   exists r, verboseWindNames debug showDebugLevel state_name val = Return r
     /\ verboseWindNames debug showDebugLevel state_name r = Return r)
  /\ (debug && (3 <=? showDebugLevel) = true ->
      assoc_get wind_dict val = None ->
      verboseWindNames debug showDebugLevel state_name val = Raise KeyError).
Proof.
  unfold verboseWindNames. split.
  - intros ->. cbn [mbind result_bind].
    destruct (assoc_get wind_dict val) as [name|] eqn:E.
    + exists name. split; [reflexivity|].
      rewrite (wind_names_are_not_keys val name E). reflexivity.
    + exists val. split; [reflexivity|]. rewrite E. reflexivity.
  - intros -> E. rewrite E. reflexivity.
Qed.

Lemma verboseWindNames_settles_witness :
  verboseWindNames true 3 "windDir" "Variable" = Raise KeyError
  /\ verboseWindNames false 3 "windDir" "Variable" = Return "Variable".
Proof.
  split.
  - apply (proj2 (verboseWindNames_settles true 3 "windDir" "Variable"));
      reflexivity.
  - reflexivity.
Defined.
